(** * MeditationAgent: the generation pipeline, embedded and verified

    The development follows the JavaScript sources of the cloud function:

    - [JS]                 the fragment of the JavaScript runtime the code relies on
                           (numbers, truthiness, [||], [??], unary [+], [Math.*],
                           [Buffer.byteLength]);
    - [Config]             [config.js];
    - [Tts]                [utils/tts.js] ([synthesizeSpeech], [_innerSynthesize] and
                           the [pending] registry);
    - [PromptBuilder]      [utils/meditation_prompt.js];
    - [MeditationGuide]    [router/meditationGuide.js];
    - [GenerateMeditation] [router/generateMeditation.js].

    Numbers are binary64 floats, as in the language.  Strings that the code
    inspects character by character are sequences of UTF-16 code units;
    identifiers, codes and messages that are only compared or passed on are
    plain strings.  External services (the model endpoint, the speech provider,
    the object store) are oracles, and every call to them is recorded in a
    trace. *)

From Stdlib Require Import Floats ZArith NArith String Ascii Bool List Lia Uint63 Sorted.
From stdpp Require Import gmap strings list pretty.

Set Warnings "-inexact-float,-register-all".

(* ===================================================================== *)
(** ** The JavaScript fragment *)
(* ===================================================================== *)

Module JS.

(** A string as the runtime stores it: UTF-16 code units. *)
Definition jsstring := list N.

(** An ASCII literal as a [jsstring]. *)
Definition lit (s : string) : jsstring :=
  map N_of_ascii (list_ascii_of_string s).

(** Values that reach the option fields the code reads.  [VObj] is a plain
    object literal. *)
Inductive value :=
| VUndefined
| VNull
| VBool (b : bool)
| VNum (n : float)
| VStr (s : jsstring)
| VObj (fields : list (string * value)).

(** What a function call produces: a value, or a thrown [Error]. *)
Record Exn := mkExn {
  exn_message : string;
  exn_code : option string;
  exn_stack : string
}.

Inductive outcome (A : Type) :=
| Ok (a : A)
| Throw (e : Exn).
Arguments Ok {A} a.
Arguments Throw {A} e.

Definition Error (msg : string) : Exn :=
  {| exn_message := msg; exn_code := None; exn_stack := msg |}.

Definition is_ok {A} (o : outcome A) : bool :=
  match o with Ok _ => true | Throw _ => false end.

(** The primitives of the host that the code calls and this development
    leaves abstract. *)
Class Runtime := {
  (** [Number(s)] for a string *)
  StringToNumber : jsstring -> float;
  (** [String(n)] for a number, as template literals apply it *)
  NumberToString : float -> string;
  (** [crypto.createHash('md5').update(s).digest('hex')] *)
  md5 : jsstring -> string;
  (** [Buffer.from(s, 'base64').toString('base64')]: the bytes a string
      decodes to, encoded again *)
  base64_again : string -> string;
}.

Definition truthy_number (x : float) : bool :=
  negb (PrimFloat.is_nan x || PrimFloat.is_zero x).

Definition truthy (v : value) : bool :=
  match v with
  | VUndefined | VNull => false
  | VBool b => b
  | VNum n => truthy_number n
  | VStr s => match s with [] => false | _ => true end
  | VObj _ => true
  end.

Definition is_string (v : value) : bool :=
  match v with VStr _ => true | _ => false end.

Definition is_nullish (v : value) : bool :=
  match v with VUndefined | VNull => true | _ => false end.

(** [a || b] *)
Definition or_else (a b : value) : value := if truthy a then a else b.

(** [a ?? b] *)
Definition coalesce (a b : value) : value := if is_nullish a then b else a.

(** [x || d] on numbers *)
Definition num_or (x d : float) : float := if truthy_number x then x else d.

(** [s || d] on a possibly missing plain string *)
Definition str_or (s : option string) (d : string) : string :=
  match s with
  | Some x => if String.eqb x "" then d else x
  | None => d
  end.

(** Unary plus.  A plain object converts through ["[object Object]"]. *)
Definition ToNumber `{Runtime} (v : value) : float :=
  match v with
  | VUndefined => nan
  | VNull => 0%float
  | VBool b => if b then 1%float else 0%float
  | VNum n => n
  | VStr s => StringToNumber s
  | VObj _ => nan
  end.

Definition Math_min (a b : float) : float :=
  if PrimFloat.is_nan a || PrimFloat.is_nan b then nan
  else if (a <? b)%float then a
  else if (b <? a)%float then b
  else if PrimFloat.get_sign a then a else b.

Definition Math_max (a b : float) : float :=
  if PrimFloat.is_nan a || PrimFloat.is_nan b then nan
  else if (a <? b)%float then b
  else if (b <? a)%float then a
  else if PrimFloat.get_sign a then b else a.

(** [Math.floor]: a finite number with a negative exponent is cut at the
    binary point; every other number is already integral, zero, infinite or
    NaN. *)
Definition Math_floor (x : float) : float :=
  match Prim2SF x with
  | S754_finite s m e =>
      if (0 <=? e)%Z then x
      else
        let q := (Z.pos m / 2 ^ (- e))%Z in
        let exact := (Z.pos m mod 2 ^ (- e) =? 0)%Z in
        let fq := PrimFloat.of_uint63 (Uint63.of_Z q) in
        if s then (if exact then - fq else - (fq + 1))%float else fq
  | _ => x
  end.

Definition Math_ceil (x : float) : float := (- Math_floor (- x))%float.

(** An array length as a number. *)
Definition of_nat (n : nat) : float :=
  PrimFloat.of_uint63 (Uint63.of_Z (Z.of_nat n)).

Definition is_high_surrogate (c : N) : bool := (0xD800 <=? c)%N && (c <=? 0xDBFF)%N.
Definition is_low_surrogate (c : N) : bool := (0xDC00 <=? c)%N && (c <=? 0xDFFF)%N.

(** [Buffer.byteLength(s, 'utf8')]: one byte below U+0080, two below U+0800,
    four for a surrogate pair, three otherwise (a lone surrogate is written
    as U+FFFD). *)
Fixpoint byteLength (s : jsstring) : N :=
  match s with
  | [] => 0
  | c :: rest =>
      if (c <? 0x80)%N then 1 + byteLength rest
      else if (c <? 0x800)%N then 2 + byteLength rest
      else if is_high_surrogate c then
        match rest with
        | d :: rest' =>
            if is_low_surrogate d then 4 + byteLength rest'
            else 3 + byteLength rest
        | [] => 3
        end
      else 3 + byteLength rest
  end%N.

(** The class [\s] of regular expressions. *)
Definition is_space (c : N) : bool :=
  ((9 <=? c) && (c <=? 13) || (c =? 32) || (c =? 0xA0) || (c =? 0x1680)
   || (0x2000 <=? c) && (c <=? 0x200A) || (c =? 0x2028) || (c =? 0x2029)
   || (c =? 0x202F) || (c =? 0x205F) || (c =? 0x3000) || (c =? 0xFEFF))%N.

End JS.

(* ===================================================================== *)
(** ** config.js *)
(* ===================================================================== *)

Module Config.

(** The part of the configuration read from the environment. *)
Record Env := {
  DEFAULT_MODEL : string;
  ENABLE_ANALYTICS : bool;
  STRICT_TOPIC_VALIDATION : bool;
  (** [process.env.NODE_ENV === 'development'] *)
  NODE_ENV_development : bool
}.

Definition DEFAULT_VOICE_TYPE : string := "zh-CN-XiaoyouNeural".
Definition DEFAULT_SPEED : float := 0.85%float.
Definition DEFAULT_VOLUME : float := 0%float.
Definition DEFAULT_FORMAT : string := "mp3".

Definition MIN_DURATION : float := 3%float.
Definition MAX_DURATION : float := 60%float.
Definition DEFAULT_DURATION : float := 10%float.
Definition WORDS_PER_MINUTE : float := 175%float.
Definition TOKENS_PER_WORD : float := 1.5%float.
Definition TOKEN_BUFFER : float := 1.2%float.

(** The two voice tables, read at a key that is not the name of a property
    every object inherits. *)
Definition TOPIC_VOICE_MAP (topic : string) : option string :=
  if String.eqb topic "助眠" then Some "zh-CN-XiaoyouNeural"
  else if String.eqb topic "晨间唤醒" then Some "zh-CN-YunyangNeural"
  else if String.eqb topic "儿童冥想" then Some "zh-CN-XiaoxiaoNeural"
  else None.

Definition STYLE_VOICE_MAP (style : string) : option string :=
  if String.eqb style "gentle" then Some "zh-CN-XiaoyouNeural"
  else if String.eqb style "healing" then Some "zh-CN-YunxiNeural"
  else if String.eqb style "mindful" then Some "zh-CN-XiaoxiaoNeural"
  else if String.eqb style "zen" then Some "zh-CN-YunzeNeural"
  else if String.eqb style "nature" then Some "zh-CN-XiaoyouNeural"
  else if String.eqb style "modern" then Some "zh-CN-YunyangNeural"
  else None.

Definition SUPPORTED_LANGUAGES : list string := ["zh"; "en"].

(** [config.ERROR_CODES]: each member with the string it stands for. *)
Module ERROR_CODES.
Definition NO_API_KEY : string := "LLM_CONFIG_NO_KEY".
Definition EMPTY_RESPONSE : string := "LLM_RESPONSE_EMPTY".
Definition HTTP_ERROR : string := "LLM_HTTP_ERROR".
Definition INVALID_LANGUAGE : string := "PARAM_INVALID_LANGUAGE".
Definition INVALID_DURATION : string := "PARAM_INVALID_DURATION".
Definition INVALID_TOPIC : string := "PARAM_INVALID_TOPIC".
Definition LLM_FAILED : string := "LLM_CALL_FAILED".
Definition TTS_FAILED : string := "TTS_SYNTHESIS_FAILED".
Definition EMPTY_CONTENT : string := "LLM_CONTENT_EMPTY".
Definition MEDITATION_GENERATION_ERROR : string := "MEDITATION_GENERATION_ERROR".
End ERROR_CODES.

End Config.

(* ===================================================================== *)
(** ** utils/tts.js *)
(* ===================================================================== *)

Module Tts.
Import JS.

(** [cfg], read from the environment when the module loads. *)
Record Cfg := {
  tts_defaultLang : string;
  cos_bucket : option string;
  cos_region : option string;
  cos_cdn : option string
}.

(** The [opts] argument of [synthesizeSpeech]. *)
Record Opts := {
  o_voiceType : value;
  o_speed : value;
  o_volume : value;
  o_sampleRate : value;
  o_lang : value;
  o_hq : value
}.

(** [opts = {}], the default. *)
Definition no_opts : Opts :=
  {| o_voiceType := VUndefined; o_speed := VUndefined; o_volume := VUndefined;
     o_sampleRate := VUndefined; o_lang := VUndefined; o_hq := VUndefined |}.

(** [fullOpts] *)
Record FullOpts := {
  voiceType : float;
  speed : float;
  volume : float;
  sampleRate : float;
  lang : value
}.

(** What [synthesizeSpeech] resolves with. *)
Record SynthResult := {
  sr_url : option string;
  sr_base64 : option string
}.

(** The request handed to the speech provider. *)
Record TextToVoiceRequest := {
  Text : jsstring;
  VoiceType : float;
  PrimaryLanguage : float;
  SampleRate : float;
  Speed : float;
  Volume : float;
  SessionId : string
}.

(** Calls that leave the process. *)
Inductive net_event :=
| EvHeadObject (key : string)
| EvTextToVoice (attempt : nat) (req : TextToVoiceRequest)
| EvPutObject (key : string) (cosAttempt : nat).

Inductive head_reply := HeadFound | HeadNotFound | HeadFailed.

(** The remote services: the store's answer to a probe, the provider's answer
    to each attempt (the audio, or the error or timeout the attempt ends with)
    and the store's answer to each upload. *)
Record Remote := {
  headObject : string -> head_reply;
  TextToVoice : nat -> outcome string;
  putObject : nat -> nat -> option Exn
}.

Definition clamp (n min max : float) : float := Math_max min (Math_min max n).

Definition langMap (k : string) : option float :=
  if String.eqb k "zh" then Some 1%float
  else if String.eqb k "en" then Some 2%float
  else if String.eqb k "ja" then Some 3%float
  else None.

(** [s] is set and not empty *)
Definition configured (s : option string) : bool :=
  match s with Some x => negb (String.eqb x "") | None => false end.

Definition shown (s : option string) : string :=
  match s with Some x => x | None => "undefined" end.

Section WithRuntime.
Context `{Runtime}.

(** [+v ?? d]: the unary plus is applied first, so [??] sees a number. *)
Definition plus_coalesce (v : value) (d : float) : float :=
  match coalesce (VNum (ToNumber v)) (VNum d) with
  | VNum n => n
  | _ => d
  end.

(** [+v || d] *)
Definition plus_or (v : value) (d : float) : float := num_or (ToNumber v) d.

(** A value inside a template literal. *)
Definition ToString (v : value) : jsstring :=
  match v with
  | VUndefined => lit "undefined"
  | VNull => lit "null"
  | VBool b => if b then lit "true" else lit "false"
  | VNum n => lit (NumberToString n)
  | VStr s => s
  | VObj _ => lit "[object Object]"
  end.

(** The key under which [langMap] is read.  Its keys are ASCII, so a value
    that is not an ASCII string finds nothing. *)
Definition property_key (v : value) : option string :=
  match v with
  | VStr s =>
      if forallb (fun c => (c <? 128)%N) s
      then Some (string_of_list_ascii (map ascii_of_N s))
      else None
  | _ => None
  end.

Definition underscore : jsstring := lit "_".

(** The [fullOpts] of [synthesizeSpeech], after the [hq] adjustment. *)
Definition normalize (opts : Opts) : FullOpts :=
  let sampleRate0 :=
    if truthy (o_hq opts) && negb (truthy (o_sampleRate opts))
    then VNum 16000%float else o_sampleRate opts in
  {| voiceType := plus_or (o_voiceType opts) 1001%float;
     speed := clamp (plus_coalesce (o_speed opts) 0%float) (-2)%float 2%float;
     volume := clamp (plus_coalesce (o_volume opts) 5%float) 0%float 10%float;
     sampleRate := plus_or sampleRate0 16000%float;
     lang := or_else (o_lang opts) (VStr (lit "zh")) |}.

Definition dedupKey (fullOpts : FullOpts) (text : jsstring) : string :=
  md5 (lit (NumberToString (voiceType fullOpts)) ++ underscore
       ++ lit (NumberToString (speed fullOpts)) ++ underscore
       ++ lit (NumberToString (volume fullOpts)) ++ underscore
       ++ lit (NumberToString (sampleRate fullOpts)) ++ underscore
       ++ ToString (lang fullOpts) ++ underscore ++ text).

Definition E_empty : Exn := Error "[TTS] text 不能为空".

Definition E_too_long (byteLength : N) : Exn :=
  Error ("[TTS] text 超长（" ++ pretty byteLength ++ " 字节，限制 2000 字节）").

(** [synthesizeSpeech] up to the registry: the checks, the normalisation and
    the key under which the call is registered. *)
Definition prepare (text : value) (opts : Opts)
  : outcome (jsstring * FullOpts * string) :=
  if negb (truthy text) || negb (is_string text) then Throw E_empty
  else
    match text with
    | VStr s =>
        let byteLength := JS.byteLength s in
        if (2000 <? byteLength)%N then Throw (E_too_long byteLength)
        else
          let fullOpts := normalize opts in
          Ok (s, fullOpts, dedupKey fullOpts s)
    | _ => Throw E_empty
    end.

Section Inner.
Variable cfg : Cfg.
Variable remote : Remote.

Definition buildUrl (k : string) : string :=
  if configured (cos_cdn cfg) then shown (cos_cdn cfg) ++ "/" ++ k
  else "https://" ++ shown (cos_bucket cfg) ++ ".cos." ++ shown (cos_region cfg)
       ++ ".myqcloud.com/" ++ k.

Definition store_configured : bool :=
  configured (cos_bucket cfg) && configured (cos_region cfg).

(** The upload loop of one synthesis attempt: [true] when an upload went
    through. *)
Fixpoint cosLoop (attempt : nat) (cacheKey : string) (remaining cosAttempt : nat)
  : bool * list net_event :=
  match remaining with
  | 0 => (false, [])
  | S remaining' =>
      match putObject remote attempt cosAttempt with
      | None => (true, [EvPutObject cacheKey cosAttempt])
      | Some _ =>
          let '(ok, tr) := cosLoop attempt cacheKey remaining' (S cosAttempt) in
          (ok, EvPutObject cacheKey cosAttempt :: tr)
      end
  end.

(** The synthesis loop. *)
Fixpoint ttsLoop (req : TextToVoiceRequest) (cacheKey : string)
    (remaining attempt : nat) (lastError : option Exn)
  : outcome SynthResult * list net_event :=
  match remaining with
  | 0 =>
      (Throw (Error ("[TTS] 合成失败: "
                     ++ match lastError with
                        | Some e => exn_message e
                        | None => "undefined"
                        end)), [])
  | S remaining' =>
      match TextToVoice remote attempt with
      | Ok audio =>
          let base64 := ("data:audio/mpeg;base64," ++ base64_again audio)%string in
          if store_configured then
            let '(ok, tr) := cosLoop attempt cacheKey 2 0 in
            if ok
            then (Ok {| sr_url := Some (buildUrl cacheKey); sr_base64 := Some base64 |},
                  EvTextToVoice attempt req :: tr)
            else (Ok {| sr_url := None; sr_base64 := Some base64 |},
                  EvTextToVoice attempt req :: tr)
          else (Ok {| sr_url := None; sr_base64 := Some base64 |},
                [EvTextToVoice attempt req])
      | Throw e =>
          let '(res, tr) := ttsLoop req cacheKey remaining' (S attempt) (Some e) in
          (res, EvTextToVoice attempt req :: tr)
      end
  end.

Definition _innerSynthesize (text : jsstring) (opts : FullOpts)
  : outcome SynthResult * list net_event :=
  let voiceType := num_or (voiceType opts) 1001%float in
  let speed := clamp (plus_coalesce (VNum (speed opts)) 0%float) (-2)%float 2%float in
  let volume := clamp (plus_coalesce (VNum (volume opts)) 5%float) 0%float 10%float in
  let sampleRate := num_or (sampleRate opts) 16000%float in
  let primaryLanguage :=
    match property_key (lang opts) ≫= langMap with
    | Some c => c
    | None =>
        match langMap (tts_defaultLang cfg) with
        | Some c => c
        | None => 1%float
        end
    end in
  let digest :=
    md5 (lit (NumberToString voiceType) ++ underscore
         ++ lit (NumberToString speed) ++ underscore
         ++ lit (NumberToString volume) ++ underscore
         ++ lit (NumberToString sampleRate) ++ underscore
         ++ lit (NumberToString primaryLanguage) ++ underscore ++ text) in
  let cacheKey := ("meditation/audio/" ++ digest ++ ".mp3")%string in
  let req :=
    {| Text := text; VoiceType := voiceType; PrimaryLanguage := primaryLanguage;
       SampleRate := sampleRate; Speed := speed; Volume := volume;
       SessionId := substring 0 32 (md5 text) |} in
  if store_configured then
    match headObject remote cacheKey with
    | HeadFound =>
        (Ok {| sr_url := Some (buildUrl cacheKey); sr_base64 := None |},
         [EvHeadObject cacheKey])
    | _ =>
        let '(res, tr) := ttsLoop req cacheKey 2 0 None in
        (res, EvHeadObject cacheKey :: tr)
    end
  else ttsLoop req cacheKey 2 0 None.

(** [await synthesizeSpeech(text, opts)] while no other call is in flight:
    the checks, then the synthesis itself. *)
Definition synthesizeSpeech (text : value) (opts : Opts)
  : outcome SynthResult * list net_event :=
  match prepare text opts with
  | Throw e => (Throw e, [])
  | Ok (s, fullOpts, _) => _innerSynthesize s fullOpts
  end.

End Inner.

(** *** The [pending] registry

    Tasks are numbered in the order [_innerSynthesize] starts them.  [running]
    holds the tasks that have not settled, each with the key its [finally]
    callback deletes; [created] counts the tasks started so far. *)
Record Registry := {
  pending : gmap string nat;
  running : gmap nat string;
  created : nat
}.

Definition idle : Registry := {| pending := ∅; running := ∅; created := 0 |}.

(** A call of [synthesizeSpeech]: it throws, or hands back a task. *)
Definition invoke (r : Registry) (text : value) (opts : Opts)
  : outcome nat * Registry :=
  match prepare text opts with
  | Throw e => (Throw e, r)
  | Ok (_, _, cacheKey) =>
      match pending r !! cacheKey with
      | Some task => (Ok task, r)
      | None =>
          let task := created r in
          (Ok task,
           {| pending := <[cacheKey := task]> (pending r);
              running := <[task := cacheKey]> (running r);
              created := S (created r) |})
      end
  end.

(** A task settles, fulfilled or rejected, and its [finally] callback runs. *)
Definition settle (r : Registry) (task : nat) (fulfilled : bool) : Registry :=
  match running r !! task with
  | Some cacheKey =>
      {| pending := delete cacheKey (pending r);
         running := delete task (running r);
         created := created r |}
  | None => r
  end.

Inductive action :=
| Invoke (text : value) (opts : Opts)
| Settle (task : nat) (fulfilled : bool).

Definition step (r : Registry) (a : action) : Registry :=
  match a with
  | Invoke text opts => snd (invoke r text opts)
  | Settle task fulfilled => settle r task fulfilled
  end.

Definition run (acts : list action) (r : Registry) : Registry :=
  fold_left step acts r.

(** The registry and the unsettled tasks agree: a key is registered for a
    task exactly when that task is unsettled and was started for the key. *)
Definition consistent (r : Registry) : Prop :=
  (forall k t, pending r !! k = Some t <-> running r !! t = Some k)
  /\ (forall t k, running r !! t = Some k -> t < created r).

(** No action of [acts] settles [task]. *)
Definition unsettled (task : nat) (acts : list action) : Prop :=
  Forall (fun a => forall fulfilled, a <> Settle task fulfilled) acts.

End WithRuntime.

(** The registry, the unsettled tasks and the task counter, by size. *)
Definition sized (r : Registry) : Prop :=
  size (pending r) = size (running r) /\ size (running r) <= created r.

(** Settling the tasks of [tasks], in the order and with the outcomes
    listed. *)
Definition settle_all (tasks : list (nat * bool)) : list action :=
  map (fun '(task, fulfilled) => Settle task fulfilled) tasks.

End Tts.

(* ===================================================================== *)
(** ** utils/meditation_prompt.js *)
(* ===================================================================== *)

Module PromptBuilder.
Import JS.
Local Open Scope string_scope.

(** An entry of [prompts/meditation_types.json]. *)
Record TopicDescriptor := {
  t_id : string;
  t_name : gmap string string;
  t_description : gmap string string;
  t_recommendedStyles : list string;
  t_defaultDuration : float;
  t_targetAudience : gmap string (list string);
  t_benefits : gmap string (list string);
  t_keywords : list string;
  t_techniques : option (list string);
  t_bestTime : option (list string);
  t_progression : option (list string)
}.

(** [meditationConfig], the parsed file. *)
Record MeditationConfig := {
  types : list TopicDescriptor;
  styleDefinitions : list (string * gmap string string)
}.

Record Customization := {
  additionalConstraints : option (list string);
  specialRequirements : option (list string)
}.

Definition no_customization : Customization :=
  {| additionalConstraints := None; specialRequirements := None |}.

(** The argument of [buildPrompt]; [None] is a property left out. *)
Record Params := {
  p_topic : option string;
  p_style : option string;
  p_duration : option float;
  p_language : option string;
  p_customization : option Customization
}.

(** What [getTopicDetails] returns. *)
Record TopicDetails := {
  td_id : string;
  td_name : option string;
  td_description : option string;
  td_recommendedStyles : list string;
  td_defaultDuration : float;
  td_targetAudience : option (list string);
  td_benefits : option (list string);
  td_keywords : list string
}.

Record Template := {
  systemRole : string;
  c_tone : string;
  c_structure : string;
  c_language : string;
  c_timing : string
}.

Definition dq : string := String "034"%char EmptyString.
Definition nl : string := String "010"%char EmptyString.

Definition template_zh : Template :=
  {| systemRole := "你是一位经验丰富的冥想引导师，擅长用温和、平静的语言引导练习者进入深度放松状态。";
     c_tone := "语气温和、节奏缓慢、充满关怀";
     c_structure := "包含开场引导、主体练习、结束回归三个部分";
     c_language := "使用简单易懂的语言，避免专业术语";
     c_timing := "适当留白，给练习者充分的感受时间" |}.

Definition template_en : Template :=
  {| systemRole := "You are an experienced meditation guide, skilled in using gentle and calm language to guide practitioners into deep relaxation.";
     c_tone := "Gentle, slow-paced, caring";
     c_structure := "Include opening guidance, main practice, and closing return";
     c_language := "Use simple, accessible language, avoid jargon";
     c_timing := "Include appropriate pauses for practitioners to experience" |}.

Definition templates (language : string) : option Template :=
  if String.eqb language "zh" then Some template_zh
  else if String.eqb language "en" then Some template_en
  else None.

Definition nonempty (s : option string) : option string :=
  match s with
  | Some x => if String.eqb x "" then None else Some x
  | None => None
  end.

Definition join (sep : string) (l : list string) : string := String.concat sep l.

Section WithCatalog.
Context `{Runtime}.
Variable meditationConfig : MeditationConfig.

(** [this.styleMap[key]], for a [key] that is not the name of a property
    every object inherits *)
Definition styleMap (key : string) : option string :=
  match List.find (fun kv => String.eqb (fst kv) key) (styleDefinitions meditationConfig) with
  | Some kv => snd kv !! "zh"
  | None => None
  end.

Definition durationMap (duration : float) : option string :=
  if (duration =? 5)%float then Some "简短练习（约5分钟）"
  else if (duration =? 10)%float then Some "标准练习（约10分钟）"
  else if (duration =? 15)%float then Some "深度练习（约15分钟）"
  else if (duration =? 20)%float then Some "完整练习（约20分钟）"
  else None.

Definition _findTopicConfig (topic : string) : option TopicDescriptor :=
  List.find (fun t =>
       String.eqb (t_id t) topic
    || bool_decide (t_name t !! "zh" = Some topic)
    || bool_decide (t_name t !! "en" = Some topic)
    || existsb (String.eqb topic) (t_keywords t))
    (types meditationConfig).

(** The parameters [buildPrompt] works with once the defaults of its
    signature and of the topic have been applied: the topic's entry, the
    style and the duration. *)
Definition effective (p : Params) : option TopicDescriptor * option string * float :=
  let topic := default "基础放松" (p_topic p) in
  let style := default "gentle" (p_style p) in
  let duration := default 10%float (p_duration p) in
  match _findTopicConfig topic with
  | Some topicConfig =>
      (Some topicConfig,
       if String.eqb style "" then head (t_recommendedStyles topicConfig) else Some style,
       num_or duration (t_defaultDuration topicConfig))
  | None => (None, Some style, duration)
  end.

Definition _buildMainInstruction (topic : string) (style duration : string)
    (language : string) (topicConfig : option TopicDescriptor) : string :=
  let topicName :=
    match topicConfig with
    | Some tc => Tts.shown (t_name tc !! language)
    | None => topic
    end in
  let description :=
    match topicConfig with
    | Some tc => nonempty (t_description tc !! language)
    | None => None
    end in
  if String.eqb language "zh" then
    let instruction :=
      "请为「" ++ topicName ++ "」主题创建一段" ++ style ++ "风格的冥想引导词，时长"
      ++ duration ++ "。" in
    match description with
    | Some d => instruction ++ nl ++ "主题说明：" ++ d
    | None => instruction
    end
  else
    let instruction :=
      "Please create a " ++ style ++ " style meditation guidance for " ++ dq
      ++ topicName ++ dq ++ ", duration " ++ duration ++ "." in
    match description with
    | Some d => instruction ++ nl ++ "Theme description: " ++ d
    | None => instruction
    end.

Definition _buildConstraints (t : Template) (customization : Customization)
    (topicConfig : option TopicDescriptor) : string :=
  let bullet := fun v : string => "- " ++ v in
  let fromTemplate := map bullet [c_tone t; c_structure t; c_language t; c_timing t] in
  let fromTopic :=
    match topicConfig with
    | Some tc =>
        app
          match t_targetAudience tc !! "zh" with
          | Some a => ["- 适合人群：" ++ join "、" a]
          | None => []
          end
          match t_benefits tc !! "zh" with
          | Some b => ["- 练习益处：" ++ join "、" b]
          | None => []
          end
    | None => []
    end in
  let custom :=
    match additionalConstraints customization with
    | Some l => map bullet l
    | None => []
    end in
  join nl (fromTemplate ++ fromTopic ++ custom)%list.

Definition _buildOutputFormat (duration : float) (language : string) : string :=
  join nl
    (if String.eqb language "zh" then
       [ "1. 开场引导（1-2分钟）：帮助练习者放松身心，进入冥想状态";
         "2. 主体练习（根据主题展开）：核心引导内容";
         "3. 结束回归（1分钟）：温和地引导练习者回到当下";
         "4. 使用" ++ dq ++ "..." ++ dq ++ "表示停顿，给练习者留出感受的时间";
         "5. 每个段落控制在2-3句话，保持节奏舒缓" ]
     else
       [ "1. Opening guidance (1-2 minutes): Help practitioners relax and enter meditation";
         "2. Main practice (based on theme): Core guidance content";
         "3. Closing return (1 minute): Gently guide practitioners back to present";
         "4. Use " ++ dq ++ "..." ++ dq ++ " to indicate pauses for practitioners to experience";
         "5. Keep each paragraph to 2-3 sentences for gentle pacing" ]).

Definition topicMap_zh : list (string * string) :=
  [ ("助眠", "- 使用更加缓慢、轻柔的语调" ++ nl ++ "- 引导想象舒适、安全的环境" ++ nl ++ "- 逐步放松身体各个部位");
    ("缓解焦虑", "- 强调呼吸的重要性" ++ nl ++ "- 引导觉察但不评判当下的感受" ++ nl ++ "- 培养内在的平静与接纳");
    ("身体扫描", "- 从头到脚或从脚到头系统引导" ++ nl ++ "- 每个部位停留适当时间" ++ nl ++ "- 鼓励觉察而非改变");
    ("慈心冥想", "- 从自己开始，逐步扩展到他人" ++ nl ++ "- 使用温暖、充满爱的语言" ++ nl ++ "- 培养慈悲与善意");
    ("呼吸冥想", "- 详细引导呼吸的观察" ++ nl ++ "- 可以加入数息练习" ++ nl ++ "- 强调自然、不强迫") ].

Definition topicMap_en : list (string * string) :=
  [ ("sleep", "- Use slower, gentler tone" ++ nl ++ "- Guide visualization of comfortable, safe environment" ++ nl ++ "- Progressive body relaxation");
    ("anxiety relief", "- Emphasize importance of breathing" ++ nl ++ "- Guide awareness without judgment" ++ nl ++ "- Cultivate inner calm and acceptance");
    ("body scan", "- Systematic guidance from head to toe or toe to head" ++ nl ++ "- Appropriate pause for each body part" ++ nl ++ "- Encourage awareness rather than change");
    ("loving-kindness", "- Start with self, gradually extend to others" ++ nl ++ "- Use warm, loving language" ++ nl ++ "- Cultivate compassion and kindness");
    ("breath meditation", "- Detailed guidance on breath observation" ++ nl ++ "- Can include counting breaths" ++ nl ++ "- Emphasize natural, non-forced breathing") ].

Definition _getTopicSpecificRequirements (topic language : string) : option string :=
  let table :=
    if String.eqb language "zh" then topicMap_zh
    else if String.eqb language "en" then topicMap_en
    else [] in
  nonempty (snd <$> List.find (fun kv => String.eqb (fst kv) topic) table).

Definition _buildSpecialRequirements (topic : string) (customization : Customization)
    (language : string) (topicConfig : option TopicDescriptor) : string :=
  let zh := String.eqb language "zh" in
  let fromTopic :=
    match topicConfig with
    | Some tc =>
        List.concat
          [ match t_techniques tc with
            | Some l => [if zh then "建议使用技巧：" ++ join "、" l
                         else "Suggested techniques: " ++ join ", " l]
            | None => []
            end;
            match t_bestTime tc with
            | Some l => [if zh then "最佳练习时间：" ++ join "、" l
                         else "Best practice time: " ++ join ", " l]
            | None => []
            end;
            match t_progression tc with
            | Some l => [if zh then "引导顺序：" ++ join " → " l
                         else "Guidance sequence: " ++ join " → " l]
            | None => []
            end ]
    | None => []
    end in
  let hardcoded :=
    match _getTopicSpecificRequirements topic language, topicConfig with
    | Some r, None => [r]
    | _, _ => []
    end in
  let custom := default [] (specialRequirements customization) in
  let requirements := (fromTopic ++ hardcoded ++ custom)%list in
  match requirements with
  | [] => if zh then "无特殊要求" else "No special requirements"
  | _ => join nl requirements
  end.

Definition buildPrompt (p : Params) : string :=
  let topic := default "基础放松" (p_topic p) in
  let language := default "zh" (p_language p) in
  let customization := default no_customization (p_customization p) in
  let '(topicConfig, style, duration) := effective p in
  let template := default template_zh (templates language) in
  let styleName :=
    match style ≫= (fun s => nonempty (styleMap s)) with
    | Some n => n
    | None => Tts.shown style
    end in
  let durationDesc :=
    match durationMap duration with
    | Some d => d
    | None => "约" ++ NumberToString duration ++ "分钟"
    end in
  let mainInstruction :=
    _buildMainInstruction topic styleName durationDesc language topicConfig in
  let constraints := _buildConstraints template customization topicConfig in
  let outputFormat := _buildOutputFormat duration language in
  systemRole template ++ nl ++ nl
  ++ "【任务要求】" ++ nl ++ mainInstruction ++ nl ++ nl
  ++ "【引导原则】" ++ nl ++ constraints ++ nl ++ nl
  ++ "【输出格式】" ++ nl ++ outputFormat ++ nl ++ nl
  ++ "【特殊要求】" ++ nl
  ++ _buildSpecialRequirements topic customization language topicConfig ++ nl ++ nl
  ++ "请生成冥想引导词：".

Definition getSupportedTopics (language : option string) : list (option string) :=
  map (fun t => t_name t !! default "zh" language) (types meditationConfig).

Definition getSupportedStyles : list string :=
  map fst (styleDefinitions meditationConfig).

Definition getTopicDetails (topic : string) (language : option string)
  : option TopicDetails :=
  let language := default "zh" language in
  match _findTopicConfig topic with
  | None => None
  | Some topicConfig =>
      Some {| td_id := t_id topicConfig;
              td_name := t_name topicConfig !! language;
              td_description := t_description topicConfig !! language;
              td_recommendedStyles := t_recommendedStyles topicConfig;
              td_defaultDuration := t_defaultDuration topicConfig;
              td_targetAudience := t_targetAudience topicConfig !! language;
              td_benefits := t_benefits topicConfig !! language;
              td_keywords := t_keywords topicConfig |}
  end.

End WithCatalog.

End PromptBuilder.

(* ===================================================================== *)
(** ** Requests and replies shared by the two routers *)
(* ===================================================================== *)

Module Model.
Import JS.

(** An [error] object of a result. *)
Record ErrorObj := {
  err_message : string;
  err_code : string;
  err_supportedTopics : option (list (option string));
  err_supportedStyles : option (list string);
  err_details : option string
}.

Definition mkError (message code : string) : ErrorObj :=
  {| err_message := message; err_code := code; err_supportedTopics := None;
     err_supportedStyles := None; err_details := None |}.

(** [event.options]; [None] is a property left out. *)
Record Options := {
  o_model : option string;
  o_temperature : option float;
  o_customization : option PromptBuilder.Customization;
  o_voiceType : option string;
  o_speed : option float;
  o_volume : option float;
  o_format : option string;
  o_skipAudio : bool;
  o_enableCache : bool
}.

Definition no_options : Options :=
  {| o_model := None; o_temperature := None; o_customization := None;
     o_voiceType := None; o_speed := None; o_volume := None; o_format := None;
     o_skipAudio := false; o_enableCache := false |}.

(** The request object. *)
Record Event := {
  e_topic : option string;
  e_style : option string;
  e_duration : option float;
  e_language : option string;
  e_voice : option bool;
  e_options : option Options
}.

Definition empty_event : Event :=
  {| e_topic := None; e_style := None; e_duration := None; e_language := None;
     e_voice := None; e_options := None |}.

Record Message := { role : string; content : string }.

(** The argument of [callLLM]. *)
Record LLMRequest := {
  q_messages : option (list Message);
  q_prompt : option string;
  q_model : string;
  q_temperature : float;
  q_maxTokens : float
}.

(** The shapes of [data] the routers read. *)
Record LLMData := {
  d_text : option jsstring;
  (** [choices?.[0]?.message?.content] *)
  d_choice : option jsstring;
  d_content : option jsstring
}.

Record LLMResp := {
  r_success : bool;
  r_error : option ErrorObj;
  r_data : option LLMData
}.

(** [x || d] on a possibly missing number *)
Definition opt_num_or (x : option float) (d : float) : float :=
  match x with Some v => num_or v d | None => d end.

(** [a || b] on possibly missing strings of code units *)
Definition text_or (a : option jsstring) (b : jsstring) : jsstring :=
  match a with
  | Some (c :: s) => c :: s
  | _ => b
  end.

End Model.

(* ===================================================================== *)
(** ** router/meditationGuide.js *)
(* ===================================================================== *)

Module MeditationGuide.
Import JS Model.
Local Open Scope string_scope.

(** The fields of the speech reply that the router reads. *)
Record TtsResponse := {
  tr_success : bool;
  tr_audioUrl : option string;
  tr_url : option string;
  tr_duration : option float;
  tr_format : option string
}.

(** [audioData] *)
Record Audio := {
  a_url : option string;
  a_duration : option float;
  a_format : string
}.

Record Metadata := {
  m_topic : option string;
  m_topicId : option string;
  m_style : option string;
  m_duration : float;
  m_mode : string;
  m_language : string;
  m_benefits : option (list string);
  m_targetAudience : option (list string);
  m_generatedAt : string;
  m_textLength : nat;
  m_wordCount : nat;
  m_estimatedReadTime : float;
  m_isPreview : bool
}.

Record Data := {
  text : jsstring;
  audio : option Audio;
  metadata : Metadata
}.

(** A [GenerationResult]. *)
Record Result := {
  success : bool;
  data : option Data;
  error : option ErrorObj
}.

(** What a handler does to the outside, in order. *)
Inductive event :=
| EvCallLLM (req : LLMRequest)
| EvSynthesize (arg : value)
| EvNet (e : Tts.net_event)
| EvRecordUsage (hasAudio : bool).

Definition is_synthesize (e : event) : bool :=
  match e with EvSynthesize _ => true | _ => false end.

(** A call of the speech helper, or a network call made by it. *)
Definition is_speech (e : event) : bool :=
  match e with EvSynthesize _ | EvNet _ => true | _ => false end.

Record Clock := {
  (** [new Date().toISOString()] *)
  now : string;
  (** [Date.now() - startTime] *)
  elapsed : float
}.

(** [calculateMaxTokens(duration, isQuickMode)] *)
Definition calculateMaxTokens (duration : float) (isQuickMode : bool) : float :=
  let tokenMultiplier := if isQuickMode then 0.8%float else 1.0%float in
  Math_floor (duration * Config.WORDS_PER_MINUTE * Config.TOKENS_PER_WORD
              * Config.TOKEN_BUFFER * tokenMultiplier)%float.

Definition getVoiceByStyleAndTopic (style : option string) (topic : string) : string :=
  match PromptBuilder.nonempty (Config.TOPIC_VOICE_MAP topic) with
  | Some v => v
  | None =>
      match PromptBuilder.nonempty (style ≫= Config.STYLE_VOICE_MAP) with
      | Some v => v
      | None => Config.DEFAULT_VOICE_TYPE
      end
  end.

Definition is_cjk (c : N) : bool := (0x4e00 <=? c)%N && (c <=? 0x9fa5)%N.

(** The number of maximal runs of characters outside [\s]. *)
Fixpoint count_runs (inside : bool) (s : jsstring) : nat :=
  match s with
  | [] => 0
  | c :: rest =>
      if is_space c then count_runs false rest
      else if inside then count_runs true rest
      else S (count_runs true rest)
  end.

Definition countWords (text : jsstring) (language : string) : nat :=
  if String.eqb language "zh" then length (List.filter is_cjk text)
  else count_runs false text.

Definition estimateReadTime (text : jsstring) (language : string) : float :=
  let wordCount := countWords text language in
  let wordsPerMinute := if String.eqb language "zh" then 180%float else 150%float in
  Math_ceil ((of_nat wordCount / wordsPerMinute) * 60)%float.

Definition quickSystemPrompt : string :=
  "你是一个专业的冥想引导师，擅长创作简短有力的快速冥想引导。请确保内容紧凑、直接、有效。".

Definition standardSystemPrompt : string :=
  "你是一个专业的冥想引导师，擅长创作温和、平静的冥想引导词。".

(** The destructured request, defaults applied. *)
Definition topic_of (ev : Event) : string := default "基础放松" (e_topic ev).
Definition language_of (ev : Event) : string := default "zh" (e_language ev).
Definition voice_of (ev : Event) : bool := default false (e_voice ev).
Definition options_of (ev : Event) : Options := default no_options (e_options ev).

(** [rawDuration || config.DEFAULT_DURATION] *)
Definition duration_of (ev : Event) : float :=
  opt_num_or (e_duration ev) Config.DEFAULT_DURATION.

Definition isQuickMode (duration : float) : bool := (duration <? 3)%float.

(** A speech call that yields no audio: it throws, or its reply carries
    neither [success] nor [audioUrl]. *)
Definition synthesis_fails (reply : outcome (option TtsResponse)) : Prop :=
  match reply with
  | Throw _ => True
  | Ok None => True
  | Ok (Some r) =>
      tr_success r = false /\ PromptBuilder.nonempty (tr_audioUrl r) = None
  end.

Section WithServices.
Context `{Runtime}.
Variable config : Config.Env.
Variable meditationConfig : PromptBuilder.MeditationConfig.
Variable callLLM : LLMRequest -> outcome (option LLMResp).
Variable synthesizeSpeech : value -> outcome (option TtsResponse) * list Tts.net_event.
Variable clock : Clock.

Definition includes (topic : string) (l : list (option string)) : bool :=
  existsb (fun o => bool_decide (o = Some topic)) l.

(** [validateInputs]: [None] stands for [{ valid: true }]. *)
Definition validateInputs (topic language : string) (duration : float)
  : option ErrorObj :=
  if negb (String.eqb language "")
     && negb (existsb (String.eqb language) Config.SUPPORTED_LANGUAGES)
  then Some (mkError ("不支持的语言，目前仅支持 "
                      ++ PromptBuilder.join "、" Config.SUPPORTED_LANGUAGES)
                     Config.ERROR_CODES.INVALID_LANGUAGE)
  else if truthy_number duration && ((duration <? 1)%float || (60 <? duration)%float)
  then Some (mkError "时长必须在 1-60 分钟之间" Config.ERROR_CODES.INVALID_DURATION)
  else if Config.STRICT_TOPIC_VALIDATION config then
    let lang := if String.eqb language "" then "zh" else language in
    let supportedTopics := PromptBuilder.getSupportedTopics meditationConfig (Some lang) in
    let topicDetails := PromptBuilder.getTopicDetails meditationConfig topic (Some lang) in
    match topicDetails with
    | None =>
        if negb (includes topic supportedTopics)
        then Some {| err_message := "不支持的主题: " ++ topic;
                     err_code := Config.ERROR_CODES.INVALID_TOPIC;
                     err_supportedTopics := Some supportedTopics;
                     err_supportedStyles := None;
                     err_details := None |}
        else None
    | Some _ => None
    end
  else None.

(** The prompt of step 3.  The builder has no [buildQuickPrompt], so the
    quick mode falls back to the inline sentence. *)
Definition prompt_of (ev : Event) : string :=
  let duration := duration_of ev in
  if isQuickMode duration then
    "请生成一段简短的" ++ NumberToString duration ++ "分钟冥想引导。主题：" ++ topic_of ev
    ++ "。要求：语言温柔，节奏紧凑，直接进入主题，避免冗长开场。"
  else
    PromptBuilder.buildPrompt meditationConfig
      {| PromptBuilder.p_topic := Some (topic_of ev);
         PromptBuilder.p_style := e_style ev;
         PromptBuilder.p_duration := Some duration;
         PromptBuilder.p_language := Some (language_of ev);
         PromptBuilder.p_customization := o_customization (options_of ev) |}.

(** The argument of the [callLLM] call of step 4. *)
Definition llmRequest (ev : Event) : LLMRequest :=
  let duration := duration_of ev in
  let quick := isQuickMode duration in
  let options := options_of ev in
  {| q_messages :=
       Some [ {| role := "system";
                 content := if quick then quickSystemPrompt else standardSystemPrompt |};
              {| role := "user"; content := prompt_of ev |} ];
     q_prompt := None;
     q_model := str_or (o_model options) (Config.DEFAULT_MODEL config);
     q_temperature := if quick then 0.6%float else opt_num_or (o_temperature options) 0.7%float;
     q_maxTokens := calculateMaxTokens duration quick |}.

(** The text read out of a reply, [''] when no shape matches. *)
Definition extractText (data : option LLMData) : jsstring :=
  text_or (data ≫= d_text) (text_or (data ≫= d_choice) (text_or (data ≫= d_content) [])).

(** The object handed to [synthesizeSpeech]. *)
Definition speechArgument (ev : Event) (meditationText : jsstring) : value :=
  let options := options_of ev in
  let speechRate :=
    if isQuickMode (duration_of ev) then opt_num_or (o_speed options) 1.1%float
    else opt_num_or (o_speed options) Config.DEFAULT_SPEED in
  VObj [ ("text", VStr meditationText);
         ("voiceType", VStr (lit (str_or (o_voiceType options)
                                    (getVoiceByStyleAndTopic (e_style ev) (topic_of ev)))));
         ("speed", VNum speechRate);
         ("volume", VNum (opt_num_or (o_volume options) Config.DEFAULT_VOLUME));
         ("format", VStr (lit (str_or (o_format options) Config.DEFAULT_FORMAT))) ].

(** [voice && language === 'zh'] *)
Definition voiceGate (ev : Event) : bool :=
  voice_of ev && String.eqb (language_of ev) "zh".

(** Step 5: the audio, and what the step did. *)
Definition voicePhase (ev : Event) (meditationText : jsstring)
  : option Audio * list event :=
  if voiceGate ev then
    let arg := speechArgument ev meditationText in
    let '(reply, net) := synthesizeSpeech arg in
    let audioData :=
      match reply with
      | Ok (Some ttsResponse) =>
          if tr_success ttsResponse
             || bool_decide (is_Some (PromptBuilder.nonempty (tr_audioUrl ttsResponse)))
          then Some {| a_url := match PromptBuilder.nonempty (tr_audioUrl ttsResponse) with
                                | Some u => Some u
                                | None => tr_url ttsResponse
                                end;
                       a_duration := tr_duration ttsResponse;
                       a_format := str_or (tr_format ttsResponse) Config.DEFAULT_FORMAT |}
          else None
      | Ok None => None
      | Throw ttsError => None
      end in
    (audioData, EvSynthesize arg :: map EvNet net)
  else (None, []).

Definition failure (e : ErrorObj) : Result :=
  {| success := false; data := None; error := Some e |}.

(** The outermost [catch]. *)
Definition caught (e : Exn) : Result :=
  failure
    {| err_message := if String.eqb (exn_message e) "" then "生成冥想内容时发生错误"
                      else exn_message e;
       err_code := str_or (exn_code e) Config.ERROR_CODES.MEDITATION_GENERATION_ERROR;
       err_supportedTopics := None;
       err_supportedStyles := None;
       err_details := if Config.NODE_ENV_development config
                      then Some (exn_stack e) else None |}.

(** Steps 6 and 7: the topic's details and the result built from them. *)
Definition assemble (ev : Event) (meditationText : jsstring)
    (audioData : option Audio) : Result :=
  let topic := topic_of ev in
  let style := e_style ev in
  let language := language_of ev in
  let duration := duration_of ev in
  let topicDetails :=
    PromptBuilder.getTopicDetails meditationConfig topic (Some language) in
  {| success := true;
     data := Some
       {| text := meditationText;
          audio := audioData;
          metadata :=
            {| m_topic := match topicDetails with
                          | Some d => PromptBuilder.td_name d
                          | None => Some topic
                          end;
               m_topicId := PromptBuilder.td_id <$> topicDetails;
               m_style :=
                 match PromptBuilder.nonempty style with
                 | Some s => Some s
                 | None =>
                     match topicDetails with
                     | Some d => head (PromptBuilder.td_recommendedStyles d)
                     | None => Some "gentle"
                     end
                 end;
               m_duration := duration;
               m_mode := if isQuickMode duration then "quick" else "standard";
               m_language := language;
               m_benefits := match topicDetails with
                             | Some d => PromptBuilder.td_benefits d
                             | None => Some []
                             end;
               m_targetAudience := match topicDetails with
                                   | Some d => PromptBuilder.td_targetAudience d
                                   | None => Some []
                                   end;
               m_generatedAt := now clock;
               m_textLength := length meditationText;
               m_wordCount := countWords meditationText language;
               m_estimatedReadTime := estimateReadTime meditationText language;
               m_isPreview := false |} |};
     error := None |}.

(** Step 8: [recordUsage], when analytics are on. *)
Definition usage (audioData : option Audio) : list event :=
  if Config.ENABLE_ANALYTICS config
  then [EvRecordUsage (bool_decide (is_Some audioData))] else [].

Definition handleMeditationGuide (ev : Event) : Result * list event :=
  let topic := topic_of ev in
  let language := language_of ev in
  let duration := duration_of ev in
  match validateInputs topic language duration with
  | Some e => (failure e, [])
  | None =>
      let req := llmRequest ev in
      match callLLM req with
      | Throw e => (caught e, [EvCallLLM req])
      | Ok llmResp =>
          if negb (default false (r_success <$> llmResp)) then
            (failure (default (mkError "调用大模型失败" Config.ERROR_CODES.LLM_FAILED)
                              (llmResp ≫= r_error)),
             [EvCallLLM req])
          else
            let meditationText := extractText (llmResp ≫= r_data) in
            match meditationText with
            | [] =>
                (failure (mkError "大模型生成的内容为空" Config.ERROR_CODES.EMPTY_CONTENT),
                 [EvCallLLM req])
            | _ =>
                let '(audioData, voiceTrace) := voicePhase ev meditationText in
                (assemble ev meditationText audioData,
                 (EvCallLLM req :: voiceTrace ++ usage audioData)%list)
            end
      end
  end.

(** The request passes validation and the model returns [meditationText]:
    the request reaches the voice phase with that text. *)
Definition generated (ev : Event) (meditationText : jsstring) : Prop :=
  validateInputs (topic_of ev) (language_of ev) (duration_of ev) = None
  /\ exists llmResp,
       callLLM (llmRequest ev) = Ok (Some llmResp)
       /\ r_success llmResp = true
       /\ extractText (r_data llmResp) = meditationText
       /\ meditationText <> [].

(** [handleMeditationPreview] *)
Definition handleMeditationPreview (ev : Event) : Result * list event :=
  let previewEvent :=
    {| e_topic := e_topic ev; e_style := e_style ev; e_duration := e_duration ev;
       e_language := e_language ev;
       e_voice := Some false;
       e_options :=
         Some (let o := options_of ev in
               {| o_model := o_model o; o_temperature := o_temperature o;
                  o_customization := o_customization o; o_voiceType := o_voiceType o;
                  o_speed := o_speed o; o_volume := o_volume o; o_format := o_format o;
                  o_skipAudio := true; o_enableCache := o_enableCache o |}) |} in
  let '(result, tr) := handleMeditationGuide previewEvent in
  (match success result, data result with
   | true, Some d =>
       let m := metadata d in
       {| success := true;
          data := Some {| text := text d; audio := audio d;
                          metadata :=
                            {| m_topic := m_topic m; m_topicId := m_topicId m;
                               m_style := m_style m; m_duration := m_duration m;
                               m_mode := m_mode m; m_language := m_language m;
                               m_benefits := m_benefits m;
                               m_targetAudience := m_targetAudience m;
                               m_generatedAt := m_generatedAt m;
                               m_textLength := m_textLength m;
                               m_wordCount := m_wordCount m;
                               m_estimatedReadTime := m_estimatedReadTime m;
                               m_isPreview := true |} |};
          error := error result |}
   | _, _ => result
   end, tr).

End WithServices.

(** *** handleBatchGeneration *)

(** An element of [topics]: a topic name, or a request object. *)
Inductive TopicSpec :=
| TopicName (s : string)
| TopicObject (e : Event).

Record BatchEvent := {
  (** [None] when [topics] is not an array *)
  topics : option (list TopicSpec);
  baseOptions : option Event
}.

Record ItemResult := {
  i_topic : option string;
  i_success : bool;
  i_data : option Data;
  i_error : option ErrorObj
}.

Record BatchData := {
  total : nat;
  successful : nat;
  failed : nat;
  processingTime : float;
  results : list ItemResult
}.

Record BatchResult := {
  b_success : bool;
  b_data : option BatchData;
  b_error : option ErrorObj
}.

(** [{ ...a, ...b }] *)
Definition spread (a b : Event) : Event :=
  let over {A} (x y : option A) := match y with Some v => Some v | None => x end in
  {| e_topic := over (e_topic a) (e_topic b);
     e_style := over (e_style a) (e_style b);
     e_duration := over (e_duration a) (e_duration b);
     e_language := over (e_language a) (e_language b);
     e_voice := over (e_voice a) (e_voice b);
     e_options := over (e_options a) (e_options b) |}.

Definition itemOptions (baseOptions : Event) (topicConfig : TopicSpec) : Event :=
  match topicConfig with
  | TopicName s =>
      spread {| e_topic := Some s; e_style := None; e_duration := None;
                e_language := None; e_voice := None; e_options := None |}
             baseOptions
  | TopicObject o => spread baseOptions o
  end.

(** The request made for a topic given by name when there are no base
    options. *)
Definition named (topic : string) : Event :=
  itemOptions empty_event (TopicName topic).

Section Batch.
(** The single-item handler the loop awaits; it may reject. *)
Variable handle : Event -> outcome Result * list event.
Variable clock : Clock.

Definition batchItem (baseOptions : Event) (topicConfig : TopicSpec)
  : ItemResult * list event :=
  let options := itemOptions baseOptions topicConfig in
  let '(reply, tr) := handle options in
  (match reply with
   | Ok result =>
       {| i_topic := e_topic options;
          i_success := success result;
          i_data := if success result then data result else None;
          i_error := error result |}
   | Throw e =>
       {| i_topic := e_topic options;
          i_success := false;
          i_data := None;
          i_error := Some (mkError (exn_message e) "BATCH_ITEM_ERROR") |}
   end, tr).

(** The [for ... of] loop, pushing onto [results]. *)
Fixpoint batchLoop (baseOptions : Event) (todo : list TopicSpec)
    (results : list ItemResult) : list ItemResult * list event :=
  match todo with
  | [] => (results, [])
  | topicConfig :: rest =>
      let '(item, tr) := batchItem baseOptions topicConfig in
      let '(final, tr') := batchLoop baseOptions rest (results ++ [item])%list in
      (final, (tr ++ tr')%list)
  end.

Definition batchOver (ev : BatchEvent) : BatchResult * list event :=
  match topics ev with
  | None | Some [] =>
      ({| b_success := false; b_data := None;
          b_error := Some (mkError "请提供要生成的主题列表" "INVALID_TOPICS") |}, [])
  | Some l =>
      let '(results, tr) := batchLoop (default empty_event (baseOptions ev)) l [] in
      ({| b_success := true;
          b_data := Some {| total := length l;
                            successful := length (List.filter i_success results);
                            failed := length (List.filter (fun r => negb (i_success r)) results);
                            processingTime := elapsed clock;
                            results := results |};
          b_error := None |}, tr)
  end.

End Batch.

Definition handleBatchGeneration `{Runtime} (config : Config.Env)
    (meditationConfig : PromptBuilder.MeditationConfig)
    (callLLM : LLMRequest -> outcome (option LLMResp))
    (synthesizeSpeech : value -> outcome (option TtsResponse) * list Tts.net_event)
    (clock : Clock) (ev : BatchEvent) : BatchResult * list event :=
  batchOver
    (fun options =>
       let '(result, tr) :=
         handleMeditationGuide config meditationConfig callLLM synthesizeSpeech clock options in
       (Ok result, tr))
    clock ev.

(** [synthesizeSpeech] of [utils/tts.js] as this router calls it: one
    argument, [opts] left to its default, and the reply read as the fields
    this router looks at. *)
Definition ttsModule `{Runtime} (cfg : Tts.Cfg) (remote : Tts.Remote) (arg : value)
  : outcome (option TtsResponse) * list Tts.net_event :=
  let '(reply, net) := Tts.synthesizeSpeech cfg remote arg Tts.no_opts in
  (match reply with
   | Ok r => Ok (Some {| tr_success := false; tr_audioUrl := None;
                         tr_url := Tts.sr_url r; tr_duration := None;
                         tr_format := None |})
   | Throw e => Throw e
   end, net).

End MeditationGuide.

(* ===================================================================== *)
(** ** router/generateMeditation.js *)
(* ===================================================================== *)

Module GenerateMeditation.
Import JS Model.
Local Open Scope string_scope.

Record Metadata := {
  m_topic : string;
  m_style : string;
  m_duration : float;
  m_language : string;
  m_generatedAt : string;
  m_textLength : nat;
  m_estimatedReadTime : string
}.

Record Data := {
  text : jsstring;
  audioUrl : option string;
  metadata : Metadata
}.

Record Result := {
  success : bool;
  data : option Data;
  error : option ErrorObj
}.

(** The reply the router expects from the speech helper. *)
Record TtsReply := {
  t_success : bool;
  (** [data.audioUrl] *)
  t_audioUrl : option string
}.

(** What [require] hands back for a module: something that can be called, or
    not. *)
Inductive binding :=
| Callable (f : value -> outcome TtsReply)
| NotCallable.

(** [require('../utils/tts')]: the module exports the object
    [{ synthesizeSpeech }]. *)
Definition utils_tts : binding := NotCallable.

Inductive event :=
| EvCallLLM (req : LLMRequest)
(** the call [tts({ ... })] is evaluated *)
| EvCallTts (arg : value).


Definition calculateMaxTokens (duration : float) : float :=
  let wordsPerMinute := 175%float in
  let tokensPerWord := 1.5%float in
  let buffer := 1.2%float in
  Math_floor (duration * wordsPerMinute * tokensPerWord * buffer)%float.

Definition getVoiceTypeByStyle (style : string) : string :=
  default "zh-CN-XiaoyouNeural" (PromptBuilder.nonempty (Config.STYLE_VOICE_MAP style)).

Definition TypeError (msg : string) : Exn := Error msg.

Section WithServices.
Context `{Runtime}.
Variable config : Config.Env.
Variable meditationConfig : PromptBuilder.MeditationConfig.
Variable callLLM : LLMRequest -> outcome (option LLMResp).
Variable tts : binding.
Variable now : string.

Definition topic_of (ev : Event) : string := default "基础放松" (e_topic ev).
Definition style_of (ev : Event) : string := default "gentle" (e_style ev).
Definition duration_of (ev : Event) : float := default 10%float (e_duration ev).
Definition language_of (ev : Event) : string := default "zh" (e_language ev).
Definition options_of (ev : Event) : Options := default no_options (e_options ev).

(** [validateParams]: [None] stands for [{ valid: true }]. *)
Definition validateParams (topic style : string) (duration : float) (language : string)
  : option ErrorObj :=
  let supportedTopics := PromptBuilder.getSupportedTopics meditationConfig (Some language) in
  if String.eqb topic ""
     || Config.STRICT_TOPIC_VALIDATION config
        && negb (existsb (fun o => bool_decide (o = Some topic)) supportedTopics)
  then Some {| err_message := "不支持的冥想主题: " ++ topic;
               err_code := "INVALID_TOPIC";
               err_supportedTopics := Some supportedTopics;
               err_supportedStyles := None;
               err_details := None |}
  else
    let supportedStyles := PromptBuilder.getSupportedStyles meditationConfig in
    if String.eqb style "" || negb (existsb (String.eqb style) supportedStyles)
    then Some {| err_message := "不支持的引导风格: " ++ style;
                 err_code := "INVALID_STYLE";
                 err_supportedTopics := None;
                 err_supportedStyles := Some supportedStyles;
                 err_details := None |}
    else if negb (truthy_number duration) || (duration <? 3)%float || (60 <? duration)%float
    then Some (mkError "时长必须在 3-60 分钟之间" "INVALID_DURATION")
    else if negb (existsb (String.eqb language) ["zh"; "en"])
    then Some (mkError "目前仅支持中文(zh)和英文(en)" "INVALID_LANGUAGE")
    else None.

Definition llmRequest (ev : Event) : LLMRequest :=
  let options := options_of ev in
  {| q_messages := None;
     q_prompt := Some (PromptBuilder.buildPrompt meditationConfig
       {| PromptBuilder.p_topic := Some (topic_of ev);
          PromptBuilder.p_style := Some (style_of ev);
          PromptBuilder.p_duration := Some (duration_of ev);
          PromptBuilder.p_language := Some (language_of ev);
          PromptBuilder.p_customization :=
            Some (default PromptBuilder.no_customization (o_customization options)) |});
     q_model := str_or (o_model options) "claude-3-sonnet";
     q_temperature := opt_num_or (o_temperature options) 0.7%float;
     q_maxTokens := calculateMaxTokens (duration_of ev) |}.

Definition speechArgument (ev : Event) (meditationText : jsstring) : value :=
  let options := options_of ev in
  VObj [ ("text", VStr meditationText);
         ("voiceType", VStr (lit (str_or (o_voiceType options)
                                    (getVoiceTypeByStyle (style_of ev)))));
         ("speed", VNum (opt_num_or (o_speed options) 0.9%float));
         ("volume", VNum (opt_num_or (o_volume options) 0%float)) ].

Definition caught (e : Exn) : Result :=
  {| success := false; data := None;
     error := Some
       {| err_message := if String.eqb (exn_message e) "" then "生成冥想内容时发生错误"
                         else exn_message e;
          err_code := str_or (exn_code e) "GENERATION_ERROR";
          err_supportedTopics := None;
          err_supportedStyles := None;
          err_details := if Config.NODE_ENV_development config
                         then Some (exn_stack e) else None |} |}.

(** [language === 'zh' && !options.skipAudio] *)
Definition voiceGate (ev : Event) : bool :=
  String.eqb (language_of ev) "zh" && negb (o_skipAudio (options_of ev)).

(** Step 4: the audio URL, or the exception that leaves the step. *)
Definition voicePhase (ev : Event) (meditationText : jsstring)
  : outcome (option string) * list event :=
  if voiceGate ev then
    let arg := speechArgument ev meditationText in
    match tts with
    | NotCallable => (Throw (TypeError "tts is not a function"), [EvCallTts arg])
    | Callable f =>
        match f arg with
        | Throw e => (Throw e, [EvCallTts arg])
        | Ok ttsResponse =>
            (Ok (if t_success ttsResponse then t_audioUrl ttsResponse else None),
             [EvCallTts arg])
        end
    end
  else (Ok None, []).

Definition generateMeditation (ev : Event) : Result * list event :=
  let topic := topic_of ev in
  let style := style_of ev in
  let duration := duration_of ev in
  let language := language_of ev in
  match validateParams topic style duration language with
  | Some e => ({| success := false; data := None; error := Some e |}, [])
  | None =>
      let req := llmRequest ev in
      match callLLM req with
      | Throw e => (caught e, [EvCallLLM req])
      | Ok None =>
          (caught (TypeError "Cannot read properties of undefined (reading 'success')"),
           [EvCallLLM req])
      | Ok (Some llmResponse) =>
          if negb (r_success llmResponse) then
            (caught (Error ("LLM 调用失败: "
                            ++ match r_error llmResponse with
                               | Some _ => "[object Object]"
                               | None => "undefined"
                               end)),
             [EvCallLLM req])
          else
            match r_data llmResponse ≫= d_content with
            | None =>
                (caught (TypeError
                           match r_data llmResponse with
                           | None => "Cannot read properties of undefined (reading 'content')"
                           | Some _ => "Cannot read properties of undefined (reading 'length')"
                           end),
                 [EvCallLLM req])
            | Some meditationText =>
                match voicePhase ev meditationText with
                | (Throw e, tr) => (caught e, EvCallLLM req :: tr)
                | (Ok audioUrl, tr) =>
                    ({| success := true;
                        data := Some
                          {| text := meditationText;
                             audioUrl := audioUrl;
                             metadata :=
                               {| m_topic := topic; m_style := style;
                                  m_duration := duration; m_language := language;
                                  m_generatedAt := now;
                                  m_textLength := length meditationText;
                                  m_estimatedReadTime := NumberToString duration ++ "分钟" |} |};
                        error := None |},
                     EvCallLLM req :: tr)
                end
            end
      end
  end.

(** The request passes validation and the model returns [meditationText]:
    the request reaches step 4 with that text. *)
Definition generated (ev : Event) (meditationText : jsstring) : Prop :=
  validateParams (topic_of ev) (style_of ev) (duration_of ev) (language_of ev) = None
  /\ exists llmResponse,
       callLLM (llmRequest ev) = Ok (Some llmResponse)
       /\ r_success llmResponse = true
       /\ r_data llmResponse ≫= d_content = Some meditationText.

End WithServices.

End GenerateMeditation.

(* ===================================================================== *)
(** ** utils/call_llm.js *)
(* ===================================================================== *)

Module CallLLM.
Import JS Model.
Local Open Scope string_scope.

(** [process.env], as far as the client reads it. *)
Record Env := {
  HUNYUAN_API_KEY : option string;
  HUNYUAN_ENDPOINT : option string
}.

(** The argument of [callLLM]: a bare prompt, or an object whose properties
    may be left out. *)
Record ObjectParams := {
  c_messages : option (list Message);
  c_prompt : option string;
  c_model : option string;
  c_temperature : option float;
  c_maxTokens : option float
}.

Inductive Params :=
| Prompt (s : string)
| Object (o : ObjectParams).

(** The body of the POST. *)
Record Body := {
  b_model : string;
  b_messages : list Message;
  b_temperature : float;
  b_max_tokens : float
}.

(** [response.data], as far as the client reads it. *)
Record ResponseData := {
  (** [choices?.[0]?.message?.content] *)
  rd_choice : option jsstring;
  (** [result?.content] *)
  rd_result : option jsstring;
  rd_content : option jsstring
}.

(** The error [axios.post] rejects with. *)
Record AxiosError := {
  ae_message : string;
  (** [err.response?.status] *)
  ae_status : option N;
  (** [err.response?.data?.error?.message] *)
  ae_api_message : option string
}.

Inductive reply :=
| Resolved (data : option ResponseData)
| Rejected (err : AxiosError).

Inductive http_event :=
| EvPost (endpoint : string) (body : Body).

Definition default_endpoint : string :=
  "https://hunyuan.tencentapi.com/v1/chat/completions".

Definition failed (code message : string) : LLMResp :=
  {| r_success := false; r_error := Some (mkError message code); r_data := None |}.

(** The request the client sends for its argument. *)
Definition body_of (params : Params) : Body :=
  match params with
  | Prompt s =>
      {| b_model := "hunyuan-lite";
         b_messages := [ {| role := "user"; content := s |} ];
         b_temperature := 0.7%float;
         b_max_tokens := 1000%float |}
  | Object o =>
      {| b_model := str_or (c_model o) "hunyuan-lite";
         b_messages :=
           match c_messages o with
           | Some l => l
           | None => [ {| role := "user"; content := str_or (c_prompt o) "" |} ]
           end;
         b_temperature := opt_num_or (c_temperature o) 0.7%float;
         b_max_tokens := opt_num_or (c_maxTokens o) 1000%float |}
  end.

(** The content read out of a response, [None] when no shape gives one. *)
Definition content_of (data : option ResponseData) : option jsstring :=
  match text_or (data ≫= rd_choice)
          (text_or (data ≫= rd_result) (text_or (data ≫= rd_content) [])) with
  | [] => None
  | c :: s => Some (c :: s)
  end.

Section WithAxios.
Variable env : Env.
(** [axios.post(endpoint, body, ...)] *)
Variable post : string -> Body -> reply.

Definition callLLM (params : Params) : LLMResp * list http_event :=
  let endpoint := str_or (HUNYUAN_ENDPOINT env) default_endpoint in
  if negb (Tts.configured (HUNYUAN_API_KEY env)) then
    (failed "NO_API_KEY" "HUNYUAN_API_KEY 未配置", [])
  else
    let body := body_of params in
    (match post endpoint body with
     | Resolved data =>
         match content_of data with
         | None => failed "EMPTY_RESPONSE" "大模型返回内容为空"
         | Some content =>
             {| r_success := true; r_error := None;
                r_data := Some {| d_text := Some content; d_choice := None;
                                  d_content := Some content |} |}
         end
     | Rejected err =>
         failed
           (match ae_status err with
            | Some status => if (status =? 0)%N then "HTTP_ERROR" else pretty status
            | None => "HTTP_ERROR"
            end)
           (str_or (ae_api_message err) (ae_message err))
     end, [EvPost endpoint body]).

(** The object [handleMeditationGuide] and [generateMeditation] pass. *)
Definition of_request (req : LLMRequest) : Params :=
  Object {| c_messages := q_messages req; c_prompt := q_prompt req;
            c_model := Some (q_model req);
            c_temperature := Some (q_temperature req);
            c_maxTokens := Some (q_maxTokens req) |}.

(** The client as the routers see it. *)
Definition client (req : LLMRequest) : outcome (option LLMResp) :=
  Ok (Some (fst (callLLM (of_request req)))).

End WithAxios.

End CallLLM.

(* ===================================================================== *)
(** ** Topic recommendation: [recommendTopics] of utils/meditation_prompt.js
       and [handleTopicRecommendation] of router/meditationGuide.js *)
(* ===================================================================== *)

Module Recommend.
Import JS Model.
Local Open Scope string_scope.

(** An element of what [recommendTopics] returns. *)
Record Recommendation := {
  rec_topic : option string;
  rec_id : string;
  rec_score : nat;
  rec_reason : string
}.

(** An element of the built-in list. *)
Record DefaultRecommendation := {
  dr_id : string;
  dr_name : string;
  dr_description : string;
  dr_duration : float;
  dr_mode : option string
}.

Definition defaults_zh : list DefaultRecommendation :=
  [ {| dr_id := "quick-relax"; dr_name := "快速放松";
       dr_description := "1-2分钟快速缓解压力"; dr_duration := 2%float;
       dr_mode := Some "quick" |};
    {| dr_id := "basic-relaxation"; dr_name := "基础放松";
       dr_description := "适合初学者的放松练习"; dr_duration := 10%float;
       dr_mode := None |};
    {| dr_id := "breathing"; dr_name := "呼吸冥想";
       dr_description := "专注于呼吸的冥想练习"; dr_duration := 15%float;
       dr_mode := None |};
    {| dr_id := "body-scan"; dr_name := "身体扫描";
       dr_description := "逐步放松身体各部分"; dr_duration := 20%float;
       dr_mode := None |};
    {| dr_id := "mindfulness"; dr_name := "正念冥想";
       dr_description := "保持当下觉知的练习"; dr_duration := 15%float;
       dr_mode := None |};
    {| dr_id := "sleep"; dr_name := "助眠冥想";
       dr_description := "帮助入睡的冥想引导"; dr_duration := 30%float;
       dr_mode := None |} ].

Definition defaults_en : list DefaultRecommendation :=
  [ {| dr_id := "quick-relax"; dr_name := "Quick Relaxation";
       dr_description := "1-2 minute stress relief"; dr_duration := 2%float;
       dr_mode := Some "quick" |};
    {| dr_id := "basic-relaxation"; dr_name := "Basic Relaxation";
       dr_description := "Beginner-friendly relaxation"; dr_duration := 10%float;
       dr_mode := None |};
    {| dr_id := "breathing"; dr_name := "Breathing Meditation";
       dr_description := "Focus on breath practice"; dr_duration := 15%float;
       dr_mode := None |};
    {| dr_id := "body-scan"; dr_name := "Body Scan";
       dr_description := "Progressive body relaxation"; dr_duration := 20%float;
       dr_mode := None |};
    {| dr_id := "mindfulness"; dr_name := "Mindfulness";
       dr_description := "Present moment awareness"; dr_duration := 15%float;
       dr_mode := None |};
    {| dr_id := "sleep"; dr_name := "Sleep Meditation";
       dr_description := "Guided sleep assistance"; dr_duration := 30%float;
       dr_mode := None |} ].

(** [getDefaultRecommendations], for a [language] that is not the name of a
    property every object inherits *)
Definition getDefaultRecommendations (language : string) : list DefaultRecommendation :=
  if String.eqb language "en" then defaults_en else defaults_zh.

(** [needs.reduce(...)]: how many of the needs are keywords of the type. *)
Definition matchScore (needs : list string) (type : PromptBuilder.TopicDescriptor) : nat :=
  fold_left
    (fun score need =>
       score + (if existsb (String.eqb need) (PromptBuilder.t_keywords type) then 1 else 0))
    needs 0.

(** [sort((a, b) => b.score - a.score)]: the sort is stable, so its result is
    the arrangement by falling score in which equal scores keep their order. *)
Fixpoint insert_by_score (x : Recommendation) (l : list Recommendation)
  : list Recommendation :=
  match l with
  | [] => [x]
  | y :: rest =>
      if (rec_score y <=? rec_score x)%nat then x :: y :: rest
      else y :: insert_by_score x rest
  end.

Definition sort_by_score (l : list Recommendation) : list Recommendation :=
  fold_right insert_by_score [] l.

Section WithCatalog.
Variable meditationConfig : PromptBuilder.MeditationConfig.

(** The [forEach] of [recommendTopics]: the matching types in catalogue
    order, or the [TypeError] of the first one without benefits in the
    language. *)
Fixpoint collect (needs : list string) (language : string)
    (types : list PromptBuilder.TopicDescriptor) : outcome (list Recommendation) :=
  match types with
  | [] => Ok []
  | type :: rest =>
      let score := matchScore needs type in
      if (0 <? score)%nat then
        match PromptBuilder.t_benefits type !! language with
        | None =>
            Throw (Error "Cannot read properties of undefined (reading 'slice')")
        | Some benefits =>
            match collect needs language rest with
            | Throw e => Throw e
            | Ok l =>
                Ok ({| rec_topic := PromptBuilder.t_name type !! language;
                       rec_id := PromptBuilder.t_id type;
                       rec_score := score;
                       rec_reason := PromptBuilder.join "、" (firstn 2 benefits) |} :: l)
            end
        end
      else collect needs language rest
  end.

Definition recommendTopics (needs : list string) (language : string)
  : outcome (list Recommendation) :=
  match collect needs language (PromptBuilder.types meditationConfig) with
  | Throw e => Throw e
  | Ok l => Ok (sort_by_score l)
  end.

(** What [recommendations] holds: the matches, or the built-in list. *)
Inductive recommendations :=
| Matched (l : list Recommendation)
| Defaults (l : list DefaultRecommendation).

Definition count (r : recommendations) : nat :=
  match r with Matched l => length l | Defaults l => length l end.

(** [slice(0, 5)] *)
Definition top5 (r : recommendations) : recommendations :=
  match r with Matched l => Matched (firstn 5 l) | Defaults l => Defaults (firstn 5 l) end.

Record RecommendEvent := {
  (** [None] when [keywords] is left out or is not an array *)
  re_keywords : option (list string);
  re_language : option string
}.

Record RecommendData := {
  rd_keywords : list string;
  rd_recommendations : recommendations;
  rd_total : nat
}.

Record RecommendResult := {
  rr_success : bool;
  rr_data : option RecommendData;
  rr_error : option ErrorObj
}.

Definition handleTopicRecommendation (ev : RecommendEvent) : RecommendResult :=
  let language := default "zh" (re_language ev) in
  match re_keywords ev with
  | None | Some [] =>
      {| rr_success := false; rr_data := None;
         rr_error := Some (mkError "请提供关键词以获取推荐" "INVALID_KEYWORDS") |}
  | Some keywords =>
      let recommendations :=
        match recommendTopics keywords language with
        | Ok l => Matched l
        | Throw _ => Defaults (getDefaultRecommendations language)
        end in
      {| rr_success := true;
         rr_data := Some {| rd_keywords := keywords;
                            rd_recommendations := top5 recommendations;
                            rd_total := count recommendations |};
         rr_error := None |}
  end.

End WithCatalog.

End Recommend.

(* ===================================================================== *)
(** ** index.js *)
(* ===================================================================== *)

Module Index.
Import JS Model.
Local Open Scope string_scope.

Section WithPayload.
(** What a handler puts in [data], the event it is given and the keys of a
    handler's [metadata] other than those [main] writes. *)
Variable Payload Request Other : Type.

Record Metadata := {
  md_requestId : option string;
  md_duration : option float;
  md_timestamp : option string;
  md_stack : option string;
  (** [params], the event itself *)
  md_params : option Request;
  md_other : option Other
}.

Definition no_metadata : Metadata :=
  {| md_requestId := None; md_duration := None; md_timestamp := None;
     md_stack := None; md_params := None; md_other := None |}.

Inductive Data :=
| Pong (timestamp : string)
| FromHandler (p : Payload).

Record Response := {
  success : bool;
  data : option Data;
  error : option (string * string);
  message : option string;
  metadata : option Metadata
}.

(** What a handler resolves with: its [success], [data], [error] and
    [metadata]. *)
Record HandlerResult := {
  h_success : bool;
  h_data : option Payload;
  h_error : option (string * string);
  h_metadata : option Metadata
}.

(** The handlers of [./router/meditation]; a handler resolves with a result
    or with nothing, or rejects. *)
Record Router := {
  handleMeditation : Request -> outcome (option HandlerResult);
  handleMeditationPreview : Request -> outcome (option HandlerResult);
  handleBatchGeneration : Request -> outcome (option HandlerResult);
  handleTopicRecommendation : Request -> outcome (option HandlerResult)
}.

Inductive handler_name := Generate | Preview | Batch | Recommend.

Inductive event :=
| EvHandler (h : handler_name) (request : Request).

Record Context := {
  (** [context.getUserID?.()], when the method is there *)
  getUserID : option (outcome string);
  requestId : option string
}.

Record Clock := {
  (** [Date.now()] as the request identifier prints it *)
  stamp : string;
  (** [Date.now() - startTime] *)
  elapsed : float;
  (** [new Date().toISOString()] *)
  iso : string
}.

(** [errorResponse] *)
Definition errorResponse (code message : string) (metadata : Metadata) : Response :=
  {| success := false; data := None; error := Some (code, message);
     message := None; metadata := Some metadata |}.

Section WithRouter.
Variable router : Router.
Variable clock : Clock.
(** [process.env.NODE_ENV === 'development'] *)
Variable development : bool.

Definition requestId_of (context : Context) : string :=
  match PromptBuilder.nonempty (requestId context) with
  | Some id => id
  | None => "req_" ++ stamp clock
  end.

(** The handler a type stands for; [None] for [ping]. *)
Definition route (type : string) : option (option handler_name) :=
  if String.eqb type "generate" then Some (Some Generate)
  else if String.eqb type "preview" then Some (Some Preview)
  else if String.eqb type "batch" then Some (Some Batch)
  else if String.eqb type "recommend" then Some (Some Recommend)
  else if String.eqb type "ping" then Some None
  else None.

Definition invoke (h : handler_name) (request : Request)
  : outcome (option HandlerResult) :=
  match h with
  | Generate => handleMeditation router request
  | Preview => handleMeditationPreview router request
  | Batch => handleBatchGeneration router request
  | Recommend => handleTopicRecommendation router request
  end.

(** The three keys [main] writes over a result's [metadata]. *)
Definition stamped (context : Context) (m : option Metadata) : Metadata :=
  let m := default no_metadata m in
  {| md_requestId := Some (requestId_of context);
     md_duration := Some (elapsed clock);
     md_timestamp := Some (iso clock);
     md_stack := md_stack m;
     md_params := md_params m;
     md_other := md_other m |}.

(** The [catch] of [main]. *)
Definition caught (context : Context) (request : Request) (e : Exn) : Response :=
  errorResponse
    (str_or (exn_code e) "INTERNAL_ERROR")
    (if String.eqb (exn_message e) "" then "处理请求时发生内部错误" else exn_message e)
    {| md_requestId := Some (requestId_of context);
       md_duration := Some (elapsed clock);
       md_timestamp := Some (iso clock);
       md_stack := if development then Some (exn_stack e) else None;
       md_params := if development then Some request else None;
       md_other := None |}.

(** [main(event, context)]: [type] is the event's [type], [None] when it is
    left out.  Reading the user identifier comes before the [try], so a
    throwing [getUserID] makes [main] reject. *)
Definition main (type : option string) (request : Request) (context : Context)
  : outcome Response * list event :=
  let type := default "ping" type in
  match getUserID context with
  | Some (Throw e) => (Throw e, [])
  | _ =>
      match route type with
      | None =>
          (Ok (errorResponse "INVALID_TYPE"
                 ("不支持的操作类型: " ++ type
                  ++ "，支持的类型为: generate, preview, batch, recommend, ping")
                 no_metadata), [])
      | Some None =>
          (Ok {| success := true; data := Some (Pong (iso clock)); error := None;
                 message := Some "MeditationAgent is running";
                 metadata := Some (stamped context None) |}, [])
      | Some (Some h) =>
          (match invoke h request with
           | Throw e => Ok (caught context request e)
           | Ok None =>
               Ok (caught context request
                     (Error "Cannot read properties of undefined (reading 'success')"))
           | Ok (Some result) =>
               Ok {| success := h_success result;
                     data := FromHandler <$> h_data result;
                     error := h_error result;
                     message := None;
                     metadata := Some (stamped context (h_metadata result)) |}
           end, [EvHandler h request])
      end
  end.

End WithRouter.

End WithPayload.

Arguments no_metadata {Request Other}.
Arguments md_requestId {Request Other} m.
Arguments md_duration {Request Other} m.
Arguments md_timestamp {Request Other} m.
Arguments md_stack {Request Other} m.
Arguments md_params {Request Other} m.
Arguments md_other {Request Other} m.
Arguments Pong {Payload} timestamp.
Arguments FromHandler {Payload} p.
Arguments success {Payload Request Other} r.
Arguments data {Payload Request Other} r.
Arguments error {Payload Request Other} r.
Arguments message {Payload Request Other} r.
Arguments metadata {Payload Request Other} r.
Arguments h_success {Payload Request Other} h.
Arguments h_data {Payload Request Other} h.
Arguments h_error {Payload Request Other} h.
Arguments h_metadata {Payload Request Other} h.
Arguments EvHandler {Request} h request.
Arguments errorResponse {Payload Request Other} code message metadata.
Arguments invoke {Payload Request Other} router h request.
Arguments stamped {Request Other} clock context m.
Arguments caught {Payload Request Other} clock development context request e.
Arguments main {Payload Request Other} router clock development type request context.

End Index.

(* ===================================================================== *)
(** ** Reading traces *)
(* ===================================================================== *)

Module Traces.

Definition is_head (e : Tts.net_event) : bool :=
  match e with Tts.EvHeadObject _ => true | _ => false end.

Definition is_textToVoice (e : Tts.net_event) : bool :=
  match e with Tts.EvTextToVoice _ _ => true | _ => false end.

Definition is_put (e : Tts.net_event) : bool :=
  match e with Tts.EvPutObject _ _ => true | _ => false end.

Definition count {A} (p : A -> bool) (l : list A) : nat := length (List.filter p l).

Definition is_invoke (a : Tts.action) : bool :=
  match a with Tts.Invoke _ _ => true | _ => false end.

Definition is_callLLM (e : MeditationGuide.event) : bool :=
  match e with MeditationGuide.EvCallLLM _ => true | _ => false end.

Definition is_usage (e : MeditationGuide.event) : bool :=
  match e with MeditationGuide.EvRecordUsage _ => true | _ => false end.

End Traces.

(* ===================================================================== *)
(** ** Sample data

    A runtime, a catalogue and services to run the definitions on. *)
(* ===================================================================== *)

Module Sample.
Import JS Model.
Local Open Scope string_scope.

Definition runtime : Runtime :=
  {| StringToNumber := fun _ => nan;
     NumberToString := fun _ => "n";
     md5 := fun s => string_of_list_ascii (map ascii_of_N s);
     base64_again := fun s => if String.eqb s "QUI" then "QUI=" else s |}.

Definition cfg : Tts.Cfg :=
  {| Tts.tts_defaultLang := "zh";
     Tts.cos_bucket := Some "bucket-1250000000";
     Tts.cos_region := Some "ap-shanghai";
     Tts.cos_cdn := None |}.

(** A provider that fails every attempt and a store that holds nothing. *)
Definition remote_down : Tts.Remote :=
  {| Tts.headObject := fun _ => Tts.HeadNotFound;
     Tts.TextToVoice := fun _ => Throw (Error "provider unavailable");
     Tts.putObject := fun _ _ => Some (Error "store unavailable") |}.

(** A provider that answers and a store that accepts uploads. *)
Definition remote_up : Tts.Remote :=
  {| Tts.headObject := fun _ => Tts.HeadNotFound;
     Tts.TextToVoice := fun _ => Ok "QUJD";
     Tts.putObject := fun _ _ => None |}.

Definition hello : jsstring := lit "hello".

(** 2000 and 2001 one-byte characters; 667 three-byte characters. *)
Definition ascii_2000 : jsstring := repeat 97%N 2000.
Definition ascii_2001 : jsstring := repeat 97%N 2001.
Definition cjk_667 : jsstring := repeat 0x9759%N 667.

(** A catalogue with one topic. *)
Definition sleep : PromptBuilder.TopicDescriptor :=
  {| PromptBuilder.t_id := "sleep";
     PromptBuilder.t_name := {[ "zh" := "助眠冥想"; "en" := "Sleep Meditation" ]};
     PromptBuilder.t_description :=
       {[ "zh" := "帮助入睡的冥想引导"; "en" := "Guided sleep assistance" ]};
     PromptBuilder.t_recommendedStyles := ["healing"; "gentle"];
     PromptBuilder.t_defaultDuration := 30%float;
     PromptBuilder.t_targetAudience := {[ "zh" := ["失眠者"]; "en" := ["poor sleepers"] ]};
     PromptBuilder.t_benefits := {[ "zh" := ["改善睡眠"]; "en" := ["better sleep"] ]};
     PromptBuilder.t_keywords := ["失眠"; "入睡"];
     PromptBuilder.t_techniques := None;
     PromptBuilder.t_bestTime := None;
     PromptBuilder.t_progression := None |}.

Definition catalog : PromptBuilder.MeditationConfig :=
  {| PromptBuilder.types := [sleep];
     PromptBuilder.styleDefinitions :=
       [ ("gentle", {[ "zh" := "温柔"; "en" := "gentle" ]});
         ("healing", {[ "zh" := "治愈"; "en" := "healing" ]}) ] |}.

Definition env : Config.Env :=
  {| Config.DEFAULT_MODEL := "hunyuan-lite";
     Config.ENABLE_ANALYTICS := false;
     Config.STRICT_TOPIC_VALIDATION := false;
     Config.NODE_ENV_development := false |}.

Definition env_strict : Config.Env :=
  {| Config.DEFAULT_MODEL := "hunyuan-lite";
     Config.ENABLE_ANALYTICS := false;
     Config.STRICT_TOPIC_VALIDATION := true;
     Config.NODE_ENV_development := false |}.

(** A four-character script and a model that always returns it. *)
Definition script : jsstring := [0x8BF7; 0x6DF1; 0x547C; 0x5438]%N.

Definition reply : LLMResp :=
  {| r_success := true; r_error := None;
     r_data := Some {| d_text := Some script; d_choice := None;
                       d_content := Some script |} |}.

Definition llm : LLMRequest -> outcome (option LLMResp) := fun _ => Ok (Some reply).

Definition clock : MeditationGuide.Clock :=
  {| MeditationGuide.now := "2025-07-25T00:00:00.000Z";
     MeditationGuide.elapsed := 12%float |}.

(** A speech helper that throws whatever it is given. *)
Definition speech_throws (arg : value)
  : outcome (option MeditationGuide.TtsResponse) * list Tts.net_event :=
  (Throw (Error "[TTS] 合成失败: provider unavailable"), []).

(** A speech helper that throws when the text it is given is the script and
    answers with an address otherwise. *)
Definition speech_throws_on_script (arg : value)
  : outcome (option MeditationGuide.TtsResponse) * list Tts.net_event :=
  match arg with
  | VObj (("text", VStr s) :: _) =>
      if bool_decide (s = script)
      then (Throw (Error "[TTS] 合成失败: provider unavailable"), [])
      else (Ok (Some {| MeditationGuide.tr_success := true;
                        MeditationGuide.tr_audioUrl := Some "https://cdn.example/a.mp3";
                        MeditationGuide.tr_url := None;
                        MeditationGuide.tr_duration := None;
                        MeditationGuide.tr_format := None |}), [])
  | _ => (Ok None, [])
  end.

(** Requests: voice in Chinese; the same with the skip-audio flag set; and a
    request that asks for nothing. *)
Definition voiced : Event :=
  {| e_topic := Some "sleep"; e_style := None; e_duration := None;
     e_language := Some "zh"; e_voice := Some true; e_options := None |}.



Definition plain : Event :=
  {| e_topic := Some "助眠冥想"; e_style := Some "gentle"; e_duration := None;
     e_language := None; e_voice := None; e_options := None |}.

Definition two_minutes : Event :=
  {| e_topic := Some "sleep"; e_style := None; e_duration := Some 2%float;
     e_language := None; e_voice := None; e_options := None |}.

Definition other : jsstring := lit "other".

(** A model whose reply has no text in any of the three places. *)
Definition empty_reply : LLMResp :=
  {| r_success := true; r_error := None;
     r_data := Some {| d_text := Some []; d_choice := None; d_content := None |} |}.

Definition llm_empty : LLMRequest -> outcome (option LLMResp) :=
  fun _ => Ok (Some empty_reply).

(** The routers on these services. *)
Definition guide (ev : Event) : MeditationGuide.Result * list MeditationGuide.event :=
  @MeditationGuide.handleMeditationGuide runtime env catalog llm
    (@MeditationGuide.ttsModule runtime cfg remote_up) clock ev.

Definition guide_speech_down (ev : Event)
  : MeditationGuide.Result * list MeditationGuide.event :=
  @MeditationGuide.handleMeditationGuide runtime env catalog llm speech_throws clock ev.

Definition guide_speech_down_here (ev : Event)
  : MeditationGuide.Result * list MeditationGuide.event :=
  @MeditationGuide.handleMeditationGuide runtime env catalog llm speech_throws_on_script
    clock ev.

Definition guide_no_text (ev : Event)
  : MeditationGuide.Result * list MeditationGuide.event :=
  @MeditationGuide.handleMeditationGuide runtime env catalog llm_empty speech_throws
    clock ev.

Definition generate (ev : Event)
  : GenerateMeditation.Result * list GenerateMeditation.event :=
  @GenerateMeditation.generateMeditation runtime env catalog llm
    GenerateMeditation.utils_tts (MeditationGuide.now clock) ev.

Definition batch_event : MeditationGuide.BatchEvent :=
  {| MeditationGuide.topics :=
       Some [MeditationGuide.TopicName "sleep";
             MeditationGuide.TopicName "invalid-topic-xyz"];
     MeditationGuide.baseOptions := None |}.

Definition batch : MeditationGuide.BatchResult * list MeditationGuide.event :=
  @MeditationGuide.handleBatchGeneration runtime env_strict catalog llm speech_throws
    clock batch_event.

(** The registry after a call for [hello], and after a call for [other] on
    top of it. *)
Definition hello_key : string :=
  @Tts.dedupKey runtime (@Tts.normalize runtime Tts.no_opts) hello.

Definition after_hello : Tts.Registry :=
  snd (@Tts.invoke runtime Tts.idle (VStr hello) Tts.no_opts).

Definition after_other : Tts.Registry :=
  @Tts.run runtime [Tts.Invoke (VStr other) Tts.no_opts] after_hello.

(** The request the provider is sent for [hello] without options. *)
Definition hello_request : Tts.TextToVoiceRequest :=
  {| Tts.Text := hello; Tts.VoiceType := 1001%float; Tts.PrimaryLanguage := 1%float;
     Tts.SampleRate := 16000%float; Tts.Speed := nan; Tts.Volume := nan;
     Tts.SessionId := "hello" |}.

(** Options with a speed above the range and a volume inside it. *)
Definition loud_fast : Tts.Opts :=
  {| Tts.o_voiceType := VNum 101016%float; Tts.o_speed := VNum 3.5%float;
     Tts.o_volume := VNum 7%float; Tts.o_sampleRate := VUndefined;
     Tts.o_lang := VUndefined; Tts.o_hq := VBool true |}.

Definition loud_fast_plain : Tts.Opts :=
  {| Tts.o_voiceType := VNum 101016%float; Tts.o_speed := VNum 3.5%float;
     Tts.o_volume := VNum 7%float; Tts.o_sampleRate := VUndefined;
     Tts.o_lang := VUndefined; Tts.o_hq := VUndefined |}.

(** A provider whose answer is not padded, with a store that turns every
    upload down. *)
Definition remote_unpadded : Tts.Remote :=
  {| Tts.headObject := fun _ => Tts.HeadFailed;
     Tts.TextToVoice := fun _ => Ok "QUI";
     Tts.putObject := fun _ _ => Some (Error "store unavailable") |}.

(** A store that already holds every artefact. *)
Definition remote_cached : Tts.Remote :=
  {| Tts.headObject := fun _ => Tts.HeadFound;
     Tts.TextToVoice := fun _ => Throw (Error "provider unavailable");
     Tts.putObject := fun _ _ => Some (Error "store unavailable") |}.

(** The request the provider is sent for [hello] with [loud_fast]. *)
Definition loud_fast_request : Tts.TextToVoiceRequest :=
  {| Tts.Text := hello; Tts.VoiceType := 101016%float; Tts.PrimaryLanguage := 1%float;
     Tts.SampleRate := 16000%float; Tts.Speed := 2%float; Tts.Volume := 7%float;
     Tts.SessionId := "hello" |}.

(** What a synthesis of [hello] returns when the store holds it already. *)
Definition cached_result : Tts.SynthResult :=
  {| Tts.sr_url :=
       Some ("https://bucket-1250000000.cos.ap-shanghai.myqcloud.com/"
             ++ "meditation/audio/n_n_n_n_n_hello.mp3");
     Tts.sr_base64 := None |}.

(** Three tasks settled out of order, one of them twice. *)
Definition settled : list (nat * bool) := [(1, true); (0, false); (2, true); (1, false)].

Definition three_calls : list Tts.action :=
  [Tts.Invoke (VStr hello) Tts.no_opts; Tts.Invoke (VStr other) Tts.no_opts;
   Tts.Invoke (VStr hello) Tts.no_opts; Tts.Invoke (VStr script) Tts.no_opts].

(** The environment of the client with a key; an endpoint whose reply has an
    empty text in the first place and texts in the other two; one that
    answers with the script; and one that is down. *)
Definition hunyuan : CallLLM.Env :=
  {| CallLLM.HUNYUAN_API_KEY := Some "sk-sample"; CallLLM.HUNYUAN_ENDPOINT := None |}.

Definition second_place : CallLLM.ResponseData :=
  {| CallLLM.rd_choice := Some []; CallLLM.rd_result := Some script;
     CallLLM.rd_content := Some other |}.

Definition post_second (endpoint : string) (body : CallLLM.Body) : CallLLM.reply :=
  CallLLM.Resolved (Some second_place).

Definition post_script (endpoint : string) (body : CallLLM.Body) : CallLLM.reply :=
  CallLLM.Resolved
    (Some {| CallLLM.rd_choice := Some script; CallLLM.rd_result := None;
             CallLLM.rd_content := None |}).

Definition post_down (endpoint : string) (body : CallLLM.Body) : CallLLM.reply :=
  CallLLM.Rejected {| CallLLM.ae_message := "timeout of 10000ms exceeded";
                      CallLLM.ae_status := None; CallLLM.ae_api_message := None |}.

(** A call that asks for a temperature of 0, and the body posted for it. *)
Definition cold : CallLLM.Params :=
  CallLLM.Object {| CallLLM.c_messages := None; CallLLM.c_prompt := Some "breathe";
                    CallLLM.c_model := None; CallLLM.c_temperature := Some 0%float;
                    CallLLM.c_maxTokens := None |}.

Definition cold_body : CallLLM.Body :=
  {| CallLLM.b_model := "hunyuan-lite";
     CallLLM.b_messages := [ {| role := "user"; content := "breathe" |} ];
     CallLLM.b_temperature := 0.7%float;
     CallLLM.b_max_tokens := 1000%float |}.

(** The routers over the client. *)
Definition guide_over_client (ev : Event)
  : MeditationGuide.Result * list MeditationGuide.event :=
  @MeditationGuide.handleMeditationGuide runtime env catalog
    (CallLLM.client hunyuan post_down) speech_throws clock ev.

Definition generate_over_client (ev : Event)
  : GenerateMeditation.Result * list GenerateMeditation.event :=
  @GenerateMeditation.generateMeditation runtime env catalog
    (CallLLM.client hunyuan post_down) GenerateMeditation.utils_tts
    (MeditationGuide.now clock) ev.

(** A batch of two names over base options that carry a topic. *)
Definition base_sleep : Event :=
  {| e_topic := Some "sleep"; e_style := None; e_duration := None;
     e_language := None; e_voice := None; e_options := None |}.

Definition batch_named : MeditationGuide.BatchEvent :=
  {| MeditationGuide.topics :=
       Some (map MeditationGuide.TopicName ["焦虑"; "专注"]);
     MeditationGuide.baseOptions := Some base_sleep |}.

(** A request for recommendations, and a catalogue whose topic has no
    benefits in Chinese. *)
Definition insomnia : Recommend.RecommendEvent :=
  {| Recommend.re_keywords := Some ["失眠"; "入睡"; "噩梦"]; Recommend.re_language := None |}.

Definition sleep_recommended : Recommend.Recommendation :=
  {| Recommend.rec_topic := Some "助眠冥想"; Recommend.rec_id := "sleep";
     Recommend.rec_score := 2; Recommend.rec_reason := "改善睡眠" |}.

Definition catalog_no_benefits : PromptBuilder.MeditationConfig :=
  {| PromptBuilder.types :=
       [ {| PromptBuilder.t_id := "sleep";
            PromptBuilder.t_name := PromptBuilder.t_name sleep;
            PromptBuilder.t_description := PromptBuilder.t_description sleep;
            PromptBuilder.t_recommendedStyles := ["healing"; "gentle"];
            PromptBuilder.t_defaultDuration := 30%float;
            PromptBuilder.t_targetAudience := PromptBuilder.t_targetAudience sleep;
            PromptBuilder.t_benefits := {[ "en" := ["better sleep"] ]};
            PromptBuilder.t_keywords := ["失眠"; "入睡"];
            PromptBuilder.t_techniques := None;
            PromptBuilder.t_bestTime := None;
            PromptBuilder.t_progression := None |} ];
     PromptBuilder.styleDefinitions := PromptBuilder.styleDefinitions catalog |}.

(** Handlers for [main]: one that answers, one that throws an error with a
    code, one that resolves with nothing and one that reports a failure. *)
Definition router : Index.Router string unit unit :=
  {| Index.handleMeditation := fun _ =>
       Ok (Some {| Index.h_success := true; Index.h_data := Some "text";
                   Index.h_error := None; Index.h_metadata := None |});
     Index.handleMeditationPreview := fun _ =>
       Throw {| exn_message := "quota exceeded"; exn_code := Some "QUOTA";
                exn_stack := "Error: quota exceeded" |};
     Index.handleBatchGeneration := fun _ => Ok None;
     Index.handleTopicRecommendation := fun _ =>
       Ok (Some {| Index.h_success := false; Index.h_data := None;
                   Index.h_error := Some ("INVALID_KEYWORDS", "请提供关键词以获取推荐");
                   Index.h_metadata := None |}) |}.

Definition index_clock : Index.Clock :=
  {| Index.stamp := "1753401600000"; Index.elapsed := 12%float;
     Index.iso := "2025-07-25T00:00:00.000Z" |}.

Definition context : Index.Context :=
  {| Index.getUserID := None; Index.requestId := Some "req-7" |}.

End Sample.

(* ===================================================================== *)
(** ** utils/tts.js: the checks of [synthesizeSpeech] *)
(* ===================================================================== *)

Section TtsChecks.
Import JS.
Context `{Runtime}.

Lemma prepare_accepts (s : jsstring) (opts : Tts.Opts) :
  s <> [] -> (byteLength s <= 2000)%N ->
  Tts.prepare (VStr s) opts
  = Ok (s, Tts.normalize opts, Tts.dedupKey (Tts.normalize opts) s).
Proof.
  intros Hs Hlen. unfold Tts.prepare.
  destruct s as [|c s]; [congruence|].
  cbn [truthy is_string negb orb].
  destruct (N.ltb_spec 2000 (byteLength (c :: s))) as [Hlt|_]; [lia|reflexivity].
Qed.

Lemma prepare_too_long (s : jsstring) (opts : Tts.Opts) :
  (2000 < byteLength s)%N ->
  Tts.prepare (VStr s) opts = Throw (Tts.E_too_long (byteLength s)).
Proof.
  intros Hlen. unfold Tts.prepare.
  destruct s as [|c s]; [cbn in Hlen; lia|].
  cbn [truthy is_string negb orb].
  destruct (N.ltb_spec 2000 (byteLength (c :: s))) as [_|Hge]; [reflexivity|lia].
Qed.

Lemma prepare_not_text (v : value) (opts : Tts.Opts) :
  v = VStr [] \/ is_string v = false ->
  Tts.prepare v opts = Throw Tts.E_empty.
Proof.
  intros [->|Hv]; [reflexivity|].
  unfold Tts.prepare. rewrite Hv. cbn [negb]. now rewrite orb_true_r.
Qed.

(** A rejected call reaches neither the registry nor the network. *)
Lemma rejected_is_silent (cfg : Tts.Cfg) (remote : Tts.Remote) (v : value)
    (opts : Tts.Opts) (e : Exn) :
  Tts.prepare v opts = Throw e ->
  Tts.synthesizeSpeech cfg remote v opts = (Throw e, [])
  /\ forall r, Tts.invoke r v opts = (Throw e, r).
Proof.
  intros Hp. unfold Tts.synthesizeSpeech, Tts.invoke. now rewrite Hp.
Qed.

(** An accepted call goes on to the network: the first thing
    [_innerSynthesize] does is probe the store or call the provider. *)
Lemma inner_reaches_network (cfg : Tts.Cfg) (remote : Tts.Remote) (s : jsstring)
    (fullOpts : Tts.FullOpts) :
  snd (Tts._innerSynthesize cfg remote s fullOpts) <> [].
Proof.
  unfold Tts._innerSynthesize.
  destruct (Tts.store_configured cfg).
  - destruct (Tts.headObject remote _); [cbn; congruence| |];
      (destruct (Tts.ttsLoop _ _ _ _ _ _ _) as [res tr]; cbn; congruence).
  - cbn [Tts.ttsLoop].
    destruct (Tts.TextToVoice remote 0).
    + destruct (Tts.store_configured cfg); [|cbn; congruence].
      destruct (Tts.cosLoop _ _ _ _ _) as [[] tr]; cbn; congruence.
    + destruct (Tts.TextToVoice remote 1).
      * destruct (Tts.store_configured cfg); [|cbn; congruence].
        destruct (Tts.cosLoop _ _ _ _ _) as [[] tr]; cbn; congruence.
      * cbn; congruence.
Qed.

(** When the store has no copy and the provider fails both attempts, the
    synthesis throws, with the second error in its message. *)
Lemma two_failed_attempts_throw (cfg : Tts.Cfg) (remote : Tts.Remote) (s : jsstring)
    (fullOpts : Tts.FullOpts) (e0 e1 : Exn) :
  (forall key, Tts.headObject remote key <> Tts.HeadFound) ->
  Tts.TextToVoice remote 0 = Throw e0 ->
  Tts.TextToVoice remote 1 = Throw e1 ->
  fst (Tts._innerSynthesize cfg remote s fullOpts)
  = Throw (Error ("[TTS] 合成失败: " ++ exn_message e1)).
Proof.
  intros Hhead H0 H1. unfold Tts._innerSynthesize.
  destruct (Tts.store_configured cfg).
  - match goal with
    | |- context [Tts.headObject remote ?k] =>
        specialize (Hhead k); destruct (Tts.headObject remote k)
    end; [congruence| |]; cbn [Tts.ttsLoop]; now rewrite H0, H1.
  - cbn [Tts.ttsLoop]. now rewrite H0, H1.
Qed.

(** C5. [synthesizeSpeech] lets a text through exactly when it is a
    non-empty string of at most 2000 UTF-8 bytes.  Such a text goes on to
    [_innerSynthesize] and from there to the network.  A longer text, the
    empty string and a value that is not a string are thrown out with an
    empty trace and an untouched registry: no probe of the store, no call of
    the provider, no upload. *)
Theorem synthesizeSpeech_byte_limit (cfg : Tts.Cfg) (remote : Tts.Remote)
    (opts : Tts.Opts) (s : jsstring) (v : value) :
  (s <> [] -> (byteLength s <= 2000)%N ->
     Tts.prepare (VStr s) opts
       = Ok (s, Tts.normalize opts, Tts.dedupKey (Tts.normalize opts) s)
     /\ Tts.synthesizeSpeech cfg remote (VStr s) opts
        = Tts._innerSynthesize cfg remote s (Tts.normalize opts)
     /\ snd (Tts.synthesizeSpeech cfg remote (VStr s) opts) <> [])
  /\ ((2000 < byteLength s)%N ->
        Tts.synthesizeSpeech cfg remote (VStr s) opts
          = (Throw (Tts.E_too_long (byteLength s)), [])
        /\ forall r, Tts.invoke r (VStr s) opts
                     = (Throw (Tts.E_too_long (byteLength s)), r))
  /\ (v = VStr [] \/ is_string v = false ->
        Tts.synthesizeSpeech cfg remote v opts = (Throw Tts.E_empty, [])
        /\ forall r, Tts.invoke r v opts = (Throw Tts.E_empty, r)).
Proof.
  repeat split.
  - now apply prepare_accepts.
  - unfold Tts.synthesizeSpeech. now rewrite prepare_accepts.
  - unfold Tts.synthesizeSpeech. rewrite prepare_accepts by assumption.
    apply inner_reaches_network.
  - now apply rejected_is_silent, prepare_too_long.
  - now apply rejected_is_silent, prepare_too_long.
  - now apply rejected_is_silent, prepare_not_text.
  - now apply rejected_is_silent, prepare_not_text.
Qed.

End TtsChecks.

(** The boundary itself: 2000 bytes pass, 2001 do not, and the count is of
    bytes, not of characters. *)
Lemma synthesizeSpeech_byte_limit_witness :
  (JS.byteLength Sample.ascii_2000 = 2000%N
   /\ JS.is_ok (@Tts.prepare Sample.runtime (JS.VStr Sample.ascii_2000) Tts.no_opts) = true
   /\ snd (@Tts.synthesizeSpeech Sample.runtime Sample.cfg Sample.remote_down
             (JS.VStr Sample.ascii_2000) Tts.no_opts) <> [])
  /\ (JS.byteLength Sample.ascii_2001 = 2001%N
      /\ snd (@Tts.synthesizeSpeech Sample.runtime Sample.cfg Sample.remote_down
                (JS.VStr Sample.ascii_2001) Tts.no_opts) = [])
  /\ (JS.byteLength Sample.cjk_667 = 2001%N
      /\ length Sample.cjk_667 = 667
      /\ snd (@Tts.synthesizeSpeech Sample.runtime Sample.cfg Sample.remote_down
                (JS.VStr Sample.cjk_667) Tts.no_opts) = [])
  /\ snd (@Tts.synthesizeSpeech Sample.runtime Sample.cfg Sample.remote_down
            (JS.VObj [("text"%string, JS.VStr Sample.hello)]) Tts.no_opts) = [].
Proof.
  assert (L0 : JS.byteLength Sample.ascii_2000 = 2000%N) by (vm_compute; reflexivity).
  assert (L1 : JS.byteLength Sample.ascii_2001 = 2001%N) by (vm_compute; reflexivity).
  assert (L2 : JS.byteLength Sample.cjk_667 = 2001%N) by (vm_compute; reflexivity).
  pose proof (@synthesizeSpeech_byte_limit Sample.runtime Sample.cfg Sample.remote_down
                Tts.no_opts Sample.ascii_2000 (JS.VStr [])) as (A & _ & _).
  pose proof (@synthesizeSpeech_byte_limit Sample.runtime Sample.cfg Sample.remote_down
                Tts.no_opts Sample.ascii_2001 (JS.VStr [])) as (_ & B & _).
  pose proof (@synthesizeSpeech_byte_limit Sample.runtime Sample.cfg Sample.remote_down
                Tts.no_opts Sample.cjk_667
                (JS.VObj [("text"%string, JS.VStr Sample.hello)])) as (_ & C & D).
  destruct A as (A1 & _ & A3); [discriminate | rewrite L0; lia |].
  destruct B as (B1 & _); [rewrite L1; lia |].
  destruct C as (C1 & _); [rewrite L2; lia |].
  destruct D as (D1 & _); [right; reflexivity |].
  rewrite A1, B1, C1, D1.
  repeat split; assumption.
Defined.

(* ===================================================================== *)
(** ** utils/tts.js: normalisation of the options *)
(* ===================================================================== *)

Section TtsNormalize.
Import JS.
Context `{Runtime}.

Lemma is_nan_nan : PrimFloat.is_nan nan = true.
Proof. reflexivity. Qed.

(** [+v ?? d] is [+v]: the default is out of reach. *)
Lemma plus_coalesce_is_plus (v : value) (d : float) :
  Tts.plus_coalesce v d = ToNumber v.
Proof. reflexivity. Qed.

(** [clamp] passes NaN through. *)
Lemma clamp_nan (n lo hi : float) :
  PrimFloat.is_nan n = true -> Tts.clamp n lo hi = nan.
Proof.
  intros Hn. unfold Tts.clamp, Math_min, Math_max.
  rewrite Hn, orb_true_r, is_nan_nan, orb_true_r. reflexivity.
Qed.

(** A speed or volume that unary plus turns into NaN stays NaN. *)
Lemma normalize_nan_speed (opts : Tts.Opts) :
  PrimFloat.is_nan (ToNumber (Tts.o_speed opts)) = true ->
  Tts.speed (Tts.normalize opts) = nan.
Proof.
  intros Hn. unfold Tts.normalize; cbn [Tts.speed].
  rewrite plus_coalesce_is_plus. now apply clamp_nan.
Qed.

Lemma normalize_nan_volume (opts : Tts.Opts) :
  PrimFloat.is_nan (ToNumber (Tts.o_volume opts)) = true ->
  Tts.volume (Tts.normalize opts) = nan.
Proof.
  intros Hn. unfold Tts.normalize; cbn [Tts.volume].
  rewrite plus_coalesce_is_plus. now apply clamp_nan.
Qed.

(** C7, on the code.  With [opts] left out, the voice type is 1001 and the
    sample rate 16000, but the speed and the volume are NaN: [+opts.speed ?? 0]
    applies the unary plus before [??], so the defaults 0 and 5 are never
    taken, and [clamp] hands NaN on.  NaN lies neither in [-2, 2] nor in
    [0, 10]. *)
Theorem normalize_without_options :
  let fullOpts := Tts.normalize Tts.no_opts in
  Tts.voiceType fullOpts = 1001%float
  /\ Tts.sampleRate fullOpts = 16000%float
  /\ Tts.speed fullOpts = nan
  /\ Tts.volume fullOpts = nan
  /\ ((-2 <=? Tts.speed fullOpts) && (Tts.speed fullOpts <=? 2))%float = false
  /\ ((0 <=? Tts.volume fullOpts) && (Tts.volume fullOpts <=? 10))%float = false.
Proof.
  cbv zeta.
  assert (Hs : Tts.speed (Tts.normalize Tts.no_opts) = nan)
    by (apply normalize_nan_speed; reflexivity).
  assert (Hv : Tts.volume (Tts.normalize Tts.no_opts) = nan)
    by (apply normalize_nan_volume; reflexivity).
  rewrite Hs, Hv. repeat split; reflexivity.
Qed.

(** The uploads of an attempt are uploads only. *)
Lemma cosLoop_events (cfg : Tts.Cfg) (remote : Tts.Remote) (attempt : nat)
    (key : string) (n c a : nat) (r : Tts.TextToVoiceRequest) :
  ~ In (Tts.EvTextToVoice a r) (snd (Tts.cosLoop remote attempt key n c)).
Proof.
  revert c. induction n as [|n IH]; intros c; cbn [Tts.cosLoop]; [now cbn|].
  destruct (Tts.putObject remote attempt c).
  - specialize (IH (S c)). destruct (Tts.cosLoop remote attempt key n (S c)) as [ok tr].
    cbn in *. intros [Hhead|Htail]; [discriminate|contradiction].
  - cbn. intros [Hhead|[]]. discriminate.
Qed.

(** Every attempt sends the same request. *)
Lemma ttsLoop_requests (cfg : Tts.Cfg) (remote : Tts.Remote)
    (req : Tts.TextToVoiceRequest) (key : string) (n a0 : nat) (last : option Exn)
    (a : nat) (r : Tts.TextToVoiceRequest) :
  In (Tts.EvTextToVoice a r) (snd (Tts.ttsLoop cfg remote req key n a0 last)) -> r = req.
Proof.
  revert a0 last. induction n as [|n IH]; intros a0 last; cbn [Tts.ttsLoop]; [now cbn|].
  destruct (Tts.TextToVoice remote a0) as [audio|e].
  - destruct (Tts.store_configured cfg).
    + pose proof (cosLoop_events cfg remote a0 key 2 0 a r) as Hup.
      destruct (Tts.cosLoop remote a0 key 2 0) as [[] tr]; cbn in *;
        (intros [Hhead|Htail]; [congruence|contradiction]).
    + cbn. intros [Hhead|[]]. congruence.
  - specialize (IH (S a0) (Some e)).
    destruct (Tts.ttsLoop cfg remote req key n (S a0) (Some e)) as [res tr].
    cbn in *. intros [Hhead|Htail]; [congruence|auto].
Qed.

(** The NaN of the missing options is what the provider is sent. *)
Lemma nan_reaches_provider (cfg : Tts.Cfg) (remote : Tts.Remote) (s : jsstring)
    (a : nat) (r : Tts.TextToVoiceRequest) :
  In (Tts.EvTextToVoice a r)
     (snd (Tts.synthesizeSpeech cfg remote (VStr s) Tts.no_opts)) ->
  Tts.Speed r = nan /\ Tts.Volume r = nan.
Proof.
  unfold Tts.synthesizeSpeech, Tts.prepare.
  destruct (negb (truthy (VStr s)) || negb (is_string (VStr s))); [now cbn|].
  destruct (2000 <? byteLength s)%N; [now cbn|].
  unfold Tts._innerSynthesize.
  destruct (Tts.store_configured cfg).
  - destruct (Tts.headObject remote _).
    + cbn. intros [Hhead|[]]. discriminate.
    + match goal with
      | |- context [Tts.ttsLoop cfg remote ?q ?k 2 0 None] =>
          pose proof (ttsLoop_requests cfg remote q k 2 0 None a r) as Hreq;
          destruct (Tts.ttsLoop cfg remote q k 2 0 None) as [res tr]
      end.
      cbn in *. intros [Hhead|Htail]; [discriminate|].
      rewrite (Hreq Htail). split; reflexivity.
    + match goal with
      | |- context [Tts.ttsLoop cfg remote ?q ?k 2 0 None] =>
          pose proof (ttsLoop_requests cfg remote q k 2 0 None a r) as Hreq;
          destruct (Tts.ttsLoop cfg remote q k 2 0 None) as [res tr]
      end.
      cbn in *. intros [Hhead|Htail]; [discriminate|].
      rewrite (Hreq Htail). split; reflexivity.
  - intros Hin. rewrite (ttsLoop_requests _ _ _ _ _ _ _ _ _ Hin). split; reflexivity.
Qed.

End TtsNormalize.

(* ===================================================================== *)
(** ** utils/tts.js: the registry of pending requests *)
(* ===================================================================== *)

Section TtsRegistry.
Import JS.
Context `{Runtime}.

Lemma consistent_idle : Tts.consistent Tts.idle.
Proof.
  split; cbn; intros *.
  - rewrite !lookup_empty. split; discriminate.
  - rewrite lookup_empty. discriminate.
Qed.

Lemma invoke_reuse (r : Tts.Registry) text opts s f key task :
  Tts.prepare text opts = Ok (s, f, key) ->
  Tts.pending r !! key = Some task ->
  Tts.invoke r text opts = (Ok task, r).
Proof. intros Hp Hk. unfold Tts.invoke. now rewrite Hp, Hk. Qed.

Lemma invoke_fresh (r : Tts.Registry) text opts s f key :
  Tts.prepare text opts = Ok (s, f, key) ->
  Tts.pending r !! key = None ->
  Tts.invoke r text opts
  = (Ok (Tts.created r),
     {| Tts.pending := <[key := Tts.created r]> (Tts.pending r);
        Tts.running := <[Tts.created r := key]> (Tts.running r);
        Tts.created := S (Tts.created r) |}).
Proof. intros Hp Hk. unfold Tts.invoke. now rewrite Hp, Hk. Qed.

Lemma consistent_invoke (r : Tts.Registry) text opts :
  Tts.consistent r -> Tts.consistent (snd (Tts.invoke r text opts)).
Proof.
  intros [Hmap Hlt]. unfold Tts.invoke.
  destruct (Tts.prepare text opts) as [[[s f] key]|e]; [|now split].
  destruct (Tts.pending r !! key) as [task|] eqn:Hk; [now split|].
  split; cbn; intros *.
  - destruct (decide (key = k)) as [Ek|Hne], (decide (Tts.created r = t)) as [Et|Hnt];
      try subst k; try subst t.
    + rewrite !lookup_insert_eq. tauto.
    + rewrite lookup_insert_eq, lookup_insert_ne by assumption. split.
      * intros [= ?]. congruence.
      * intros Hr. apply Hmap in Hr. congruence.
    + rewrite lookup_insert_eq, lookup_insert_ne by assumption. split.
      * intros Hp. apply Hmap, Hlt in Hp. lia.
      * intros [= ?]. congruence.
    + rewrite !lookup_insert_ne by assumption. apply Hmap.
  - destruct (decide (Tts.created r = t)) as [Et|Hnt]; try subst t.
    + lia.
    + rewrite lookup_insert_ne by assumption. intros Hr. apply Hlt in Hr. lia.
Qed.

Lemma consistent_settle (r : Tts.Registry) task fulfilled :
  Tts.consistent r -> Tts.consistent (Tts.settle r task fulfilled).
Proof.
  intros [Hmap Hlt]. unfold Tts.settle.
  destruct (Tts.running r !! task) as [key|] eqn:Hr; [|now split].
  assert (Hp : Tts.pending r !! key = Some task) by now apply Hmap.
  split; cbn; intros *.
  - destruct (decide (key = k)) as [Ek|Hne], (decide (task = t)) as [Et|Hnt];
      try subst k; try subst t.
    + rewrite !lookup_delete_eq. split; discriminate.
    + rewrite lookup_delete_eq, lookup_delete_ne by assumption. split.
      * discriminate.
      * intros Hr'. apply Hmap in Hr'. congruence.
    + rewrite lookup_delete_eq, lookup_delete_ne by assumption. split.
      * intros Hp'. apply Hmap in Hp'. congruence.
      * discriminate.
    + rewrite !lookup_delete_ne by assumption. apply Hmap.
  - destruct (decide (task = t)) as [Et|Hnt]; try subst t.
    + rewrite lookup_delete_eq. discriminate.
    + rewrite lookup_delete_ne by assumption. apply Hlt.
Qed.

Lemma consistent_step (r : Tts.Registry) (a : Tts.action) :
  Tts.consistent r -> Tts.consistent (Tts.step r a).
Proof.
  destruct a; cbn; [apply consistent_invoke | apply consistent_settle].
Qed.

Lemma consistent_run (acts : list Tts.action) (r : Tts.Registry) :
  Tts.consistent r -> Tts.consistent (Tts.run acts r).
Proof.
  revert r. induction acts as [|a acts IH]; intros r Hr; [exact Hr|].
  cbn. apply IH, consistent_step, Hr.
Qed.

(** At most one unsettled task per key. *)
Lemma consistent_one_task (r : Tts.Registry) t1 t2 key :
  Tts.consistent r ->
  Tts.running r !! t1 = Some key -> Tts.running r !! t2 = Some key -> t1 = t2.
Proof.
  intros [Hmap _] H1 H2. apply Hmap in H1, H2. congruence.
Qed.

(** A registered task stays registered under its key until it settles. *)
Lemma registered_step (r : Tts.Registry) (a : Tts.action) key task :
  Tts.consistent r ->
  Tts.pending r !! key = Some task ->
  (forall fulfilled, a <> Tts.Settle task fulfilled) ->
  Tts.pending (Tts.step r a) !! key = Some task.
Proof.
  intros [Hmap Hlt] Hp Ha. destruct a as [text opts|task' fulfilled]; cbn.
  - unfold Tts.invoke.
    destruct (Tts.prepare text opts) as [[[s f] key']|e]; [|exact Hp].
    destruct (Tts.pending r !! key') as [t'|] eqn:Hk; [exact Hp|].
    cbn. rewrite lookup_insert_ne by congruence. exact Hp.
  - unfold Tts.settle.
    destruct (Tts.running r !! task') as [key'|] eqn:Hr; [|exact Hp].
    cbn. rewrite lookup_delete_ne; [exact Hp|].
    intros ->. apply Hmap in Hr.
    apply (Ha fulfilled). congruence.
Qed.

Lemma registered_run (acts : list Tts.action) (r : Tts.Registry) key task :
  Tts.consistent r ->
  Tts.pending r !! key = Some task ->
  Tts.unsettled task acts ->
  Tts.pending (Tts.run acts r) !! key = Some task.
Proof.
  revert r. induction acts as [|a acts IH]; intros r Hc Hp Hu; [exact Hp|].
  inversion Hu as [|? ? Ha Hrest]; subst. cbn.
  apply IH; [now apply consistent_step | now apply registered_step | exact Hrest].
Qed.

(** C8. In every state the registry reaches, a key has at most one unsettled
    task.  A call for a key starts a task or joins the one registered; until
    that task settles, whatever else happens, a further call with the same
    key gets the same task and leaves the registry as it is, so that no
    second synthesis starts.  When the task settles, fulfilled or rejected,
    the key is free again and the next call for it starts a new task. *)
Theorem pending_registry_deduplicates (acts mid : list Tts.action)
    (text1 text2 : value) (opts1 opts2 : Tts.Opts)
    (s1 s2 : jsstring) (f1 f2 : Tts.FullOpts) (key : string) (fulfilled : bool) :
  Tts.prepare text1 opts1 = Ok (s1, f1, key) ->
  Tts.prepare text2 opts2 = Ok (s2, f2, key) ->
  let r0 := Tts.run acts Tts.idle in
  (forall t1 t2 k,
      Tts.running r0 !! t1 = Some k -> Tts.running r0 !! t2 = Some k -> t1 = t2)
  /\ exists task,
      fst (Tts.invoke r0 text1 opts1) = Ok task
      /\ let r1 := snd (Tts.invoke r0 text1 opts1) in
         Tts.pending r1 !! key = Some task
         /\ Tts.running r1 !! task = Some key
         /\ (Tts.unsettled task mid ->
             let r2 := Tts.run mid r1 in
             Tts.invoke r2 text2 opts2 = (Ok task, r2)
             /\ let r3 := Tts.settle r2 task fulfilled in
                Tts.pending r3 !! key = None
                /\ Tts.running r3 !! task = None
                /\ fst (Tts.invoke r3 text2 opts2) = Ok (Tts.created r3)
                /\ Tts.created r3 <> task
                /\ Tts.created (snd (Tts.invoke r3 text2 opts2)) = S (Tts.created r3)).
Proof.
  intros Hp1 Hp2 r0.
  assert (Hc0 : Tts.consistent r0) by apply consistent_run, consistent_idle.
  split; [intros t1 t2 k; now apply consistent_one_task|].
  assert (Hc1 : Tts.consistent (snd (Tts.invoke r0 text1 opts1)))
    by now apply consistent_invoke.
  assert (Hreg : exists task,
             fst (Tts.invoke r0 text1 opts1) = Ok task
             /\ Tts.pending (snd (Tts.invoke r0 text1 opts1)) !! key = Some task).
  { destruct (Tts.pending r0 !! key) as [task|] eqn:Hk.
    - exists task. now rewrite (invoke_reuse _ _ _ _ _ _ _ Hp1 Hk).
    - exists (Tts.created r0). rewrite (invoke_fresh _ _ _ _ _ _ Hp1 Hk). cbn.
      now rewrite lookup_insert_eq. }
  destruct Hreg as (task & Hreply & Hpend).
  exists task. split; [exact Hreply|]. cbv zeta.
  split; [exact Hpend|].
  split; [now apply Hc1|].
  intros Hmid.
  set (r2 := Tts.run mid (snd (Tts.invoke r0 text1 opts1))).
  assert (Hc2 : Tts.consistent r2) by now apply consistent_run.
  assert (Hp2' : Tts.pending r2 !! key = Some task) by now apply registered_run.
  assert (Hr2 : Tts.running r2 !! task = Some key) by now apply Hc2.
  split; [now apply (invoke_reuse _ _ _ _ _ _ _ Hp2 Hp2')|].
  assert (Hc3 : Tts.consistent (Tts.settle r2 task fulfilled))
    by now apply consistent_settle.
  assert (Hfree : Tts.pending (Tts.settle r2 task fulfilled) !! key = None).
  { unfold Tts.settle. rewrite Hr2. cbn. apply lookup_delete_eq. }
  assert (Hcr : Tts.created (Tts.settle r2 task fulfilled) = Tts.created r2).
  { unfold Tts.settle. now rewrite Hr2. }
  split; [exact Hfree|].
  split; [unfold Tts.settle; rewrite Hr2; cbn; apply lookup_delete_eq|].
  rewrite (invoke_fresh _ _ _ _ _ _ Hp2 Hfree). cbn.
  split; [reflexivity|]. split; [|reflexivity].
  rewrite Hcr. destruct Hc2 as [_ Hlt]. apply Hlt in Hr2. lia.
Qed.

End TtsRegistry.

Lemma pending_registry_deduplicates_witness :
  @Tts.invoke Sample.runtime Sample.after_other (JS.VStr Sample.hello) Tts.no_opts
    = (JS.Ok 0, Sample.after_other)
  /\ Tts.pending (Tts.settle Sample.after_other 0 false) !! Sample.hello_key = None.
Proof.
  destruct (@pending_registry_deduplicates Sample.runtime []
              [Tts.Invoke (JS.VStr Sample.other) Tts.no_opts]
              (JS.VStr Sample.hello) (JS.VStr Sample.hello) Tts.no_opts Tts.no_opts
              Sample.hello Sample.hello
              (@Tts.normalize Sample.runtime Tts.no_opts)
              (@Tts.normalize Sample.runtime Tts.no_opts)
              Sample.hello_key false eq_refl eq_refl)
    as (_ & task & Hreply & _ & _ & Hrest).
  assert (Htask : task = 0) by (vm_compute in Hreply; congruence).
  subst task.
  destruct Hrest as (Hsame & Hfree & _).
  { repeat constructor; discriminate. }
  split; assumption.
Defined.

(* ===================================================================== *)
(** ** utils/meditation_prompt.js: the defaults of [buildPrompt] *)
(* ===================================================================== *)

Section PromptDefaults.
Import JS.
Context `{Runtime}.
Variable meditationConfig : PromptBuilder.MeditationConfig.

(** C10, on the code.  For a topic the catalogue knows, a caller who leaves
    [style] and [duration] out gets ['gentle'] and [10], the defaults of the
    signature, whatever the topic recommends; the topic's first recommended
    style and its default duration are used only for a style or duration that
    is given and falsy (['']  or [0]).  A style and a duration that are given
    and truthy are kept. *)
Theorem buildPrompt_signature_defaults_win (topic : string)
    (topicConfig : PromptBuilder.TopicDescriptor) (language : option string)
    (customization : option PromptBuilder.Customization) :
  PromptBuilder._findTopicConfig meditationConfig topic = Some topicConfig ->
  let params style duration :=
    {| PromptBuilder.p_topic := Some topic;
       PromptBuilder.p_style := style;
       PromptBuilder.p_duration := duration;
       PromptBuilder.p_language := language;
       PromptBuilder.p_customization := customization |} in
  PromptBuilder.effective meditationConfig (params None None)
    = (Some topicConfig, Some "gentle"%string, 10%float)
  /\ PromptBuilder.effective meditationConfig (params (Some ""%string) (Some 0%float))
     = (Some topicConfig, head (PromptBuilder.t_recommendedStyles topicConfig),
        PromptBuilder.t_defaultDuration topicConfig)
  /\ forall style duration,
       style <> ""%string -> truthy_number duration = true ->
       PromptBuilder.effective meditationConfig (params (Some style) (Some duration))
       = (Some topicConfig, Some style, duration).
Proof.
  intros Hfind params. unfold PromptBuilder.effective, params.
  cbn -[PromptBuilder._findTopicConfig num_or String.eqb].
  rewrite Hfind. repeat split.
  intros style duration Hs Hd.
  destruct (String.eqb_spec style ""); [contradiction|].
  unfold num_or. now rewrite Hd.
Qed.

End PromptDefaults.

Lemma buildPrompt_signature_defaults_win_witness :
  @PromptBuilder.effective Sample.catalog
    {| PromptBuilder.p_topic := Some "sleep"%string;
       PromptBuilder.p_style := None;
       PromptBuilder.p_duration := None;
       PromptBuilder.p_language := None;
       PromptBuilder.p_customization := None |}
  = (Some Sample.sleep, Some "gentle"%string, 10%float)
  /\ head (PromptBuilder.t_recommendedStyles Sample.sleep) = Some "healing"%string
  /\ PromptBuilder.t_defaultDuration Sample.sleep = 30%float.
Proof.
  split; [|split; reflexivity].
  exact (proj1 (@buildPrompt_signature_defaults_win Sample.catalog "sleep"%string
                  Sample.sleep None None eq_refl)).
Defined.

(* ===================================================================== *)
(** ** router/meditationGuide.js: a single request *)
(* ===================================================================== *)

(** Reads through [?.], [||] and defaults on a reply that is there. *)
Ltac option_steps :=
  cbn [fmap option_fmap option_map default from_option mbind option_bind id].

Section GuideFacts.
Import JS Model MeditationGuide.
Context `{Runtime}.
Variable config : Config.Env.
Variable meditationConfig : PromptBuilder.MeditationConfig.
Variable callLLM : LLMRequest -> outcome (option LLMResp).
Variable clock : Clock.

Section AnySpeechHelper.
Variable synthesizeSpeech : value -> outcome (option TtsResponse) * list Tts.net_event.

Local Abbreviation handle :=
  (handleMeditationGuide config meditationConfig callLLM synthesizeSpeech clock).
Local Abbreviation reaches := (generated config meditationConfig callLLM).

(** What a request that reaches the voice phase returns. *)
Lemma guide_generated (ev : Event) (meditationText : jsstring) :
  reaches ev meditationText ->
  handle ev
  = (assemble meditationConfig clock ev meditationText
       (fst (voicePhase synthesizeSpeech ev meditationText)),
     EvCallLLM (llmRequest config meditationConfig ev)
       :: snd (voicePhase synthesizeSpeech ev meditationText)
       ++ usage config (fst (voicePhase synthesizeSpeech ev meditationText))).
Proof.
  intros (Hvalid & llmResp & Hcall & Hsucc & Htext & Hne).
  unfold handleMeditationGuide. rewrite Hvalid, Hcall. option_steps.
  rewrite Hsucc. cbn [negb]. rewrite Htext.
  destruct meditationText as [|c rest]; [congruence|].
  now destruct (voicePhase synthesizeSpeech ev (c :: rest)).
Qed.

(** Only such a request succeeds. *)
Lemma guide_success (ev : Event) :
  success (fst (handle ev)) = true -> exists meditationText, reaches ev meditationText.
Proof.
  unfold handleMeditationGuide, generated.
  destruct (validateInputs _ _ _ _ _) as [e|]; [discriminate|].
  destruct (callLLM _) as [[llmResp|]|e] eqn:Hcall; [| discriminate..].
  option_steps.
  destruct (r_success llmResp) eqn:Hsucc; [|discriminate].
  cbn [negb].
  destruct (extractText (r_data llmResp)) as [|c rest] eqn:Htext; [discriminate|].
  intros _. exists (c :: rest). split; [reflexivity|].
  exists llmResp. repeat split; [assumption..|discriminate].
Qed.

(** An empty text ends the request. *)
Lemma guide_empty_text (ev : Event) (llmResp : LLMResp) :
  validateInputs config meditationConfig (topic_of ev) (language_of ev) (duration_of ev)
    = None ->
  callLLM (llmRequest config meditationConfig ev) = Ok (Some llmResp) ->
  r_success llmResp = true ->
  extractText (r_data llmResp) = [] ->
  handle ev
  = (failure (mkError "大模型生成的内容为空" Config.ERROR_CODES.EMPTY_CONTENT),
     [EvCallLLM (llmRequest config meditationConfig ev)]).
Proof.
  intros Hvalid Hcall Hsucc Htext.
  unfold handleMeditationGuide. rewrite Hvalid, Hcall.
  option_steps.
  now rewrite Hsucc, Htext.
Qed.

(** C4. A result with [success = true] carries a text that is not empty, and
    a reply whose text comes out empty is answered with [success = false] and
    the code [EMPTY_CONTENT]. *)
Theorem success_carries_text (ev : Event) :
  (success (fst (handle ev)) = true ->
     exists d, data (fst (handle ev)) = Some d /\ text d <> [])
  /\ (forall llmResp,
        validateInputs config meditationConfig (topic_of ev) (language_of ev)
          (duration_of ev) = None ->
        callLLM (llmRequest config meditationConfig ev) = Ok (Some llmResp) ->
        r_success llmResp = true ->
        extractText (r_data llmResp) = [] ->
        success (fst (handle ev)) = false
        /\ (err_code <$> error (fst (handle ev)))
           = Some Config.ERROR_CODES.EMPTY_CONTENT).
Proof.
  split.
  - intros Hs. destruct (guide_success ev Hs) as (meditationText & Hgen).
    rewrite (guide_generated ev meditationText Hgen). cbn.
    eexists; split; [reflexivity|]. cbn. now destruct Hgen as (_ & _ & _ & _ & _ & Hne).
  - intros llmResp Hvalid Hcall Hsucc Htext.
    now rewrite (guide_empty_text ev llmResp Hvalid Hcall Hsucc Htext).
Qed.

(** A failing speech call leaves no audio. *)
Lemma voicePhase_failing (ev : Event) (meditationText : jsstring) :
  synthesis_fails (fst (synthesizeSpeech (speechArgument ev meditationText))) ->
  fst (voicePhase synthesizeSpeech ev meditationText) = None.
Proof.
  intros Hfail. unfold voicePhase.
  destruct (voiceGate ev); [|reflexivity].
  destruct (synthesizeSpeech _) as [[[r|]|e] net]; cbn in *; try reflexivity.
  destruct Hfail as [-> ->]. reflexivity.
Qed.

(** C3. When the text has been generated and the speech call of the
    request fails, by throwing or by a reply without audio, the request
    still returns [success: true] with the generated text and [audio: null]:
    the failure does not leave the voice phase.  The result is the one the
    request has without audio; nothing is asked of the helper on any other
    argument. *)
Theorem speech_failure_is_absorbed (ev : Event) (meditationText : jsstring) :
  reaches ev meditationText ->
  synthesis_fails (fst (synthesizeSpeech (speechArgument ev meditationText))) ->
  fst (handle ev) = assemble meditationConfig clock ev meditationText None
  /\ exists d,
       fst (handle ev) = {| success := true; data := Some d; error := None |}
       /\ text d = meditationText
       /\ text d <> []
       /\ audio d = None.
Proof.
  intros Hgen Hfail.
  rewrite (guide_generated ev meditationText Hgen).
  rewrite (voicePhase_failing ev meditationText Hfail). cbn [fst].
  split; [reflexivity|].
  eexists; split; [reflexivity|]. cbn.
  now destruct Hgen as (_ & _ & _ & _ & _ & Hne).
Qed.

End AnySpeechHelper.

(** *** With [utils/tts.js] as the speech helper *)

Section RealSpeechHelper.
Variable cfg : Tts.Cfg.
Variable remote : Tts.Remote.

Local Abbreviation real :=
  (handleMeditationGuide config meditationConfig callLLM (ttsModule cfg remote) clock).

(** An object is not a text: the helper throws at its first check. *)
Lemma ttsModule_object (fields : list (string * value)) :
  Tts.synthesizeSpeech cfg remote (VObj fields) Tts.no_opts = (Throw Tts.E_empty, [])
  /\ ttsModule cfg remote (VObj fields) = (Throw Tts.E_empty, []).
Proof.
  assert (Hs : Tts.synthesizeSpeech cfg remote (VObj fields) Tts.no_opts
               = (Throw Tts.E_empty, [])) by reflexivity.
  split; [exact Hs|]. unfold ttsModule. now rewrite Hs.
Qed.

(** Whatever it is given, the helper's reply has neither [success] nor
    [audioUrl]. *)
Lemma ttsModule_fails (arg : value) :
  synthesis_fails (fst (ttsModule cfg remote arg)).
Proof.
  unfold ttsModule.
  destruct (Tts.synthesizeSpeech cfg remote arg Tts.no_opts) as [[r|e] net]; cbn; auto.
Qed.

Lemma voicePhase_real (ev : Event) (meditationText : jsstring) :
  voicePhase (ttsModule cfg remote) ev meditationText
  = if voiceGate ev
    then (None, [EvSynthesize (speechArgument ev meditationText)])
    else (None, []).
Proof.
  unfold voicePhase.
  destruct (voiceGate ev); [|reflexivity].
  unfold speechArgument at 1.
  now rewrite (proj2 (ttsModule_object _)).
Qed.

(** C1. With voice requested in Chinese, a request that reaches the voice
    phase calls [synthesizeSpeech] once, with one argument, an object; the
    helper's check of its [text] parameter throws on it, before any network
    call; and the result, like every successful result of
    [handleMeditationGuide], has [audio: null]. *)
Theorem guide_audio_is_always_null (ev : Event) :
  success (fst (real ev)) = true ->
  (exists d, data (fst (real ev)) = Some d /\ audio d = None)
  /\ (voice_of ev = true -> language_of ev = "zh"%string ->
      exists fields,
        List.filter is_synthesize (snd (real ev)) = [EvSynthesize (VObj fields)]
        /\ is_string (VObj fields) = false
        /\ Tts.synthesizeSpeech cfg remote (VObj fields) Tts.no_opts
           = (Throw Tts.E_empty, [])
        /\ forall e, ~ In (EvNet e) (snd (real ev))).
Proof.
  intros Hs. destruct (guide_success _ ev Hs) as (meditationText & Hgen).
  rewrite (guide_generated _ ev meditationText Hgen).
  rewrite voicePhase_real. split.
  - destruct (voiceGate ev); cbn; eexists; split; reflexivity.
  - intros Hv Hl. unfold voiceGate. rewrite Hv, Hl.
    cbn [andb String.eqb Ascii.eqb Bool.eqb fst snd].
    eexists. split; [|split; [reflexivity|split; [apply ttsModule_object|]]].
    + cbn [List.filter is_synthesize app]. unfold usage.
      destruct (Config.ENABLE_ANALYTICS config); reflexivity.
    + intros e. unfold usage. cbn.
      destruct (Config.ENABLE_ANALYTICS config); cbn; intuition discriminate.
Qed.

End RealSpeechHelper.

(** *** Quick mode *)

Section QuickMode.
Variable synthesizeSpeech : value -> outcome (option TtsResponse) * list Tts.net_event.

Lemma temperatures_differ : 0.6%float <> 0.7%float.
Proof.
  intros E. apply (f_equal (fun x => (x <? 0.65)%float)) in E.
  vm_compute in E. discriminate.
Qed.

Lemma system_prompts_differ : quickSystemPrompt <> standardSystemPrompt.
Proof.
  intros E. apply (f_equal String.length) in E. vm_compute in E. discriminate.
Qed.

(** For one and two minutes, the whole numbers of minutes that validation
    lets through below three, the quick budget is the standard budget times
    0.8, floored. *)
Lemma quick_budget_whole_minutes (n : nat) :
  1 <= n < 3 ->
  calculateMaxTokens (of_nat n) true
  = Math_floor (calculateMaxTokens (of_nat n) false * 0.8)%float.
Proof.
  intros Hn. assert (Hcases : n = 1 \/ n = 2) by lia.
  destruct Hcases as [-> | ->]; vm_compute; reflexivity.
Qed.

(** A valid request is sent to the model as [llmRequest] builds it. *)
Lemma guide_calls_model (ev : Event) :
  validateInputs config meditationConfig (topic_of ev) (language_of ev) (duration_of ev)
    = None ->
  head (snd (handleMeditationGuide config meditationConfig callLLM synthesizeSpeech
               clock ev))
  = Some (EvCallLLM (llmRequest config meditationConfig ev)).
Proof.
  intros Hvalid. unfold handleMeditationGuide. rewrite Hvalid.
  destruct (callLLM _) as [llmResp|e]; [|reflexivity].
  destruct (negb _); [reflexivity|].
  destruct (extractText _); [reflexivity|].
  now destruct (voicePhase _ _ _).
Qed.

(** C6. A duration below three minutes puts the request in quick mode: the
    model is called with the quick system prompt, with temperature 0.6 and
    with the budget [calculateMaxTokens duration true], which is the product
    of the standard formula times 0.8, floored.  In standard mode the system
    prompt is the other one, the temperature is 0.7 unless the options give
    one, and the budget is the floor of the product itself.  For a whole
    number of minutes the quick budget is the floor of 0.8 times the standard
    budget; for two minutes the budgets are 630 and 504. *)
Theorem quick_mode_below_three_minutes (ev standard : Event) :
  (duration_of ev <? 3)%float = true ->
  (duration_of standard <? 3)%float = false ->
  let req := llmRequest config meditationConfig ev in
  let req' := llmRequest config meditationConfig standard in
  isQuickMode (duration_of ev) = true
  /\ (validateInputs config meditationConfig (topic_of ev) (language_of ev)
        (duration_of ev) = None ->
      head (snd (handleMeditationGuide config meditationConfig callLLM
                   synthesizeSpeech clock ev)) = Some (EvCallLLM req))
  /\ (head <$> q_messages req)
     = Some (Some {| role := "system"; content := quickSystemPrompt |})
  /\ (head <$> q_messages req')
     = Some (Some {| role := "system"; content := standardSystemPrompt |})
  /\ quickSystemPrompt <> standardSystemPrompt
  /\ q_temperature req = 0.6%float
  /\ (o_temperature (options_of standard) = None -> q_temperature req' = 0.7%float)
  /\ 0.6%float <> 0.7%float
  /\ q_maxTokens req = calculateMaxTokens (duration_of ev) true
  /\ q_maxTokens req
     = Math_floor (duration_of ev * 175 * 1.5 * 1.2 * 0.8)%float
  /\ q_maxTokens req'
     = Math_floor (duration_of standard * 175 * 1.5 * 1.2 * 1.0)%float
  /\ (forall n, 1 <= n < 3 ->
        calculateMaxTokens (of_nat n) true
        = Math_floor (calculateMaxTokens (of_nat n) false * 0.8)%float)
  /\ calculateMaxTokens 2 false = 630%float
  /\ Math_floor (630 * 0.8)%float = 504%float
  /\ calculateMaxTokens 2 true = 504%float.
Proof.
  intros Hq Hs req req'.
  split; [exact Hq|].
  split; [apply guide_calls_model|].
  unfold req, req', llmRequest, isQuickMode.
  rewrite Hq, Hs. cbn [q_messages q_temperature q_maxTokens fmap option_fmap option_map head].
  repeat split.
  - apply system_prompts_differ.
  - intros ->. reflexivity.
  - apply temperatures_differ.
  - apply quick_budget_whole_minutes.
Qed.

(** Outside the whole minutes the two readings of the budget part: at a
    minute and a half the code gives 378, while 0.8 times the floored
    standard budget, floored, is 377.  A duration of 0 counts as left out. *)
Remark quick_budget_fraction :
  calculateMaxTokens 1.5 true = 378%float
  /\ Math_floor (calculateMaxTokens 1.5 false * 0.8)%float = 377%float.
Proof. split; reflexivity. Qed.

Remark zero_duration_is_default (ev : Event) :
  e_duration ev = Some 0%float ->
  duration_of ev = 10%float /\ isQuickMode (duration_of ev) = false.
Proof. unfold duration_of. intros ->. split; reflexivity. Qed.

End QuickMode.

(** *** The style in the prompt and in the metadata *)

(** For a known topic and a request without style, the prompt is built for
    ['gentle'] while the metadata report the topic's first recommended
    style. *)
Lemma prompt_style_and_metadata_style (ev : Event) (meditationText : jsstring)
    (audioData : option Audio) (topicConfig : PromptBuilder.TopicDescriptor) :
  e_style ev = None ->
  PromptBuilder._findTopicConfig meditationConfig (topic_of ev) = Some topicConfig ->
  snd (fst (PromptBuilder.effective meditationConfig
              {| PromptBuilder.p_topic := Some (topic_of ev);
                 PromptBuilder.p_style := e_style ev;
                 PromptBuilder.p_duration := Some (duration_of ev);
                 PromptBuilder.p_language := Some (language_of ev);
                 PromptBuilder.p_customization := o_customization (options_of ev) |}))
    = Some "gentle"%string
  /\ (m_style <$> (metadata <$> data (assemble meditationConfig clock ev meditationText
                                       audioData)))
     = Some (head (PromptBuilder.t_recommendedStyles topicConfig)).
Proof.
  intros Hstyle Hfind. unfold PromptBuilder.effective, assemble.
  unfold PromptBuilder.getTopicDetails.
  rewrite Hstyle.
  cbn -[PromptBuilder._findTopicConfig num_or].
  rewrite Hfind. split; reflexivity.
Qed.

End GuideFacts.

(* ===================================================================== *)
(** ** router/meditationGuide.js: the batch *)
(* ===================================================================== *)

Section BatchLoop.
Import JS Model MeditationGuide.
Variable handle : Event -> outcome Result * list event.
Variable clock : Clock.

Lemma batchLoop_unfold (base : Event) (todo : list TopicSpec) (acc : list ItemResult) :
  batchLoop handle base todo acc
  = (acc ++ map (fun t => fst (batchItem handle base t)) todo,
     concat (map (fun t => snd (batchItem handle base t)) todo)).
Proof.
  revert acc. induction todo as [|t todo IH]; intros acc; cbn [batchLoop map concat].
  - now rewrite app_nil_r.
  - destruct (batchItem handle base t) as [item tr] eqn:Hitem.
    rewrite IH, <- app_assoc. reflexivity.
Qed.

Lemma filter_split {A} (p : A -> bool) (l : list A) :
  length (List.filter p l) + length (List.filter (fun x => negb (p x)) l) = length l.
Proof.
  induction l as [|x l IH]; [reflexivity|].
  cbn [List.filter]. destruct (p x); cbn [negb length]; lia.
Qed.

(** The batch over any single-item handler, also one that rejects. *)
Lemma batchOver_nonempty (ev : BatchEvent) (l : list TopicSpec) :
  topics ev = Some l -> l <> [] ->
  let base := default empty_event (baseOptions ev) in
  let items := map (fun t => fst (batchItem handle base t)) l in
  batchOver handle clock ev
  = ({| b_success := true;
        b_data := Some {| total := length l;
                          successful := length (List.filter i_success items);
                          failed := length (List.filter (fun r => negb (i_success r)) items);
                          processingTime := elapsed clock;
                          results := items |};
        b_error := None |},
     concat (map (fun t => snd (batchItem handle base t)) l)).
Proof.
  intros Ht Hne base items. unfold batchOver. rewrite Ht.
  destruct l as [|t l]; [congruence|].
  now rewrite batchLoop_unfold.
Qed.

End BatchLoop.

Section BatchFacts.
Import JS Model MeditationGuide.
Context `{Runtime}.
Variable config : Config.Env.
Variable meditationConfig : PromptBuilder.MeditationConfig.
Variable callLLM : LLMRequest -> outcome (option LLMResp).
Variable synthesizeSpeech : value -> outcome (option TtsResponse) * list Tts.net_event.
Variable clock : Clock.

Local Abbreviation single :=
  (handleMeditationGuide config meditationConfig callLLM synthesizeSpeech clock).
Local Abbreviation batch :=
  (handleBatchGeneration config meditationConfig callLLM synthesizeSpeech clock).

(** The entry the batch records for one element of [topics]. *)
Lemma batch_item (base : Event) (t : TopicSpec) :
  batchItem (fun options => let '(result, tr) := single options in (Ok result, tr)) base t
  = ({| i_topic := e_topic (itemOptions base t);
        i_success := success (fst (single (itemOptions base t)));
        i_data := if success (fst (single (itemOptions base t)))
                  then data (fst (single (itemOptions base t))) else None;
        i_error := error (fst (single (itemOptions base t))) |},
     snd (single (itemOptions base t))).
Proof.
  unfold batchItem. now destruct (single (itemOptions base t)).
Qed.

Lemma named_defaults (topic : string) :
  topic_of (named topic) = topic
  /\ language_of (named topic) = "zh"%string
  /\ duration_of (named topic) = 10%float.
Proof. repeat split. Qed.

(** Strict validation turns down a topic the catalogue does not know. *)
Lemma unknown_topic_rejected (topic : string) :
  Config.STRICT_TOPIC_VALIDATION config = true ->
  PromptBuilder._findTopicConfig meditationConfig topic = None ->
  includes topic (PromptBuilder.getSupportedTopics meditationConfig (Some "zh"%string))
    = false ->
  exists e,
    single (named topic) = (failure e, [])
    /\ err_code e = Config.ERROR_CODES.INVALID_TOPIC.
Proof.
  intros Hstrict Hfind Hincl.
  unfold handleMeditationGuide.
  destruct (named_defaults topic) as (-> & -> & ->).
  unfold validateInputs. rewrite Hstrict.
  cbn [String.eqb Ascii.eqb Bool.eqb negb andb existsb Config.SUPPORTED_LANGUAGES orb].
  change (truthy_number 10 && ((10 <? 1)%float || (60 <? 10)%float)) with false.
  cbn match. unfold PromptBuilder.getTopicDetails.
  cbn [default from_option id]. rewrite Hfind, Hincl. cbn [negb].
  eexists. split; reflexivity.
Qed.

(** Strict validation lets a topic of the catalogue through. *)
Lemma known_topic_valid (topic : string) (topicConfig : PromptBuilder.TopicDescriptor) :
  PromptBuilder._findTopicConfig meditationConfig topic = Some topicConfig ->
  validateInputs config meditationConfig (topic_of (named topic))
    (language_of (named topic)) (duration_of (named topic)) = None.
Proof.
  intros Hfind.
  destruct (named_defaults topic) as (-> & -> & ->).
  unfold validateInputs.
  cbn [String.eqb Ascii.eqb Bool.eqb negb andb existsb Config.SUPPORTED_LANGUAGES orb].
  change (truthy_number 10 && ((10 <? 1)%float || (60 <? 10)%float)) with false.
  cbn match. unfold PromptBuilder.getTopicDetails.
  cbn [default from_option id]. rewrite Hfind.
  now destruct (Config.STRICT_TOPIC_VALIDATION config).
Qed.

(** C9. For a non-empty [topics], [handleBatchGeneration] returns
    [success: true]; it handles the topics one after the other, in order,
    none cutting the loop short; [total] is the length of [topics], there is
    one entry per topic, and [successful + failed = total].  For
    ['sleep'] and ['invalid-topic-xyz'] under strict validation, with a
    catalogue that knows the first and not the second and a model that
    answers, there are two entries, the first with [success: true], the
    second with [success: false] and the code [INVALID_TOPIC]. *)
Theorem batch_wrapper_never_fails (ev : BatchEvent) (l : list TopicSpec) :
  topics ev = Some l -> l <> [] ->
  let base := default empty_event (baseOptions ev) in
  exists d,
    fst (batch ev) = {| b_success := true; b_data := Some d; b_error := None |}
    /\ total d = length l
    /\ length (results d) = length l
    /\ successful d + failed d = total d
    /\ results d
       = map (fun t =>
                let r := fst (single (itemOptions base t)) in
                {| i_topic := e_topic (itemOptions base t);
                   i_success := success r;
                   i_data := if success r then data r else None;
                   i_error := error r |}) l
    /\ snd (batch ev) = concat (map (fun t => snd (single (itemOptions base t))) l)
    /\ forall topicConfig meditationText,
         Config.STRICT_TOPIC_VALIDATION config = true ->
         baseOptions ev = None ->
         l = [TopicName "sleep"; TopicName "invalid-topic-xyz"] ->
         PromptBuilder._findTopicConfig meditationConfig "sleep" = Some topicConfig ->
         PromptBuilder._findTopicConfig meditationConfig "invalid-topic-xyz" = None ->
         includes "invalid-topic-xyz"
           (PromptBuilder.getSupportedTopics meditationConfig (Some "zh"%string)) = false ->
         (exists llmResp,
            callLLM (llmRequest config meditationConfig (named "sleep")) = Ok (Some llmResp)
            /\ r_success llmResp = true
            /\ extractText (r_data llmResp) = meditationText
            /\ meditationText <> []) ->
         total d = 2 /\ successful d = 1 /\ failed d = 1
         /\ exists first second e,
              results d = [first; second]
              /\ i_topic first = Some "sleep"%string
              /\ i_success first = true
              /\ (text <$> i_data first) = Some meditationText
              /\ i_topic second = Some "invalid-topic-xyz"%string
              /\ i_success second = false
              /\ i_data second = None
              /\ i_error second = Some e
              /\ err_code e = Config.ERROR_CODES.INVALID_TOPIC.
Proof.
  intros Ht Hne base.
  unfold handleBatchGeneration.
  rewrite (batchOver_nonempty _ clock ev l Ht Hne). cbv zeta. fold base.
  eexists. split; [reflexivity|]. cbn [total results successful failed fst snd].
  split; [reflexivity|].
  split; [apply List.length_map|].
  split; [rewrite filter_split; apply List.length_map|].
  split; [apply map_ext; intros t; now rewrite batch_item|].
  split; [f_equal; apply map_ext; intros t; now rewrite batch_item|].
  intros topicConfig meditationText Hstrict Hbase -> Hsleep Hbad Hincl Hllm.
  assert (Hb : base = empty_event) by (unfold base; now rewrite Hbase). rewrite Hb.
  destruct (unknown_topic_rejected "invalid-topic-xyz" Hstrict Hbad Hincl) as (e & Hrej & Hcode).
  assert (Hgen : generated config meditationConfig callLLM (named "sleep") meditationText)
    by (split; [now apply (known_topic_valid "sleep" topicConfig)|exact Hllm]).
  pose proof (guide_generated config meditationConfig callLLM clock synthesizeSpeech
                (named "sleep") meditationText Hgen) as Hok.
  cbn [map length]. rewrite !batch_item.
  fold (named "sleep") (named "invalid-topic-xyz"). rewrite Hrej, Hok.
  cbn. repeat split.
  do 3 eexists. repeat split. exact Hcode.
Qed.

End BatchFacts.

(* ===================================================================== *)
(** ** The gate of the voice phase, in both routers *)
(* ===================================================================== *)

Section VoiceGate.
Import JS Model.
Context `{Runtime}.
Variable config : Config.Env.
Variable meditationConfig : PromptBuilder.MeditationConfig.
Variable callLLM : LLMRequest -> outcome (option LLMResp).
Variable synthesizeSpeech :
  value -> outcome (option MeditationGuide.TtsResponse) * list Tts.net_event.
Variable clock : MeditationGuide.Clock.
Variable tts : GenerateMeditation.binding.

Local Abbreviation guide :=
  (MeditationGuide.handleMeditationGuide config meditationConfig callLLM
     synthesizeSpeech clock).
Local Abbreviation generate :=
  (GenerateMeditation.generateMeditation config meditationConfig callLLM tts
     (MeditationGuide.now clock)).

Lemma guide_voicePhase_speech (ev : Event) (meditationText : jsstring) :
  existsb MeditationGuide.is_speech
    (snd (MeditationGuide.voicePhase synthesizeSpeech ev meditationText))
  = MeditationGuide.voiceGate ev.
Proof.
  unfold MeditationGuide.voicePhase.
  destruct (MeditationGuide.voiceGate ev); [|reflexivity].
  now destruct (synthesizeSpeech _).
Qed.

Lemma usage_no_speech (a : option MeditationGuide.Audio) :
  existsb MeditationGuide.is_speech (MeditationGuide.usage config a) = false.
Proof. unfold MeditationGuide.usage. now destruct (Config.ENABLE_ANALYTICS config). Qed.

(** A request reaches the voice phase, or it ends before with at most the
    call of the model behind it. *)
Lemma guide_trace (ev : Event) :
  (exists meditationText,
      MeditationGuide.generated config meditationConfig callLLM ev meditationText)
  \/ existsb MeditationGuide.is_speech (snd (guide ev)) = false.
Proof.
  unfold MeditationGuide.handleMeditationGuide, MeditationGuide.generated.
  destruct (MeditationGuide.validateInputs _ _ _ _ _) as [e|]; [now right|].
  destruct (callLLM _) as [[llmResp|]|e] eqn:Hcall; [| now right..].
  option_steps.
  destruct (r_success llmResp) eqn:Hsucc; [|now right].
  cbn [negb].
  destruct (MeditationGuide.extractText (r_data llmResp)) as [|c rest] eqn:Htext;
    [now right|].
  left. exists (c :: rest). split; [reflexivity|].
  exists llmResp. repeat split; [assumption..|discriminate].
Qed.

Lemma guide_speech (ev : Event) (meditationText : jsstring) :
  MeditationGuide.generated config meditationConfig callLLM ev meditationText ->
  existsb MeditationGuide.is_speech (snd (guide ev)) = MeditationGuide.voiceGate ev.
Proof.
  intros Hgen.
  rewrite (guide_generated config meditationConfig callLLM clock synthesizeSpeech
             ev meditationText Hgen).
  cbn [snd existsb MeditationGuide.is_speech orb].
  rewrite existsb_app, (guide_voicePhase_speech ev meditationText), usage_no_speech.
  apply orb_false_r.
Qed.

Lemma guide_gate_closed (ev : Event) :
  MeditationGuide.voiceGate ev = false ->
  existsb MeditationGuide.is_speech (snd (guide ev)) = false.
Proof.
  intros Hgate. destruct (guide_trace ev) as [[meditationText Hgen]|Hnone];
    [|exact Hnone].
  rewrite (guide_speech ev meditationText Hgen). exact Hgate.
Qed.





(** The preview never reaches the speech helper. *)
Lemma preview_makes_no_speech_call (ev : Event) :
  existsb MeditationGuide.is_speech
    (snd (MeditationGuide.handleMeditationPreview config meditationConfig callLLM
            synthesizeSpeech clock ev)) = false.
Proof.
  unfold MeditationGuide.handleMeditationPreview.
  match goal with
  | |- context [MeditationGuide.handleMeditationGuide _ _ _ _ _ ?p] =>
      pose proof (guide_gate_closed p eq_refl) as Hclosed;
      destruct (MeditationGuide.handleMeditationGuide config meditationConfig callLLM
                  synthesizeSpeech clock p) as [result tr]
  end.
  exact Hclosed.
Qed.

(** With [utils/tts.js] as it is exported, the attempt of [generateMeditation]
    ends in a [TypeError], and the request in [success: false]. *)
Lemma generateMeditation_attempt_throws (ev : Event) (meditationText : jsstring) :
  GenerateMeditation.generated config meditationConfig callLLM ev meditationText ->
  GenerateMeditation.voiceGate ev = true ->
  tts = GenerateMeditation.utils_tts ->
  GenerateMeditation.success (fst (generate ev)) = false.
Proof.
  intros (Hvalid & llmResponse & Hcall & Hsucc & Hcontent) Hgate ->.
  unfold GenerateMeditation.generateMeditation.
  rewrite Hvalid, Hcall, Hsucc. cbn [negb]. rewrite Hcontent.
  unfold GenerateMeditation.voicePhase. now rewrite Hgate.
Qed.

End VoiceGate.

(* ===================================================================== *)
(** ** The theorems on the sample services *)
(* ===================================================================== *)

Lemma sample_generated :
  @MeditationGuide.generated Sample.runtime Sample.env Sample.catalog Sample.llm
    Sample.voiced Sample.script.
Proof.
  split; [reflexivity|]. exists Sample.reply. repeat split. discriminate.
Qed.

Lemma guide_audio_is_always_null_witness :
  (exists d, MeditationGuide.data (fst (Sample.guide Sample.voiced)) = Some d
             /\ MeditationGuide.audio d = None)
  /\ exists fields,
       List.filter MeditationGuide.is_synthesize (snd (Sample.guide Sample.voiced))
         = [MeditationGuide.EvSynthesize (JS.VObj fields)]
       /\ @Tts.synthesizeSpeech Sample.runtime Sample.cfg Sample.remote_up
            (JS.VObj fields) Tts.no_opts = (JS.Throw (@Tts.E_empty), []).
Proof.
  destruct (@guide_audio_is_always_null Sample.runtime Sample.env Sample.catalog
              Sample.llm Sample.clock Sample.cfg Sample.remote_up Sample.voiced eq_refl)
    as (Hnull & Hcall).
  split; [exact Hnull|].
  destruct (Hcall eq_refl eq_refl) as (fields & Hone & _ & Hthrow & _).
  exists fields. split; assumption.
Defined.

Lemma speech_failure_is_absorbed_witness :
  JS.is_ok (fst (Sample.speech_throws_on_script
                   (MeditationGuide.speechArgument Sample.voiced Sample.script))) = false
  /\ JS.is_ok (fst (Sample.speech_throws_on_script
                      (MeditationGuide.speechArgument Sample.voiced Sample.hello))) = true
  /\ exists d,
       fst (Sample.guide_speech_down_here Sample.voiced)
         = {| MeditationGuide.success := true; MeditationGuide.data := Some d;
              MeditationGuide.error := None |}
       /\ MeditationGuide.text d = Sample.script
       /\ MeditationGuide.audio d = None.
Proof.
  split; [reflexivity|]. split; [reflexivity|].
  destruct (@speech_failure_is_absorbed Sample.runtime Sample.env Sample.catalog
              Sample.llm Sample.clock Sample.speech_throws_on_script Sample.voiced
              Sample.script sample_generated I)
    as (_ & d & Hres & Htext & _ & Haudio).
  exists d. repeat split; assumption.
Defined.

Lemma success_carries_text_witness :
  (exists d, MeditationGuide.data (fst (Sample.guide_speech_down Sample.voiced)) = Some d
             /\ MeditationGuide.text d <> [])
  /\ MeditationGuide.success (fst (Sample.guide_no_text Sample.voiced)) = false.
Proof.
  split.
  - exact (proj1 (@success_carries_text Sample.runtime Sample.env Sample.catalog
                    Sample.llm Sample.clock Sample.speech_throws Sample.voiced) eq_refl).
  - exact (proj1 (proj2 (@success_carries_text Sample.runtime Sample.env Sample.catalog
                           Sample.llm_empty Sample.clock Sample.speech_throws
                           Sample.voiced)
                    Sample.empty_reply eq_refl eq_refl eq_refl eq_refl)).
Defined.

Lemma quick_mode_below_three_minutes_witness :
  Model.q_temperature
    (@MeditationGuide.llmRequest Sample.runtime Sample.env Sample.catalog
       Sample.two_minutes) = 0.6%float
  /\ Model.q_maxTokens
       (@MeditationGuide.llmRequest Sample.runtime Sample.env Sample.catalog
          Sample.two_minutes)
     = MeditationGuide.calculateMaxTokens 2 true
  /\ MeditationGuide.calculateMaxTokens 2 true = 504%float.
Proof.
  destruct (@quick_mode_below_three_minutes Sample.runtime Sample.env Sample.catalog
              Sample.llm Sample.clock Sample.speech_throws Sample.two_minutes
              Sample.plain eq_refl eq_refl)
    as (_ & _ & _ & _ & _ & Htemp & _ & _ & Hbudget & _ & _ & _ & _ & _ & Hquick).
  repeat split; assumption.
Defined.

Lemma batch_wrapper_never_fails_witness :
  exists d first second e,
    fst Sample.batch
      = {| MeditationGuide.b_success := true; MeditationGuide.b_data := Some d;
           MeditationGuide.b_error := None |}
    /\ MeditationGuide.total d = 2
    /\ MeditationGuide.successful d = 1
    /\ MeditationGuide.failed d = 1
    /\ MeditationGuide.results d = [first; second]
    /\ MeditationGuide.i_success first = true
    /\ MeditationGuide.i_success second = false
    /\ MeditationGuide.i_error second = Some e
    /\ Model.err_code e = Config.ERROR_CODES.INVALID_TOPIC.
Proof.
  destruct (@batch_wrapper_never_fails Sample.runtime Sample.env_strict Sample.catalog
              Sample.llm Sample.speech_throws Sample.clock Sample.batch_event
              [MeditationGuide.TopicName "sleep";
               MeditationGuide.TopicName "invalid-topic-xyz"]
              eq_refl ltac:(discriminate))
    as (d & Hres & _ & _ & _ & _ & _ & Hexample).
  destruct (Hexample Sample.sleep Sample.script eq_refl eq_refl eq_refl eq_refl eq_refl
              eq_refl)
    as (Htotal & Hok & Hbad & first & second & e & Hitems & _ & Hfirst & _ & _
        & Hsecond & _ & Herr & Hcode).
  { exists Sample.reply. repeat split. discriminate. }
  exists d, first, second, e. repeat split; assumption.
Defined.



(* ===================================================================== *)
(** ** Order on numbers *)
(* ===================================================================== *)

Section FloatOrder.

Lemma SFcompare_antisym (x y : spec_float) (c : comparison) :
  SFcompare x y = Some c -> SFcompare y x = Some (CompOpp c).
Proof.
  destruct x as [sx|sx| |sx mx ex], y as [sy|sy| |sy my ey]; cbn;
    try discriminate; intros [= <-];
    try (destruct sx; reflexivity); try (destruct sy; reflexivity);
    try (destruct sx, sy; reflexivity).
  destruct sx, sy; cbn; try reflexivity;
    rewrite (Z.compare_antisym ex ey); destruct (ex ?= ey)%Z; cbn; try reflexivity;
    rewrite ?CompOpp_involutive, Pos.compare_cont_antisym; reflexivity.
Qed.

Lemma SFcompare_total (x y : spec_float) :
  x <> S754_nan -> y <> S754_nan -> exists c, SFcompare x y = Some c.
Proof. destruct x, y; cbn; intros Hx Hy; try congruence; eauto. Qed.

Lemma not_nan (a : float) : PrimFloat.is_nan a = false -> Prim2SF a <> S754_nan.
Proof.
  unfold PrimFloat.is_nan. rewrite FloatAxioms.eqb_spec. intros Hn E.
  rewrite E in Hn. cbn in Hn. discriminate.
Qed.

Lemma ltb_asym (a b : float) : (a <? b)%float = true -> (b <? a)%float = false.
Proof.
  rewrite !FloatAxioms.ltb_spec. unfold SFltb.
  destruct (SFcompare (Prim2SF a) (Prim2SF b)) as [[]|] eqn:E; try discriminate.
  intros _. now rewrite (SFcompare_antisym _ _ _ E).
Qed.

Lemma ltb_leb (a b : float) : (a <? b)%float = true -> (a <=? b)%float = true.
Proof.
  rewrite FloatAxioms.ltb_spec, FloatAxioms.leb_spec. unfold SFltb, SFleb.
  now destruct (SFcompare _ _) as [[]|].
Qed.

Lemma not_ltb_leb (a b : float) :
  PrimFloat.is_nan a = false -> PrimFloat.is_nan b = false ->
  (a <? b)%float = false -> (b <=? a)%float = true.
Proof.
  intros Ha Hb. rewrite FloatAxioms.ltb_spec, FloatAxioms.leb_spec. unfold SFltb, SFleb.
  destruct (SFcompare_total _ _ (not_nan a Ha) (not_nan b Hb)) as [c E].
  rewrite E, (SFcompare_antisym _ _ _ E). now destruct c.
Qed.

Lemma leb_refl (a : float) : PrimFloat.is_nan a = false -> (a <=? a)%float = true.
Proof.
  intros Ha. rewrite FloatAxioms.leb_spec. unfold SFleb.
  destruct (SFcompare_total _ _ (not_nan a Ha) (not_nan a Ha)) as [c E].
  pose proof (SFcompare_antisym _ _ _ E) as E'. rewrite E in E'. rewrite E.
  destruct c; try reflexivity; discriminate.
Qed.

(** [Math.min] and [Math.max] return one of their arguments, or NaN. *)
Lemma Math_min_cases (a b : float) :
  JS.Math_min a b = nan \/ JS.Math_min a b = a \/ JS.Math_min a b = b.
Proof.
  unfold JS.Math_min.
  destruct (_ || _); [now left|].
  destruct (a <? b)%float; [now right; left|].
  destruct (b <? a)%float; [now right; right|].
  destruct (PrimFloat.get_sign a); [now right; left|now right; right].
Qed.

(** [clamp] keeps a number between its bounds. *)
Lemma clamp_in_range (n lo hi : float) :
  PrimFloat.is_nan n = false -> PrimFloat.is_nan lo = false ->
  PrimFloat.is_nan hi = false -> (lo <=? hi)%float = true ->
  (lo <=? Tts.clamp n lo hi)%float = true /\ (Tts.clamp n lo hi <=? hi)%float = true.
Proof.
  intros Hn Hlo Hhi Hle. unfold Tts.clamp.
  assert (Hm : exists m, JS.Math_min hi n = m /\ PrimFloat.is_nan m = false
                         /\ (m <=? hi)%float = true).
  { unfold JS.Math_min. rewrite Hhi, Hn. cbn [orb].
    destruct (hi <? n)%float eqn:E1; [exists hi; auto using leb_refl|].
    destruct (n <? hi)%float eqn:E2; [exists n; auto using ltb_leb|].
    destruct (PrimFloat.get_sign hi); [exists hi; auto using leb_refl|].
    exists n. auto using not_ltb_leb. }
  destruct Hm as (m & -> & Hmn & Hmhi).
  unfold JS.Math_max. rewrite Hlo, Hmn. cbn [orb].
  destruct (lo <? m)%float eqn:E1; [auto using ltb_leb|].
  destruct (m <? lo)%float eqn:E2; [auto using leb_refl|].
  destruct (PrimFloat.get_sign lo); [auto using not_ltb_leb|auto using leb_refl].
Qed.

Lemma is_number (a : float) : Prim2SF a <> S754_nan -> PrimFloat.is_nan a = false.
Proof.
  intros Ha. unfold PrimFloat.is_nan. rewrite FloatAxioms.eqb_spec. unfold SFeqb.
  destruct (SFcompare_total _ _ Ha Ha) as [c E].
  pose proof (SFcompare_antisym _ _ _ E) as E'. rewrite E in E'. rewrite E.
  destruct c; try reflexivity; discriminate.
Qed.

Lemma ltb_numbers (a b : float) :
  (a <? b)%float = true -> PrimFloat.is_nan a = false /\ PrimFloat.is_nan b = false.
Proof.
  rewrite FloatAxioms.ltb_spec. unfold SFltb. intros Hlt.
  split; apply is_number; intros E; rewrite E in Hlt; cbn in Hlt;
    [|destruct (Prim2SF a)]; discriminate.
Qed.

(** A number strictly between the bounds is left as it is. *)
Lemma clamp_inside (n lo hi : float) :
  (lo <? n)%float = true -> (n <? hi)%float = true -> Tts.clamp n lo hi = n.
Proof.
  intros Hlo Hhi. unfold Tts.clamp, JS.Math_min, JS.Math_max.
  destruct (ltb_numbers _ _ Hlo) as [Hl Hn], (ltb_numbers _ _ Hhi) as [_ Hh].
  rewrite Hh, Hn. cbn [orb]. rewrite (ltb_asym _ _ Hhi), Hhi.
  rewrite Hl, Hn. cbn [orb]. now rewrite Hlo.
Qed.

End FloatOrder.

(* ===================================================================== *)
(** ** utils/tts.js: lengths, options and the synthesis itself *)
(* ===================================================================== *)

Section TtsCoverage.
Import JS.
Context `{Runtime}.

Lemma byteLength_bounds_upto (n : nat) (s : jsstring) :
  length s <= n ->
  (N.of_nat (length s) <= byteLength s <= 3 * N.of_nat (length s))%N.
Proof.
  revert s. induction n as [|n IH]; intros s Hlen.
  - destruct s; [cbn; lia|cbn in Hlen; lia].
  - destruct s as [|c rest]; [cbn; lia|].
    cbn [length] in Hlen. cbn [byteLength length].
    assert (Hrest : (N.of_nat (length rest) <= byteLength rest
                     <= 3 * N.of_nat (length rest))%N) by (apply IH; lia).
    destruct (c <? 128)%N; [lia|].
    destruct (c <? 2048)%N; [lia|].
    destruct (is_high_surrogate c); [|lia].
    destruct rest as [|d rest']; [cbn; lia|].
    destruct (is_low_surrogate d); [|lia].
    cbn [length] in *.
    assert (Hrest' : (N.of_nat (length rest') <= byteLength rest'
                      <= 3 * N.of_nat (length rest'))%N) by (apply IH; lia).
    lia.
Qed.

Lemma prepare_ok_iff (s : jsstring) (opts : Tts.Opts) :
  is_ok (Tts.prepare (VStr s) opts) = true <-> s <> [] /\ (byteLength s <= 2000)%N.
Proof.
  split.
  - intros Hok. destruct s as [|c rest]; [cbn in Hok; discriminate|].
    split; [discriminate|].
    destruct (N.le_gt_cases (byteLength (c :: rest)) 2000) as [Hle|Hgt]; [exact Hle|].
    rewrite prepare_too_long in Hok by lia. discriminate.
  - intros [Hne Hle]. now rewrite prepare_accepts.
Qed.

(** X1. The UTF-8 length of a text lies between its number of code units
    and three times that number.  So a non-empty text of at most 666 code
    units always passes the check of [synthesizeSpeech], and a text of more
    than 2000 code units never does. *)
Theorem text_length_against_byte_limit (s : jsstring) (opts : Tts.Opts) :
  (N.of_nat (length s) <= byteLength s <= 3 * N.of_nat (length s))%N
  /\ (s <> [] -> length s <= 666 -> is_ok (Tts.prepare (VStr s) opts) = true)
  /\ (2000 < length s -> is_ok (Tts.prepare (VStr s) opts) = false).
Proof.
  pose proof (byteLength_bounds_upto (length s) s (Nat.le_refl _)) as Hb.
  split; [exact Hb|]. split.
  - intros Hne Hlen. apply prepare_ok_iff. split; [exact Hne|lia].
  - intros Hlen. rewrite prepare_too_long by lia. reflexivity.
Qed.

Lemma byteLength_ascii (s : jsstring) :
  Forall (fun c => (c < 0x80)%N) s -> byteLength s = N.of_nat (length s).
Proof.
  induction 1 as [|c rest Hc _ IH]; [reflexivity|].
  cbn [byteLength length]. destruct (N.ltb_spec c 128); lia.
Qed.

Lemma byteLength_cjk (s : jsstring) :
  Forall (fun c => MeditationGuide.is_cjk c = true) s ->
  byteLength s = (3 * N.of_nat (length s))%N.
Proof.
  induction 1 as [|c rest Hc _ IH]; [reflexivity|].
  cbn [byteLength length]. unfold MeditationGuide.is_cjk in Hc.
  apply andb_prop in Hc as [Hlo Hhi].
  apply N.leb_le in Hlo, Hhi.
  destruct (N.ltb_spec c 128); [lia|].
  destruct (N.ltb_spec c 2048); [lia|].
  unfold is_high_surrogate.
  destruct (N.leb_spec 55296 c); [lia|]. cbn [andb]. lia.
Qed.

(** X2. For a text of ASCII characters the limit is 2000 characters, for a
    text of Chinese characters (U+4E00 to U+9FA5) it is 666: such a text
    passes the check exactly when its length is between 1 and that number. *)
Theorem ascii_and_chinese_limits (s : jsstring) (opts : Tts.Opts) :
  (Forall (fun c => (c < 0x80)%N) s ->
     byteLength s = N.of_nat (length s)
     /\ (is_ok (Tts.prepare (VStr s) opts) = true <-> 1 <= length s <= 2000))
  /\ (Forall (fun c => MeditationGuide.is_cjk c = true) s ->
        byteLength s = (3 * N.of_nat (length s))%N
        /\ (is_ok (Tts.prepare (VStr s) opts) = true <-> 1 <= length s <= 666)).
Proof.
  split; intros Hall.
  - pose proof (byteLength_ascii s Hall) as Hb. split; [exact Hb|].
    rewrite prepare_ok_iff, Hb. destruct s; cbn [length]; split;
      intros; try split; try congruence; try lia; intuition (try congruence; lia).
  - pose proof (byteLength_cjk s Hall) as Hb. split; [exact Hb|].
    rewrite prepare_ok_iff, Hb. destruct s; cbn [length]; split;
      intros; try split; try congruence; try lia; intuition (try congruence; lia).
Qed.

(** X3. A speed that is a number is brought into [-2, 2] and a volume that
    is a number into [0, 10]; a value strictly inside its range is kept as
    it is. *)
Theorem numeric_speed_and_volume_are_clamped (opts : Tts.Opts) :
  let fullOpts := Tts.normalize opts in
  (PrimFloat.is_nan (ToNumber (Tts.o_speed opts)) = false ->
     (-2 <=? Tts.speed fullOpts)%float = true
     /\ (Tts.speed fullOpts <=? 2)%float = true)
  /\ (PrimFloat.is_nan (ToNumber (Tts.o_volume opts)) = false ->
        (0 <=? Tts.volume fullOpts)%float = true
        /\ (Tts.volume fullOpts <=? 10)%float = true)
  /\ ((-2 <? ToNumber (Tts.o_speed opts))%float = true ->
      (ToNumber (Tts.o_speed opts) <? 2)%float = true ->
      Tts.speed fullOpts = ToNumber (Tts.o_speed opts))
  /\ ((0 <? ToNumber (Tts.o_volume opts))%float = true ->
      (ToNumber (Tts.o_volume opts) <? 10)%float = true ->
      Tts.volume fullOpts = ToNumber (Tts.o_volume opts)).
Proof.
  cbv zeta. unfold Tts.normalize. cbn [Tts.speed Tts.volume].
  rewrite !plus_coalesce_is_plus. repeat split.
  - now apply clamp_in_range.
  - now apply clamp_in_range.
  - now apply clamp_in_range.
  - now apply clamp_in_range.
  - now apply clamp_inside.
  - now apply clamp_inside.
Qed.

Lemma falsy_plus_or (v : value) (d : float) :
  truthy_number (StringToNumber []) = false ->
  truthy v = false -> Tts.plus_or v d = d.
Proof.
  intros Hempty Hv. unfold Tts.plus_or, num_or.
  destruct v as [| |b|n|[|c s]|fields]; cbn in *; try discriminate; try reflexivity.
  - now rewrite Hv.
  - now rewrite Hv.
  - now rewrite Hempty.
Qed.

(** X4. The [hq] option changes nothing: it sets the sample rate to 16000
    only where 16000 is the default anyway.  Two option objects that differ
    at most in [hq] are normalised to the same parameters and get the same
    key. *)
Theorem hq_changes_nothing (opts opts' : Tts.Opts) (text : jsstring) :
  truthy_number (StringToNumber []) = false ->
  Tts.o_voiceType opts = Tts.o_voiceType opts' ->
  Tts.o_speed opts = Tts.o_speed opts' ->
  Tts.o_volume opts = Tts.o_volume opts' ->
  Tts.o_sampleRate opts = Tts.o_sampleRate opts' ->
  Tts.o_lang opts = Tts.o_lang opts' ->
  Tts.normalize opts = Tts.normalize opts'
  /\ Tts.prepare (VStr text) opts = Tts.prepare (VStr text) opts'.
Proof.
  intros Hempty Hv Hs Hvol Hr Hl.
  assert (Hn : Tts.normalize opts = Tts.normalize opts').
  { assert (Hhq : forall b : bool,
               Tts.plus_or (if b && negb (truthy (Tts.o_sampleRate opts'))
                            then VNum 16000%float else Tts.o_sampleRate opts')
                           16000%float
               = Tts.plus_or (Tts.o_sampleRate opts') 16000%float).
    { intros [|]; [|reflexivity].
      destruct (truthy (Tts.o_sampleRate opts')) eqn:Ht; [reflexivity|].
      cbn [andb negb]. now rewrite (falsy_plus_or _ _ Hempty Ht). }
    unfold Tts.normalize. rewrite Hv, Hs, Hvol, Hr, Hl, !Hhq. reflexivity. }
  split; [exact Hn|]. unfold Tts.prepare. now rewrite Hn.
Qed.

Lemma clamp_cases (n lo hi : float) :
  Tts.clamp n lo hi = nan \/ Tts.clamp n lo hi = lo \/ Tts.clamp n lo hi = hi
  \/ Tts.clamp n lo hi = n.
Proof.
  unfold Tts.clamp, Math_max.
  destruct (_ || _); [now left|].
  destruct (Math_min_cases hi n) as [-> | [-> | ->]];
    repeat match goal with
           | |- context [if ?b then _ else _] => destruct b
           end; auto.
Qed.

Lemma clamp_speed_again (n : float) :
  Tts.clamp (Tts.clamp n (-2) 2) (-2) 2 = Tts.clamp n (-2) 2.
Proof.
  destruct (clamp_cases n (-2) 2) as [E | [E | [E | E]]]; rewrite E; try reflexivity.
  exact E.
Qed.

Lemma clamp_volume_again (n : float) :
  Tts.clamp (Tts.clamp n 0 10) 0 10 = Tts.clamp n 0 10.
Proof.
  destruct (clamp_cases n 0 10) as [E | [E | [E | E]]]; rewrite E; try reflexivity.
  exact E.
Qed.

Lemma num_or_again (x d : float) :
  truthy_number d = true -> num_or (num_or x d) d = num_or x d.
Proof.
  intros Hd. unfold num_or. destruct (truthy_number x) eqn:Hx; [now rewrite Hx|].
  now rewrite Hd.
Qed.

(** X5. What is registered is what is sent: every request
    [_innerSynthesize] makes to the provider carries the text and the voice
    type, speed, volume and sample rate of [fullOpts]; normalising them a
    second time changes none of them. *)
Theorem provider_gets_the_normalised_options (cfg : Tts.Cfg) (remote : Tts.Remote)
    (s : jsstring) (opts : Tts.Opts) (attempt : nat) (r : Tts.TextToVoiceRequest) :
  In (Tts.EvTextToVoice attempt r)
     (snd (Tts.synthesizeSpeech cfg remote (VStr s) opts)) ->
  Tts.Text r = s
  /\ Tts.VoiceType r = Tts.voiceType (Tts.normalize opts)
  /\ Tts.Speed r = Tts.speed (Tts.normalize opts)
  /\ Tts.Volume r = Tts.volume (Tts.normalize opts)
  /\ Tts.SampleRate r = Tts.sampleRate (Tts.normalize opts).
Proof.
  unfold Tts.synthesizeSpeech, Tts.prepare.
  destruct (negb (truthy (VStr s)) || negb (is_string (VStr s))); [now cbn|].
  destruct (2000 <? byteLength s)%N; [now cbn|].
  assert (Hreq : forall key q,
             q = {| Tts.Text := s;
                    Tts.VoiceType := Tts.voiceType (Tts.normalize opts);
                    Tts.PrimaryLanguage := Tts.PrimaryLanguage q;
                    Tts.SampleRate := Tts.sampleRate (Tts.normalize opts);
                    Tts.Speed := Tts.speed (Tts.normalize opts);
                    Tts.Volume := Tts.volume (Tts.normalize opts);
                    Tts.SessionId := Tts.SessionId q |} ->
             In (Tts.EvTextToVoice attempt r)
                (snd (Tts.ttsLoop cfg remote q key 2 0 None)) ->
             Tts.Text r = s
             /\ Tts.VoiceType r = Tts.voiceType (Tts.normalize opts)
             /\ Tts.Speed r = Tts.speed (Tts.normalize opts)
             /\ Tts.Volume r = Tts.volume (Tts.normalize opts)
             /\ Tts.SampleRate r = Tts.sampleRate (Tts.normalize opts)).
  { intros key q Hq Hin. rewrite (ttsLoop_requests _ _ _ _ _ _ _ _ _ Hin), Hq.
    repeat split. }
  unfold Tts._innerSynthesize.
  set (q := {| Tts.Text := s |}).
  assert (Hq : q = {| Tts.Text := s;
                      Tts.VoiceType := Tts.voiceType (Tts.normalize opts);
                      Tts.PrimaryLanguage := Tts.PrimaryLanguage q;
                      Tts.SampleRate := Tts.sampleRate (Tts.normalize opts);
                      Tts.Speed := Tts.speed (Tts.normalize opts);
                      Tts.Volume := Tts.volume (Tts.normalize opts);
                      Tts.SessionId := Tts.SessionId q |}).
  { unfold q. cbn [Tts.PrimaryLanguage Tts.SessionId]. f_equal.
    - unfold Tts.normalize at 1 2. cbn [Tts.voiceType]. unfold Tts.plus_or.
      now apply num_or_again.
    - unfold Tts.normalize at 1 2. cbn [Tts.sampleRate]. unfold Tts.plus_or.
      now apply num_or_again.
    - unfold Tts.normalize at 1 2. cbn [Tts.speed].
      rewrite (plus_coalesce_is_plus (VNum _)). cbn [ToNumber].
      apply clamp_speed_again.
    - unfold Tts.normalize at 1 2. cbn [Tts.volume].
      rewrite (plus_coalesce_is_plus (VNum _)). cbn [ToNumber].
      apply clamp_volume_again. }
  clearbody q.
  destruct (Tts.store_configured cfg).
  - destruct (Tts.headObject remote _).
    + cbn. intros [Hhead|[]]. discriminate.
    + match goal with
      | |- context [Tts.ttsLoop cfg remote q ?k 2 0 None] =>
          specialize (Hreq k q Hq);
          destruct (Tts.ttsLoop cfg remote q k 2 0 None) as [res tr]
      end.
      cbn in *. intros [Hhead|Htail]; [discriminate|auto].
    + match goal with
      | |- context [Tts.ttsLoop cfg remote q ?k 2 0 None] =>
          specialize (Hreq k q Hq);
          destruct (Tts.ttsLoop cfg remote q k 2 0 None) as [res tr]
      end.
      cbn in *. intros [Hhead|Htail]; [discriminate|auto].
  - intros Hin. eapply Hreq; eauto.
Qed.

End TtsCoverage.

(* ===================================================================== *)
(** ** utils/tts.js: what a synthesis costs and what it returns *)
(* ===================================================================== *)

Section TtsSynthesis.
Import JS.
Context `{Runtime}.
Variable cfg : Tts.Cfg.
Variable remote : Tts.Remote.

Local Abbreviation heads := (Traces.count Traces.is_head).
Local Abbreviation calls := (Traces.count Traces.is_textToVoice).
Local Abbreviation puts := (Traces.count Traces.is_put).

(** The upload loop: at most [n] uploads and nothing else; it succeeds when
    one of them goes through. *)
Lemma cosLoop_shape (attempt : nat) (key : string) (n c : nat) :
  let '(ok, tr) := Tts.cosLoop remote attempt key n c in
  heads tr = 0 /\ calls tr = 0 /\ puts tr <= n
  /\ (ok = true <-> exists i, i < n /\ Tts.putObject remote attempt (c + i) = None).
Proof.
  revert c. induction n as [|n IH]; intros c; cbn [Tts.cosLoop].
  - unfold Traces.count. cbn. repeat split; try lia; try discriminate.
    intros (i & Hi & _). lia.
  - destruct (Tts.putObject remote attempt c) eqn:Hput.
    + specialize (IH (S c)).
      destruct (Tts.cosLoop remote attempt key n (S c)) as [ok tr].
      destruct IH as (Hh & Hc & Hp & Hok).
      unfold Traces.count in *. cbn [List.filter Traces.is_head Traces.is_textToVoice
                                     Traces.is_put length].
      repeat split; try lia.
      * intros Hyes. apply Hok in Hyes as (i & Hi & Hnone).
        exists (S i). split; [lia|]. now rewrite Nat.add_succ_r.
      * intros (i & Hi & Hnone). apply Hok. destruct i as [|i].
        -- rewrite Nat.add_0_r in Hnone. congruence.
        -- exists i. split; [lia|]. now rewrite Nat.add_succ_r in Hnone.
    + unfold Traces.count. cbn. repeat split; try lia.
      intros _. exists 0. split; [lia|]. now rewrite Nat.add_0_r.
Qed.

(** The synthesis loop from attempt [a0] with [n] attempts left. *)
Lemma ttsLoop_shape (req : Tts.TextToVoiceRequest) (key : string) (n a0 : nat)
    (last : option Exn) :
  let '(res, tr) := Tts.ttsLoop cfg remote req key n a0 last in
  heads tr = 0 /\ calls tr <= n /\ puts tr <= 2
  /\ match res with
     | Throw _ =>
         calls tr = n /\ puts tr = 0
         /\ forall i, i < n -> is_ok (Tts.TextToVoice remote (a0 + i)) = false
     | Ok r =>
         exists i audio,
           i < n /\ calls tr = S i
           /\ Tts.TextToVoice remote (a0 + i) = Ok audio
           /\ (forall j, j < i -> is_ok (Tts.TextToVoice remote (a0 + j)) = false)
           /\ Tts.sr_base64 r
              = Some ("data:audio/mpeg;base64," ++ base64_again audio)%string
           /\ (Tts.sr_url r = Some (Tts.buildUrl cfg key) \/ Tts.sr_url r = None)
           /\ (Tts.sr_url r <> None <->
               Tts.store_configured cfg = true
               /\ exists c, c < 2 /\ Tts.putObject remote (a0 + i) c = None)
           /\ (Tts.store_configured cfg = false -> puts tr = 0)
     end.
Proof.
  revert a0 last. induction n as [|n IH]; intros a0 last; cbn [Tts.ttsLoop].
  - unfold Traces.count. cbn. repeat split; lia.
  - destruct (Tts.TextToVoice remote a0) as [audio|e] eqn:Hcall.
    + destruct (Tts.store_configured cfg) eqn:Hstore.
      * pose proof (cosLoop_shape a0 key 2 0) as Hcos.
        destruct (Tts.cosLoop remote a0 key 2 0) as [ok tr].
        destruct Hcos as (Hh & Hc & Hp & Hok).
        assert (Hfacts : heads (Tts.EvTextToVoice a0 req :: tr) = 0
                         /\ calls (Tts.EvTextToVoice a0 req :: tr) = 1
                         /\ puts (Tts.EvTextToVoice a0 req :: tr) <= 2).
        { unfold Traces.count in *. cbn. repeat split; lia. }
        destruct Hfacts as (Hh' & Hc' & Hp').
        assert (Hup : ok = true <-> exists c, c < 2 /\ Tts.putObject remote a0 c = None)
          by exact Hok.
        destruct ok; (split; [exact Hh'|]); (split; [lia|]); (split; [exact Hp'|]);
          exists 0, audio; rewrite Nat.add_0_r; cbn [Tts.sr_url Tts.sr_base64].
        -- split; [lia|]. split; [exact Hc'|]. split; [exact Hcall|].
           split; [intros j Hj; lia|]. split; [reflexivity|]. split; [now left|].
           split; [|discriminate]. split; [|discriminate].
           intros _. split; [reflexivity|]. now apply Hup.
        -- split; [lia|]. split; [exact Hc'|]. split; [exact Hcall|].
           split; [intros j Hj; lia|]. split; [reflexivity|]. split; [now right|].
           split; [|discriminate]. split; [congruence|].
           intros [_ Hex]. apply Hup in Hex. discriminate.
      * unfold Traces.count. cbn [List.filter Traces.is_head Traces.is_textToVoice
                                  Traces.is_put length].
        split; [reflexivity|]. split; [lia|]. split; [lia|].
        exists 0, audio. rewrite Nat.add_0_r. cbn [Tts.sr_url Tts.sr_base64].
        split; [lia|]. split; [reflexivity|]. split; [exact Hcall|].
        split; [intros j Hj; lia|]. split; [reflexivity|]. split; [now right|].
        split; [|reflexivity]. split; [congruence|]. intros [Hno _]. discriminate.
    + specialize (IH (S a0) (Some e)).
      destruct (Tts.ttsLoop cfg remote req key n (S a0) (Some e)) as [res tr].
      destruct IH as (Hh & Hc & Hp & Hres).
      assert (Hfacts : heads (Tts.EvTextToVoice a0 req :: tr) = heads tr
                       /\ calls (Tts.EvTextToVoice a0 req :: tr) = S (calls tr)
                       /\ puts (Tts.EvTextToVoice a0 req :: tr) = puts tr).
      { unfold Traces.count. cbn. repeat split. }
      destruct Hfacts as (Eh & Ec & Ep). rewrite Eh, Ec, Ep.
      repeat split; try lia.
      destruct res as [r|e'].
      * destruct Hres as (i & audio & Hi & Hcalls & Haudio & Hbefore & Hb & Hu & Hurl & Hnp).
        exists (S i), audio. rewrite !Nat.add_succ_r in *. cbn [Nat.add] in *.
        repeat split; try lia; try assumption.
        -- intros [|j] Hj; [now rewrite Nat.add_0_r, Hcall|].
           rewrite Nat.add_succ_r. apply Hbefore. lia.
        -- now apply Hurl.
        -- now apply Hurl.
        -- now apply Hurl.
      * destruct Hres as (Hcalls & Hputs & Hall). repeat split; try lia.
        intros [|i] Hi; [now rewrite Nat.add_0_r, Hcall|].
        rewrite Nat.add_succ_r. apply Hall. lia.
Qed.

Lemma count_cons {A} (p : A -> bool) (x : A) (l : list A) :
  Traces.count p (x :: l) = (if p x then 1 else 0) + Traces.count p l.
Proof. unfold Traces.count. cbn. now destruct (p x). Qed.

(** X6. One call of [synthesizeSpeech] probes the store at most once, asks
    the provider at most twice and uploads at most twice.  A call that the
    checks reject does none of it; a call that fails later has asked the
    provider exactly twice, both times in vain, and has uploaded nothing. *)
Theorem synthesis_network_budget (text : value) (opts : Tts.Opts) :
  let res := fst (Tts.synthesizeSpeech cfg remote text opts) in
  let tr := snd (Tts.synthesizeSpeech cfg remote text opts) in
  heads tr <= 1 /\ calls tr <= 2 /\ puts tr <= 2
  /\ (is_ok (Tts.prepare text opts) = false -> is_ok res = false /\ tr = [])
  /\ (is_ok (Tts.prepare text opts) = true -> is_ok res = false ->
      calls tr = 2 /\ puts tr = 0
      /\ is_ok (Tts.TextToVoice remote 0) = false
      /\ is_ok (Tts.TextToVoice remote 1) = false).
Proof.
  cbv zeta. unfold Tts.synthesizeSpeech.
  destruct (Tts.prepare text opts) as [[[s fullOpts] key]|e].
  2:{ cbn. repeat split; try lia; discriminate. }
  cbn [is_ok]. unfold Tts._innerSynthesize.
  match goal with
  | |- context [Tts.ttsLoop cfg remote ?q ?k 2 0 None] =>
      pose proof (ttsLoop_shape q k 2 0 None) as Hloop;
      destruct (Tts.ttsLoop cfg remote q k 2 0 None) as [res tr] eqn:Eloop
  end.
  destruct Hloop as (Hh & Hc & Hp & Hres).
  assert (Hthrow : is_ok res = false ->
                   calls tr = 2 /\ puts tr = 0
                   /\ is_ok (Tts.TextToVoice remote 0) = false
                   /\ is_ok (Tts.TextToVoice remote 1) = false).
  { destruct res as [r|e]; [discriminate|]. intros _.
    destruct Hres as (Hc2 & Hp0 & Hall).
    repeat split; try assumption; [apply (Hall 0)|apply (Hall 1)]; lia. }
  destruct (Tts.store_configured cfg).
  - destruct (Tts.headObject remote _); cbn [fst snd];
      rewrite ?count_cons; cbn [Traces.is_head Traces.is_textToVoice Traces.is_put];
      repeat split; try (unfold Traces.count; cbn; lia); try lia; try discriminate;
      intros; destruct Hthrow as (? & ? & ? & ?); (assumption || lia).
  - cbn [fst snd]. repeat split; try lia; try discriminate;
      intros; destruct Hthrow as (? & ? & ? & ?); (assumption || lia).
Qed.

(** X7. What a successful synthesis returns.  It carries an address or the
    audio itself, never neither.  The audio is missing only on a cache hit,
    where the provider was not asked at all; an address is given only when
    the store is configured. *)
Theorem synthesis_result_shape (text : value) (opts : Tts.Opts) (r : Tts.SynthResult) :
  fst (Tts.synthesizeSpeech cfg remote text opts) = Ok r ->
  let tr := snd (Tts.synthesizeSpeech cfg remote text opts) in
  (Tts.sr_url r <> None \/ Tts.sr_base64 r <> None)
  /\ (Tts.sr_base64 r = None <-> calls tr = 0)
  /\ (Tts.sr_base64 r = None -> heads tr = 1 /\ puts tr = 0 /\ Tts.sr_url r <> None)
  /\ (Tts.sr_url r <> None -> Tts.store_configured cfg = true /\ heads tr = 1)
  /\ (Tts.store_configured cfg = false -> heads tr = 0 /\ puts tr = 0).
Proof.
  cbv zeta. unfold Tts.synthesizeSpeech.
  destruct (Tts.prepare text opts) as [[[s fullOpts] key]|e]; [|discriminate].
  unfold Tts._innerSynthesize.
  match goal with
  | |- context [Tts.ttsLoop cfg remote ?q ?k 2 0 None] =>
      pose proof (ttsLoop_shape q k 2 0 None) as Hloop;
      destruct (Tts.ttsLoop cfg remote q k 2 0 None) as [res tr] eqn:Eloop
  end.
  destruct Hloop as (Hh & Hc & Hp & Hres).
  assert (Hlive : res = Ok r ->
                  Tts.sr_base64 r <> None /\ calls tr <> 0
                  /\ (Tts.sr_url r <> None -> Tts.store_configured cfg = true)
                  /\ (Tts.store_configured cfg = false -> puts tr = 0)).
  { intros ->. destruct Hres as (i & audio & _ & Hcalls & _ & _ & Hb & _ & Hurl & Hnp).
    repeat split; try congruence; try lia; try assumption. now apply Hurl. }
  destruct (Tts.store_configured cfg) eqn:Hstore.
  - destruct (Tts.headObject remote _); cbn [fst snd].
    + intros [= <-]. cbn [Tts.sr_url Tts.sr_base64]. unfold Traces.count. cbn.
      intuition (try congruence; try lia).
    + intros Hr. destruct (Hlive Hr) as (Hb & Hcalls & Hurl & Hnp).
      rewrite !count_cons. cbn [Traces.is_head Traces.is_textToVoice Traces.is_put].
      intuition (try congruence; try lia).
    + intros Hr. destruct (Hlive Hr) as (Hb & Hcalls & Hurl & Hnp).
      rewrite !count_cons. cbn [Traces.is_head Traces.is_textToVoice Traces.is_put].
      intuition (try congruence; try lia).
  - cbn [fst snd]. intros Hr. destruct (Hlive Hr) as (Hb & Hcalls & Hurl & Hnp).
    intuition (try congruence; try lia).
Qed.

(** X8. A failed upload does not fail the synthesis.  When the store holds
    no copy and the provider answers at the first or at the second attempt,
    the call returns the audio of that attempt, decoded and encoded again as
    the code does, whatever the store does with the uploads; the address
    comes with it exactly when the store is configured and one of the two
    uploads of that attempt went through.  The attempts before it are the
    only other calls of the provider. *)
Theorem upload_failure_is_not_fatal (s : jsstring) (opts : Tts.Opts)
    (attempt : nat) (audio : string) :
  s <> [] -> (byteLength s <= 2000)%N ->
  (forall key, Tts.headObject remote key <> Tts.HeadFound) ->
  attempt < 2 ->
  (forall j, j < attempt -> is_ok (Tts.TextToVoice remote j) = false) ->
  Tts.TextToVoice remote attempt = Ok audio ->
  exists r,
    fst (Tts.synthesizeSpeech cfg remote (VStr s) opts) = Ok r
    /\ Tts.sr_base64 r
       = Some ("data:audio/mpeg;base64," ++ base64_again audio)%string
    /\ (Tts.sr_url r <> None <->
        Tts.store_configured cfg = true
        /\ (Tts.putObject remote attempt 0 = None
            \/ Tts.putObject remote attempt 1 = None))
    /\ calls (snd (Tts.synthesizeSpeech cfg remote (VStr s) opts)) = S attempt.
Proof.
  intros Hs Hlen Hhead Hlt Hbefore Haudio.
  unfold Tts.synthesizeSpeech. rewrite prepare_accepts by assumption.
  unfold Tts._innerSynthesize.
  match goal with
  | |- context [Tts.ttsLoop cfg remote ?q ?k 2 0 None] =>
      pose proof (ttsLoop_shape q k 2 0 None) as Hloop;
      pose proof (Hhead k) as Hmiss;
      destruct (Tts.ttsLoop cfg remote q k 2 0 None) as [res tr] eqn:Eloop
  end.
  destruct Hloop as (Hh & Hc & Hp & Hres).
  assert (Hgood : exists r,
             res = Ok r
             /\ Tts.sr_base64 r
                = Some ("data:audio/mpeg;base64," ++ base64_again audio)%string
             /\ (Tts.sr_url r <> None <->
                 Tts.store_configured cfg = true
                 /\ (Tts.putObject remote attempt 0 = None
                     \/ Tts.putObject remote attempt 1 = None))
             /\ calls tr = S attempt).
  { destruct res as [r|e].
    - destruct Hres as (i & audio' & Hi & Hcalls & Haudio' & Hfail & Hb & _ & Hurl & _).
      cbn [Nat.add] in *.
      assert (Hia : i = attempt).
      { destruct (Nat.lt_trichotomy i attempt) as [Hless|[Heq|Hmore]]; [|exact Heq|].
        - apply Hbefore in Hless. rewrite Haudio' in Hless. discriminate.
        - apply Hfail in Hmore. cbn [Nat.add] in Hmore. rewrite Haudio in Hmore.
          discriminate. }
      subst i. assert (audio' = audio) by congruence. subst audio'.
      exists r. repeat split; try assumption.
      + apply Hurl. assumption.
      + apply Hurl in H0 as [_ (c & Hc2 & Hnone)].
        destruct c as [|[|c]]; [now left|now right|lia].
      + intros [Hst [Hnone|Hnone]]; apply Hurl; (split; [assumption|]);
          [exists 0|exists 1]; (split; [lia|assumption]).
    - destruct Hres as (_ & _ & Hall). specialize (Hall attempt Hlt).
      cbn [Nat.add] in Hall. rewrite Haudio in Hall. discriminate. }
  destruct Hgood as (r & -> & Hb & Hurl & Hcalls).
  exists r.
  destruct (Tts.store_configured cfg).
  - destruct (Tts.headObject remote _); [congruence| |]; cbn [fst snd];
      rewrite count_cons; cbn [Traces.is_textToVoice];
      (split; [reflexivity|]); (split; [exact Hb|]); (split; [exact Hurl|exact Hcalls]).
  - cbn [fst snd]. split; [reflexivity|]. split; [exact Hb|].
    split; [exact Hurl|exact Hcalls].
Qed.

End TtsSynthesis.

(* ===================================================================== *)
(** ** utils/tts.js: the registry holds what is in flight and nothing else *)
(* ===================================================================== *)

Section TtsRegistrySize.
Import JS.
Context `{Runtime}.

Lemma sized_step (r : Tts.Registry) (a : Tts.action) :
  Tts.consistent r -> Tts.sized r -> Tts.sized (Tts.step r a).
Proof.
  intros [Hmap Hlt] [Hsize Hle]. destruct a as [text opts|task fulfilled]; cbn.
  - unfold Tts.invoke.
    destruct (Tts.prepare text opts) as [[[s f] key]|e]; [|now split].
    destruct (Tts.pending r !! key) as [task|] eqn:Hk; [now split|].
    assert (Hfresh : Tts.running r !! Tts.created r = None).
    { destruct (Tts.running r !! Tts.created r) as [k|] eqn:Hr; [|reflexivity].
      apply Hlt in Hr. lia. }
    split; cbn.
    + rewrite !map_size_insert_None by assumption. lia.
    + rewrite map_size_insert_None by assumption. lia.
  - unfold Tts.settle.
    destruct (Tts.running r !! task) as [key|] eqn:Hr; [|now split].
    assert (Hp : Tts.pending r !! key = Some task) by now apply Hmap.
    split; cbn.
    + rewrite !map_size_delete_Some by (eexists; eassumption). lia.
    + rewrite map_size_delete_Some by (eexists; eassumption). lia.
Qed.

Lemma sized_run (acts : list Tts.action) (r : Tts.Registry) :
  Tts.consistent r -> Tts.sized r -> Tts.sized (Tts.run acts r).
Proof.
  revert r. induction acts as [|a acts IH]; intros r Hc Hs; [exact Hs|].
  cbn. apply IH; [now apply consistent_step | now apply sized_step].
Qed.

Lemma created_run (acts : list Tts.action) (r : Tts.Registry) :
  Tts.created r <= Tts.created (Tts.run acts r)
  /\ Tts.created (Tts.run acts r) <= Tts.created r + Traces.count Traces.is_invoke acts.
Proof.
  revert r. induction acts as [|a acts IH]; intros r.
  - unfold Traces.count. cbn. lia.
  - cbn [Tts.run fold_left]. specialize (IH (Tts.step r a)).
    change (fold_left Tts.step acts (Tts.step r a)) with (Tts.run acts (Tts.step r a)).
    assert (Hstep : Tts.created r <= Tts.created (Tts.step r a)
                    /\ Tts.created (Tts.step r a)
                       <= Tts.created r + (if Traces.is_invoke a then 1 else 0)).
    { destruct a as [text opts|task fulfilled]; cbn.
      - unfold Tts.invoke.
        destruct (Tts.prepare text opts) as [[[s f] key]|e]; [|cbn; lia].
        destruct (Tts.pending r !! key); cbn; lia.
      - unfold Tts.settle. destruct (Tts.running r !! task); cbn; lia. }
    unfold Traces.count in *. cbn [List.filter].
    destruct (Traces.is_invoke a); cbn [length]; lia.
Qed.

Lemma settle_created (r : Tts.Registry) task fulfilled :
  Tts.created (Tts.settle r task fulfilled) = Tts.created r.
Proof. unfold Tts.settle. now destruct (Tts.running r !! task). Qed.

Lemma settle_gone (r : Tts.Registry) task fulfilled :
  Tts.running (Tts.settle r task fulfilled) !! task = None.
Proof.
  unfold Tts.settle. destruct (Tts.running r !! task) eqn:Hr; [|exact Hr].
  cbn. apply lookup_delete_eq.
Qed.

Lemma settle_stays_gone (r : Tts.Registry) task fulfilled t :
  Tts.running r !! t = None -> Tts.running (Tts.settle r task fulfilled) !! t = None.
Proof.
  intros Ht. unfold Tts.settle. destruct (Tts.running r !! task); [|exact Ht].
  cbn. destruct (decide (task = t)) as [->|Hne].
  - apply lookup_delete_eq.
  - now rewrite lookup_delete_ne.
Qed.

Lemma settle_all_run (tasks : list (nat * bool)) (r : Tts.Registry) :
  Tts.created (Tts.run (Tts.settle_all tasks) r) = Tts.created r
  /\ (forall t, Tts.running r !! t = None ->
                Tts.running (Tts.run (Tts.settle_all tasks) r) !! t = None)
  /\ (forall t, In t (map fst tasks) ->
                Tts.running (Tts.run (Tts.settle_all tasks) r) !! t = None).
Proof.
  revert r. induction tasks as [|[task fulfilled] tasks IH]; intros r.
  - cbn. repeat split; auto. intros t [].
  - cbn [Tts.settle_all map Tts.run fold_left Tts.step].
    destruct (IH (Tts.settle r task fulfilled)) as (Hcr & Hnone & Hin).
    unfold Tts.run, Tts.settle_all in *.
    split; [rewrite Hcr; apply settle_created|]. split.
    + intros t Ht. apply Hnone. now apply settle_stays_gone.
    + intros t [<-|Ht]; [apply Hnone, settle_gone|now apply Hin].
Qed.

(** X9. The registry holds what is in flight and nothing else.  In every
    state it reaches it has as many keys as there are unsettled tasks, and
    no more tasks have been started than calls were made.  Once every task
    started so far has settled, in whatever order and whether fulfilled or
    rejected, the registry is empty. *)
Theorem registry_does_not_leak (acts : list Tts.action) (tasks : list (nat * bool)) :
  let r := Tts.run acts Tts.idle in
  size (Tts.pending r) = size (Tts.running r)
  /\ size (Tts.running r) <= Tts.created r
  /\ Tts.created r <= Traces.count Traces.is_invoke acts
  /\ ((forall t, t < Tts.created r -> In t (map fst tasks)) ->
      Tts.pending (Tts.run (Tts.settle_all tasks) r) = ∅
      /\ Tts.running (Tts.run (Tts.settle_all tasks) r) = ∅).
Proof.
  intros r.
  assert (Hc : Tts.consistent r) by apply consistent_run, consistent_idle.
  assert (Hs : Tts.sized r).
  { apply sized_run; [apply consistent_idle|]. split; cbn; [reflexivity|].
    rewrite map_size_empty. lia. }
  destruct Hs as [Hsize Hle].
  split; [exact Hsize|]. split; [exact Hle|].
  split; [apply (created_run acts Tts.idle)|].
  intros Hall.
  destruct (settle_all_run tasks r) as (Hcr & _ & Hin).
  assert (Hc' : Tts.consistent (Tts.run (Tts.settle_all tasks) r))
    by now apply consistent_run.
  assert (Hrun : Tts.running (Tts.run (Tts.settle_all tasks) r) = ∅).
  { apply map_empty. intros t.
    destruct (Tts.running (Tts.run (Tts.settle_all tasks) r) !! t) as [k|] eqn:Ht;
      [|reflexivity].
    pose proof (proj2 Hc' _ _ Ht) as Hlt. rewrite Hcr in Hlt.
    rewrite (Hin t (Hall t Hlt)) in Ht. discriminate. }
  split; [|exact Hrun].
  apply map_empty. intros k.
  destruct (Tts.pending (Tts.run (Tts.settle_all tasks) r) !! k) as [t|] eqn:Hk;
    [|reflexivity].
  apply (proj1 Hc') in Hk. rewrite Hrun, lookup_empty in Hk. discriminate.
Qed.

End TtsRegistrySize.

(* ===================================================================== *)
(** ** utils/call_llm.js *)
(* ===================================================================== *)

Section CallLLMFacts.
Import JS Model.
Variable env : CallLLM.Env.
Variable post : string -> CallLLM.Body -> CallLLM.reply.

Local Abbreviation callLLM := (CallLLM.callLLM env post).

Lemma str_or_nonempty (s : option string) (d : string) :
  d <> ""%string -> str_or s d <> ""%string.
Proof.
  intros Hd. unfold str_or. destruct s as [x|]; [|exact Hd].
  destruct (String.eqb_spec x ""); assumption.
Qed.

Lemma num_or_truthy (x d : float) :
  truthy_number d = true -> truthy_number (num_or x d) = true.
Proof. intros Hd. unfold num_or. now destruct (truthy_number x) eqn:Hx. Qed.

Lemma opt_num_or_truthy (x : option float) (d : float) :
  truthy_number d = true -> truthy_number (opt_num_or x d) = true.
Proof. intros Hd. destruct x as [v|]; [now apply num_or_truthy|exact Hd]. Qed.

Lemma content_of_text (data : option CallLLM.ResponseData) (content : jsstring) :
  CallLLM.content_of data = Some content -> content <> [].
Proof.
  unfold CallLLM.content_of. destruct (text_or _ _); [discriminate|].
  intros [= <-]. discriminate.
Qed.

(** X10. [callLLM] answers in one of two shapes: [success: true] with a
    text that is not empty, the same under [text] and under [content], and
    no error; or [success: false] with an error and no data.  It posts at most once, and without an API key not at all: the
    answer is then the error [NO_API_KEY]. *)
Theorem callLLM_reply_envelope (params : CallLLM.Params) :
  let resp := fst (callLLM params) in
  let tr := snd (callLLM params) in
  length tr <= 1
  /\ (tr = [] <-> Tts.configured (CallLLM.HUNYUAN_API_KEY env) = false)
  /\ (tr = [] -> r_success resp = false
                 /\ (err_code <$> r_error resp) = Some "NO_API_KEY"%string)
  /\ (r_success resp = true ->
      r_error resp = None
      /\ exists content,
           content <> []
           /\ (r_data resp ≫= d_text) = Some content
           /\ (r_data resp ≫= d_content) = Some content)
  /\ (r_success resp = false -> r_data resp = None /\ is_Some (r_error resp)).
Proof.
  cbv zeta. unfold CallLLM.callLLM.
  destruct (Tts.configured (CallLLM.HUNYUAN_API_KEY env)); cbn [negb fst snd length].
  - split; [lia|]. split; [split; discriminate|]. split; [discriminate|].
    destruct (post _ _) as [data|err].
    + destruct (CallLLM.content_of data) as [content|] eqn:Hcontent; cbn.
      * split; [|discriminate]. intros _. split; [reflexivity|].
        exists content. split; [now apply (content_of_text data)|]. now split.
      * split; [discriminate|]. intros _. split; [reflexivity|]. now eexists.
    + cbn. split; [discriminate|]. intros _. split; [reflexivity|]. now eexists.
  - cbn. split; [lia|]. split; [split; reflexivity|]. split; [now split|].
    split; [discriminate|]. intros _. split; [reflexivity|]. now eexists.
Qed.

(** X11. Every request [callLLM] posts goes to an address that is not empty
    and names a model; its temperature and its token limit are numbers other
    than zero.  A temperature of 0 cannot be asked for: [||] replaces it, as
    it replaces a missing one, by 0.7. *)
Theorem callLLM_request_defaults (params : CallLLM.Params) (endpoint : string)
    (body : CallLLM.Body) :
  In (CallLLM.EvPost endpoint body) (snd (callLLM params)) ->
  body = CallLLM.body_of params
  /\ endpoint <> ""%string
  /\ CallLLM.b_model body <> ""%string
  /\ truthy_number (CallLLM.b_temperature body) = true
  /\ truthy_number (CallLLM.b_max_tokens body) = true
  /\ (forall o, params = CallLLM.Object o ->
                CallLLM.c_temperature o = Some 0%float ->
                CallLLM.b_temperature body = 0.7%float).
Proof.
  unfold CallLLM.callLLM.
  destruct (Tts.configured (CallLLM.HUNYUAN_API_KEY env)); cbn [negb snd];
    [|intros []].
  intros [[= <- <-]|[]].
  split; [reflexivity|]. split; [now apply str_or_nonempty|].
  destruct params as [prompt|o]; cbn [CallLLM.body_of CallLLM.b_model
    CallLLM.b_temperature CallLLM.b_max_tokens].
  - repeat split; discriminate.
  - split; [now apply str_or_nonempty|].
    split; [now apply opt_num_or_truthy|].
    split; [now apply opt_num_or_truthy|].
    intros o' [= <-] Hzero. rewrite Hzero. reflexivity.
Qed.

(** X12. Which text [callLLM] takes from a reply.  With a key set and the
    request answered, the call succeeds exactly when one of
    [choices[0].message.content], [result.content] and [content] holds a text
    that is not empty, and it returns the first of them that does; an empty
    text in an earlier place does not hide a later one. *)
Theorem callLLM_takes_first_text (params : CallLLM.Params)
    (data : option CallLLM.ResponseData) :
  Tts.configured (CallLLM.HUNYUAN_API_KEY env) = true ->
  post (str_or (CallLLM.HUNYUAN_ENDPOINT env) CallLLM.default_endpoint)
       (CallLLM.body_of params) = CallLLM.Resolved data ->
  let resp := fst (callLLM params) in
  let places := [data ≫= CallLLM.rd_choice; data ≫= CallLLM.rd_result;
                 data ≫= CallLLM.rd_content] in
  let texts := List.filter (fun t => negb (bool_decide (t = []))) (omap id places) in
  (r_success resp = true <-> texts <> [])
  /\ (r_data resp ≫= d_text) = head texts
  /\ (r_success resp = false ->
      (err_code <$> r_error resp) = Some "EMPTY_RESPONSE"%string).
Proof.
  intros Hkey Hpost. cbv zeta. unfold CallLLM.callLLM. rewrite Hkey, Hpost.
  cbn [negb fst]. unfold CallLLM.content_of.
  destruct (data ≫= CallLLM.rd_choice) as [[|c1 s1]|];
    destruct (data ≫= CallLLM.rd_result) as [[|c2 s2]|];
    destruct (data ≫= CallLLM.rd_content) as [[|c3 s3]|];
    cbn; repeat split; try discriminate; try congruence.
Qed.

End CallLLMFacts.

(* ===================================================================== *)
(** ** router/meditationGuide.js: results, traces and metadata *)
(* ===================================================================== *)

Section GuideCoverage.
Import JS Model MeditationGuide.
Context `{Runtime}.
Variable config : Config.Env.
Variable meditationConfig : PromptBuilder.MeditationConfig.
Variable callLLM : LLMRequest -> outcome (option LLMResp).
Variable synthesizeSpeech : value -> outcome (option TtsResponse) * list Tts.net_event.
Variable clock : Clock.

Local Abbreviation handle :=
  (handleMeditationGuide config meditationConfig callLLM synthesizeSpeech clock).
Local Abbreviation preview :=
  (handleMeditationPreview config meditationConfig callLLM synthesizeSpeech clock).
Local Abbreviation valid ev :=
  (validateInputs config meditationConfig (topic_of ev) (language_of ev)
     (duration_of ev)).
Local Abbreviation models := (Traces.count Traces.is_callLLM).
Local Abbreviation helpers := (Traces.count is_synthesize).
Local Abbreviation usages := (Traces.count Traces.is_usage).

Lemma count_app {A} (p : A -> bool) (l l' : list A) :
  Traces.count p (l ++ l') = Traces.count p l + Traces.count p l'.
Proof. unfold Traces.count. now rewrite List.filter_app, List.length_app. Qed.

Lemma count_net (p : event -> bool) (net : list Tts.net_event) :
  (forall e, p (EvNet e) = false) -> Traces.count p (map EvNet net) = 0.
Proof.
  intros Hp. unfold Traces.count. induction net as [|e net IH]; [reflexivity|].
  cbn. now rewrite Hp.
Qed.

Lemma voicePhase_counts (ev : Event) (meditationText : jsstring) :
  let tr := snd (voicePhase synthesizeSpeech ev meditationText) in
  models tr = 0 /\ usages tr = 0 /\ helpers tr = (if voiceGate ev then 1 else 0).
Proof.
  cbv zeta. unfold voicePhase. destruct (voiceGate ev); [|now cbn].
  destruct (synthesizeSpeech _) as [reply net]. cbn [snd].
  unfold Traces.count at 1 2 3. cbn [List.filter Traces.is_callLLM Traces.is_usage
                                     is_synthesize length].
  fold (models (map EvNet net)) (usages (map EvNet net)) (helpers (map EvNet net)).
  rewrite !count_net by reflexivity. now repeat split.
Qed.

Lemma usage_counts (a : option Audio) :
  models (usage config a) = 0 /\ helpers (usage config a) = 0
  /\ usages (usage config a) = (if Config.ENABLE_ANALYTICS config then 1 else 0).
Proof. unfold usage. now destruct (Config.ENABLE_ANALYTICS config). Qed.

(** X13. What a request costs and what it returns.  A result is
    [success: true] with data and no error, or [success: false] with an
    error and no data.  A request that fails validation calls nothing; a
    valid one calls the model exactly once, as the first thing it does.  The
    speech helper is called once when the request succeeds with voice
    requested in Chinese and otherwise not at all; the usage is recorded
    once when the request succeeds with analytics on and otherwise not at
    all. *)
Theorem guide_result_and_trace (ev : Event) :
  let res := fst (handle ev) in
  let tr := snd (handle ev) in
  (success res = true -> is_Some (data res) /\ error res = None)
  /\ (success res = false -> data res = None /\ is_Some (error res))
  /\ (is_Some (valid ev) -> success res = false /\ tr = [])
  /\ (valid ev = None ->
      models tr = 1 /\ head tr = Some (EvCallLLM (llmRequest config meditationConfig ev)))
  /\ helpers tr = (if success res && voiceGate ev then 1 else 0)
  /\ usages tr = (if success res && Config.ENABLE_ANALYTICS config then 1 else 0).
Proof.
  cbv zeta. unfold handleMeditationGuide.
  destruct (validateInputs _ _ _ _ _) as [e|] eqn:Hvalid.
  { cbn. repeat split; try discriminate; try (now eexists). }
  assert (Hno : ~ is_Some (@None ErrorObj)) by (intros [x Hx]; discriminate).
  destruct (callLLM _) as [llmResp|e].
  2:{ cbn. repeat split; try discriminate; try (now eexists); tauto. }
  destruct (negb _).
  { cbn. repeat split; try discriminate; try (now eexists); tauto. }
  destruct (extractText _) as [|c rest].
  { cbn. repeat split; try discriminate; try (now eexists); tauto. }
  pose proof (voicePhase_counts ev (c :: rest)) as (Hm & Hu & Hh).
  destruct (voicePhase synthesizeSpeech ev (c :: rest)) as [audioData voiceTrace].
  cbn [fst snd] in *. cbn [assemble success data error andb head].
  pose proof (usage_counts audioData) as (Hm' & Hh' & Hu').
  rewrite !count_cons, !count_app, Hm, Hu, Hh, Hm', Hh', Hu'.
  cbn [Traces.is_callLLM Traces.is_usage is_synthesize].
  repeat split; try discriminate; try (now eexists); try tauto; try lia.
Qed.

Lemma count_runs_le (inside : bool) (s : jsstring) : count_runs inside s <= length s.
Proof.
  revert inside. induction s as [|c rest IH]; intros inside; [cbn; lia|].
  cbn [count_runs length]. destruct (is_space c); [specialize (IH false); lia|].
  destruct inside; [specialize (IH true); lia|specialize (IH true); lia].
Qed.

Lemma countWords_le (text : jsstring) (language : string) :
  countWords text language <= length text.
Proof.
  unfold countWords. destruct (String.eqb language "zh").
  - apply List.filter_length_le.
  - apply count_runs_le.
Qed.

Lemma truthy_number_not_nan (x : float) :
  truthy_number x = true -> PrimFloat.is_nan x = false.
Proof. unfold truthy_number. now destruct (PrimFloat.is_nan x). Qed.

Lemma duration_of_truthy (ev : Event) : truthy_number (duration_of ev) = true.
Proof. unfold duration_of. now apply opt_num_or_truthy. Qed.

(** What validation lets through. *)
Lemma valid_request (ev : Event) :
  valid ev = None ->
  (1 <=? duration_of ev)%float = true
  /\ (duration_of ev <=? 60)%float = true
  /\ In (language_of ev) [""%string; "zh"%string; "en"%string].
Proof.
  unfold validateInputs. rewrite duration_of_truthy. cbn [andb].
  pose proof (truthy_number_not_nan _ (duration_of_truthy ev)) as Hnum.
  destruct (String.eqb_spec (language_of ev) "") as [Hempty|Hlang]; cbn [negb andb].
  - destruct (duration_of ev <? 1)%float eqn:Hlo; [discriminate|].
    destruct (60 <? duration_of ev)%float eqn:Hhi; [discriminate|]. intros _.
    split; [now apply not_ltb_leb|]. split; [now apply not_ltb_leb|]. now left.
  - destruct (existsb _ _) eqn:Hin; [|discriminate]. cbn [negb].
    destruct (duration_of ev <? 1)%float eqn:Hlo; [discriminate|].
    destruct (60 <? duration_of ev)%float eqn:Hhi; [discriminate|]. intros _.
    split; [now apply not_ltb_leb|]. split; [now apply not_ltb_leb|].
    cbn in Hin. destruct (String.eqb_spec (language_of ev) "zh"); [now right; left|].
    destruct (String.eqb_spec (language_of ev) "en"); [now right; right; left|].
    discriminate.
Qed.

(** X14. The metadata of a successful result agree with the request and with
    the text.  The duration is the requested one, 10 when none or 0 is
    given, and lies between 1 and 60; the mode is ['quick'] exactly below
    three minutes and ['standard'] otherwise; the language is ['zh'], ['en']
    or the empty string; [textLength] is the length of the text and
    [wordCount] is at most that; the result is not marked as a preview. *)
Theorem guide_metadata_agree (ev : Event) :
  success (fst (handle ev)) = true ->
  exists d,
    data (fst (handle ev)) = Some d
    /\ text d <> []
    /\ m_duration (metadata d) = duration_of ev
    /\ (e_duration ev = None \/ e_duration ev = Some 0%float ->
        m_duration (metadata d) = 10%float)
    /\ (1 <=? m_duration (metadata d))%float = true
    /\ (m_duration (metadata d) <=? 60)%float = true
    /\ m_mode (metadata d)
       = (if (m_duration (metadata d) <? 3)%float then "quick" else "standard")%string
    /\ In (m_language (metadata d)) [""%string; "zh"%string; "en"%string]
    /\ m_textLength (metadata d) = length (text d)
    /\ m_wordCount (metadata d) <= m_textLength (metadata d)
    /\ m_wordCount (metadata d) = countWords (text d) (m_language (metadata d))
    /\ m_isPreview (metadata d) = false.
Proof.
  intros Hs.
  destruct (guide_success config meditationConfig callLLM clock synthesizeSpeech ev Hs)
    as (meditationText & Hgen).
  rewrite (guide_generated config meditationConfig callLLM clock synthesizeSpeech
             ev meditationText Hgen).
  destruct Hgen as (Hvalid & _ & _ & _ & _ & Hne).
  destruct (valid_request ev Hvalid) as (Hlo & Hhi & Hlang).
  eexists. split; [reflexivity|].
  cbn [fst assemble data text metadata m_duration m_mode m_language m_textLength
       m_wordCount m_isPreview].
  split; [exact Hne|]. split; [reflexivity|].
  split; [intros [E|E]; unfold duration_of; rewrite E; reflexivity|].
  split; [exact Hlo|]. split; [exact Hhi|].
  split; [reflexivity|]. split; [exact Hlang|].
  split; [reflexivity|]. split; [apply countWords_le|]. split; reflexivity.
Qed.

(** X15. Where the audio of a result comes from.  A result carries audio
    exactly when voice was requested in Chinese and the speech helper
    answered with [success] set or with an [audioUrl]; the address is the
    [audioUrl], or the reply's [url] when there is none, and the format is
    never empty. *)
Theorem guide_audio_origin (ev : Event) :
  success (fst (handle ev)) = true ->
  exists d,
    data (fst (handle ev)) = Some d
    /\ (is_Some (audio d) <->
        voiceGate ev = true
        /\ exists r,
             fst (synthesizeSpeech (speechArgument ev (text d))) = Ok (Some r)
             /\ (tr_success r = true \/ is_Some (PromptBuilder.nonempty (tr_audioUrl r))))
    /\ (forall a, audio d = Some a ->
          a_format a <> ""%string
          /\ exists r,
               fst (synthesizeSpeech (speechArgument ev (text d))) = Ok (Some r)
               /\ a_url a = match PromptBuilder.nonempty (tr_audioUrl r) with
                            | Some u => Some u
                            | None => tr_url r
                            end
               /\ a_duration a = tr_duration r).
Proof.
  intros Hs.
  destruct (guide_success config meditationConfig callLLM clock synthesizeSpeech ev Hs)
    as (meditationText & Hgen).
  rewrite (guide_generated config meditationConfig callLLM clock synthesizeSpeech
             ev meditationText Hgen).
  cbn [fst assemble data]. eexists. split; [reflexivity|]. cbn [text audio].
  unfold voicePhase. destruct (voiceGate ev).
  2:{ cbn [fst]. split.
      - split; [intros [a Ha]; discriminate|intros [Hg _]; discriminate].
      - intros a Ha. discriminate. }
  destruct (synthesizeSpeech (speechArgument ev meditationText)) as [reply net].
  cbn [fst]. destruct reply as [[r|]|e].
  - destruct (tr_success r) eqn:Hok; cbn [orb].
    + split.
      * split; [intros _; split; [reflexivity|]; exists r; split; [reflexivity|now left]
               |intros _; now eexists].
      * intros a [= <-]. cbn [a_format a_url a_duration].
        split; [now apply str_or_nonempty|]. exists r. now repeat split.
    + destruct (PromptBuilder.nonempty (tr_audioUrl r)) as [u|] eqn:Hu.
      * rewrite bool_decide_true by now eexists.
        split.
        -- split; [intros _; split; [reflexivity|]; exists r; split; [reflexivity|];
                   right; exists u; exact Hu
                  |intros _; now eexists].
        -- intros a [= <-]. cbn [a_format a_url a_duration].
           split; [now apply str_or_nonempty|]. exists r. rewrite Hu. now repeat split.
      * rewrite bool_decide_false by (intros [x Hx]; discriminate).
        split.
        -- split; [intros [a Ha]; discriminate|].
           intros [_ (r' & [= <-] & [Hyes|[x Hx]])]; [congruence|].
           rewrite Hu in Hx. discriminate.
        -- intros a Ha. discriminate.
  - split.
    + split; [intros [a Ha]; discriminate|intros [_ (r' & Hr & _)]; discriminate].
    + intros a Ha. discriminate.
  - split.
    + split; [intros [a Ha]; discriminate|intros [_ (r' & Hr & _)]; discriminate].
    + intros a Ha. discriminate.
Qed.

Lemma leb_not_ltb (a b : float) : (a <=? b)%float = true -> (b <? a)%float = false.
Proof.
  rewrite FloatAxioms.ltb_spec, FloatAxioms.leb_spec. unfold SFltb, SFleb.
  destruct (SFcompare (Prim2SF a) (Prim2SF b)) as [c|] eqn:E; [|discriminate].
  rewrite (SFcompare_antisym _ _ _ E). now destruct c.
Qed.

Lemma listed_topic_is_found (topic language : string) :
  language = "zh"%string \/ language = "en"%string ->
  includes topic (PromptBuilder.getSupportedTopics meditationConfig (Some language)) = true ->
  is_Some (PromptBuilder._findTopicConfig meditationConfig topic).
Proof.
  intros Hlang Hin. unfold includes, PromptBuilder.getSupportedTopics in Hin.
  apply existsb_exists in Hin as (name & Hname & Hdec).
  apply bool_decide_eq_true in Hdec. subst name.
  apply List.in_map_iff in Hname as (t & Ht & Hin). cbn [default from_option id] in Ht.
  unfold PromptBuilder._findTopicConfig.
  destruct (List.find _ _) as [found|] eqn:Hfind; [now eexists|].
  pose proof (List.find_none _ _ Hfind t Hin) as Hno. cbn beta in Hno.
  destruct Hlang as [-> | ->].
  - rewrite (bool_decide_true _ Ht) in Hno. now rewrite orb_true_r in Hno.
  - rewrite (bool_decide_true _ Ht) in Hno. now rewrite !orb_true_r in Hno.
Qed.

(** X16. What [validateInputs] accepts.  A request is valid exactly when its
    language is ['zh'], ['en'] or the empty string, its duration (10 when
    left out) lies between 1 and 60 and, under strict topic validation, the
    catalogue has an entry for the topic: one whose identifier, Chinese or
    English name is the topic, or which lists it as a keyword.  The second
    test of the code, against the list of supported names, never decides. *)
Theorem validateInputs_accepts (ev : Event) :
  valid ev = None <->
  In (language_of ev) [""%string; "zh"%string; "en"%string]
  /\ (1 <=? duration_of ev)%float = true
  /\ (duration_of ev <=? 60)%float = true
  /\ (Config.STRICT_TOPIC_VALIDATION config = true ->
      is_Some (PromptBuilder._findTopicConfig meditationConfig (topic_of ev))).
Proof.
  split.
  - intros Hvalid. destruct (valid_request ev Hvalid) as (Hlo & Hhi & Hlang).
    repeat split; try assumption. intros Hstrict.
    unfold validateInputs in Hvalid. rewrite Hstrict in Hvalid.
    destruct (negb _ && negb _); [discriminate|].
    destruct (truthy_number _ && _); [discriminate|].
    unfold PromptBuilder.getTopicDetails in Hvalid.
    destruct (PromptBuilder._findTopicConfig meditationConfig (topic_of ev)) as [t|]
      eqn:Hfind; [now eexists|].
    destruct (includes _ _) eqn:Hin; [|discriminate].
    rewrite <- Hfind. eapply listed_topic_is_found; [|exact Hin].
    destruct Hlang as [E|[E|[E|[]]]]; rewrite <- E; cbn; auto.
  - intros (Hlang & Hlo & Hhi & Htopic). unfold validateInputs.
    assert (Hl : negb (String.eqb (language_of ev) "")
                 && negb (existsb (String.eqb (language_of ev)) Config.SUPPORTED_LANGUAGES)
                 = false).
    { destruct Hlang as [E|[E|[E|[]]]]; rewrite <- E; reflexivity. }
    rewrite Hl, (leb_not_ltb _ _ Hlo), (leb_not_ltb _ _ Hhi), andb_false_r.
    destruct (Config.STRICT_TOPIC_VALIDATION config); [|reflexivity].
    destruct (Htopic eq_refl) as [t Ht]. unfold PromptBuilder.getTopicDetails.
    now rewrite Ht.
Qed.

(** X17. A preview is the full request without its voice.  It succeeds or
    fails as the full request does, with the same error or the same text;
    its metadata are those of the full request read at the same clock, field
    by field, with the preview mark set; it never calls the speech helper
    and never carries audio. *)
Theorem preview_is_the_request_without_voice (ev : Event) :
  let full := fst (handle ev) in
  let pre := fst (preview ev) in
  success pre = success full
  /\ error pre = error full
  /\ (text <$> data pre) = (text <$> data full)
  /\ existsb is_speech (snd (preview ev)) = false
  /\ helpers (snd (preview ev)) = 0
  /\ (forall d, data pre = Some d ->
        audio d = None
        /\ m_isPreview (metadata d) = true
        /\ exists d',
             data full = Some d'
             /\ text d = text d'
             /\ metadata d
                = {| m_topic := m_topic (metadata d');
                     m_topicId := m_topicId (metadata d');
                     m_style := m_style (metadata d');
                     m_duration := m_duration (metadata d');
                     m_mode := m_mode (metadata d');
                     m_language := m_language (metadata d');
                     m_benefits := m_benefits (metadata d');
                     m_targetAudience := m_targetAudience (metadata d');
                     m_generatedAt := m_generatedAt (metadata d');
                     m_textLength := m_textLength (metadata d');
                     m_wordCount := m_wordCount (metadata d');
                     m_estimatedReadTime := m_estimatedReadTime (metadata d');
                     m_isPreview := true |}
             /\ m_isPreview (metadata d') = false)
  /\ (forall d', data full = Some d' -> is_Some (data pre)).
Proof.
  cbv zeta. unfold handleMeditationPreview.
  match goal with
  | |- context [handleMeditationGuide _ _ _ _ _ ?p] => set (previewEvent := p)
  end.
  assert (Hvalid : valid previewEvent = valid ev) by reflexivity.
  assert (Hreq : llmRequest config meditationConfig previewEvent
                 = llmRequest config meditationConfig ev) by reflexivity.
  assert (Hgate : voiceGate previewEvent = false) by reflexivity.
  pose proof (guide_result_and_trace previewEvent) as (_ & _ & _ & _ & Hhelp & _).
  cbv zeta in Hhelp. rewrite Hgate, andb_false_r in Hhelp.
  assert (Hquiet : existsb is_speech (snd (handle previewEvent)) = false).
  { unfold handleMeditationGuide.
    destruct (validateInputs _ _ _ _ _); [reflexivity|].
    destruct (callLLM _) as [llmResp|e]; [|reflexivity].
    destruct (negb _); [reflexivity|].
    destruct (extractText _) as [|c rest]; [reflexivity|].
    unfold voicePhase. rewrite Hgate. cbn. unfold usage.
    now destruct (Config.ENABLE_ANALYTICS config). }
  assert (Hsame : fst (handle previewEvent)
                  = if success (fst (handle ev))
                    then match data (fst (handle ev)) with
                         | Some d => assemble meditationConfig clock ev (text d) None
                         | None => fst (handle ev)
                         end
                    else fst (handle ev)).
  { unfold handleMeditationGuide. rewrite Hvalid, Hreq.
    destruct (validateInputs _ _ _ _ _); [reflexivity|].
    destruct (callLLM _) as [llmResp|e]; [|reflexivity].
    destruct (negb _); [reflexivity|].
    destruct (extractText _) as [|c rest]; [reflexivity|].
    unfold voicePhase at 1. rewrite Hgate.
    destruct (voicePhase synthesizeSpeech ev (c :: rest)) as [audioData voiceTrace].
    reflexivity. }
  destruct (handle previewEvent) as [result tr]. cbn [fst snd] in *.
  destruct (success (fst (handle ev))) eqn:Hs.
  - destruct (guide_success config meditationConfig callLLM clock synthesizeSpeech ev Hs)
      as (meditationText & Hgen).
    rewrite (guide_generated config meditationConfig callLLM clock synthesizeSpeech
               ev meditationText Hgen) in Hsame |- *.
    cbn [fst assemble data text] in Hsame. subst result.
    cbn [fst assemble success data error text metadata fmap option_fmap option_map].
    split; [reflexivity|]. split; [reflexivity|]. split; [reflexivity|].
    split; [exact Hquiet|]. split; [exact Hhelp|].
    split.
    + intros d0 [= <-]. cbn. split; [reflexivity|]. split; [reflexivity|].
      eexists. split; [reflexivity|]. cbn. now repeat split.
    + intros d' _. now eexists.
  - subst result. rewrite Hs.
    pose proof (guide_result_and_trace ev) as (_ & Hfail & _). cbv zeta in Hfail.
    destruct (Hfail Hs) as [Hnone _].
    split; [exact Hs|]. split; [reflexivity|]. split; [reflexivity|].
    split; [exact Hquiet|]. split; [exact Hhelp|].
    split; intros d0 Hd0; rewrite Hnone in Hd0; discriminate.
Qed.

End GuideCoverage.

(* ===================================================================== *)
(** ** The routers over utils/call_llm.js *)
(* ===================================================================== *)

Section OverCallLLM.
Import JS Model.
Context `{Runtime}.
Variable config : Config.Env.
Variable meditationConfig : PromptBuilder.MeditationConfig.
Variable env : CallLLM.Env.
Variable post : string -> CallLLM.Body -> CallLLM.reply.
Variable synthesizeSpeech :
  value -> outcome (option MeditationGuide.TtsResponse) * list Tts.net_event.
Variable clock : MeditationGuide.Clock.
Variable tts : GenerateMeditation.binding.

Local Abbreviation client := (CallLLM.client env post).
Local Abbreviation guide :=
  (MeditationGuide.handleMeditationGuide config meditationConfig client
     synthesizeSpeech clock).
Local Abbreviation generate :=
  (GenerateMeditation.generateMeditation config meditationConfig client tts
     (MeditationGuide.now clock)).
Local Abbreviation answer req :=
  (fst (CallLLM.callLLM env post (CallLLM.of_request req))).

Lemma num_or_keeps (x d : float) : truthy_number x = true -> num_or x d = x.
Proof. intros Hx. unfold num_or. now rewrite Hx. Qed.

(** What the client answers, by cases. *)
Lemma answer_cases (req : LLMRequest) :
  (r_success (answer req) = true
   /\ r_error (answer req) = None
   /\ exists c s, r_data (answer req)
                  = Some {| d_text := Some (c :: s); d_choice := None;
                            d_content := Some (c :: s) |})
  \/ (r_success (answer req) = false
      /\ r_data (answer req) = None
      /\ is_Some (r_error (answer req))).
Proof.
  unfold CallLLM.callLLM.
  destruct (negb _); [right; cbn; repeat split; now eexists|].
  cbn [fst]. destruct (post _ _) as [data|err]; [|right; cbn; repeat split; now eexists].
  unfold CallLLM.content_of. destruct (text_or _ _) as [|c s].
  - right. cbn. repeat split. now eexists.
  - left. cbn. repeat split. now exists c, s.
Qed.

(** X18. [handleMeditationGuide] over [callLLM].  A valid request succeeds
    exactly when the client does and then carries the client's text; when the
    client fails, the router hands on the client's error object as it is, so
    that the codes a caller sees are the client's own ([NO_API_KEY],
    [EMPTY_RESPONSE], [HTTP_ERROR] or an HTTP status) and the router's
    fallbacks for a call that throws, fails without an error or returns no
    text are never used.  The request posted carries the two messages of the
    router and its temperature. *)
Theorem guide_over_call_llm (ev : Event) :
  MeditationGuide.validateInputs config meditationConfig (MeditationGuide.topic_of ev)
    (MeditationGuide.language_of ev) (MeditationGuide.duration_of ev) = None ->
  let req := MeditationGuide.llmRequest config meditationConfig ev in
  let body := CallLLM.body_of (CallLLM.of_request req) in
  let res := fst (guide ev) in
  MeditationGuide.success res = r_success (answer req)
  /\ (r_success (answer req) = false ->
      MeditationGuide.error res = r_error (answer req)
      /\ is_Some (MeditationGuide.error res))
  /\ (MeditationGuide.text <$> MeditationGuide.data res) = (r_data (answer req) ≫= d_text)
  /\ (Tts.configured (CallLLM.HUNYUAN_API_KEY env) = false ->
      (err_code <$> MeditationGuide.error res) = Some "NO_API_KEY"%string)
  /\ Some (CallLLM.b_messages body) = q_messages req
  /\ length (CallLLM.b_messages body) = 2
  /\ CallLLM.b_temperature body = q_temperature req
  /\ ((MeditationGuide.duration_of ev <? 3)%float = true ->
      CallLLM.b_temperature body = 0.6%float).
Proof.
  intros Hvalid req body res.
  assert (Htemp : truthy_number (q_temperature req) = true).
  { unfold req, MeditationGuide.llmRequest. cbn [q_temperature].
    destruct (MeditationGuide.isQuickMode _); [reflexivity|].
    now apply opt_num_or_truthy. }
  assert (Hkey : Tts.configured (CallLLM.HUNYUAN_API_KEY env) = false ->
                 answer req = CallLLM.failed "NO_API_KEY" "HUNYUAN_API_KEY 未配置").
  { intros Hno. unfold CallLLM.callLLM. now rewrite Hno. }
  assert (Hres : res = fst (guide ev)) by reflexivity.
  unfold MeditationGuide.handleMeditationGuide in Hres. rewrite Hvalid in Hres.
  unfold CallLLM.client in Hres. fold req in Hres. cbn [default fmap option_fmap
    option_map from_option id mbind option_bind] in Hres.
  destruct (answer_cases req) as [(Hs & He & c & s & Hd)|(Hs & Hd & He)].
  - rewrite Hs, Hd in Hres. cbn [negb MeditationGuide.extractText mbind option_bind
      d_text text_or] in Hres.
    destruct (MeditationGuide.voicePhase synthesizeSpeech ev (c :: s)) as [audioData tr].
    cbn [fst] in Hres. rewrite Hres, Hs, Hd.
    cbn [MeditationGuide.assemble MeditationGuide.success MeditationGuide.data
         MeditationGuide.error MeditationGuide.text fmap option_fmap option_map
         mbind option_bind d_text].
    split; [reflexivity|]. split; [discriminate|]. split; [reflexivity|].
    split; [intros Hno; rewrite (Hkey Hno) in Hs; discriminate|].
    split; [reflexivity|]. split; [reflexivity|].
    split; [now apply num_or_keeps|].
    intros Hq. unfold body, req, MeditationGuide.llmRequest, MeditationGuide.isQuickMode.
    rewrite Hq. reflexivity.
  - rewrite Hs in Hres. cbn [negb fst] in Hres. destruct He as [e He].
    rewrite He in Hres. cbn [default from_option id] in Hres. rewrite Hres, Hs, Hd, He.
    cbn [MeditationGuide.failure MeditationGuide.success MeditationGuide.data
         MeditationGuide.error fmap option_fmap option_map mbind option_bind].
    split; [reflexivity|]. split; [intros _; split; [reflexivity|now eexists]|].
    split; [reflexivity|].
    split; [intros Hno; rewrite (Hkey Hno) in He; now injection He as <-|].
    split; [reflexivity|]. split; [reflexivity|].
    split; [now apply num_or_keeps|].
    intros Hq. unfold body, req, MeditationGuide.llmRequest, MeditationGuide.isQuickMode.
    rewrite Hq. reflexivity.
Qed.

(** X19. [generateMeditation] over [callLLM].  The router asks for the model
    ['claude-3-sonnet'] unless the options name one, whatever the
    configuration says, and sends its prompt as a single user message.  When
    the client fails, for whatever reason, the caller gets the code
    [GENERATION_ERROR] and the message ["LLM 调用失败: [object Object]"]: the
    client's code and message are lost.  A request that succeeds carries the
    client's text. *)
Theorem generate_over_call_llm (ev : Event) :
  GenerateMeditation.validateParams config meditationConfig
    (GenerateMeditation.topic_of ev) (GenerateMeditation.style_of ev)
    (GenerateMeditation.duration_of ev) (GenerateMeditation.language_of ev) = None ->
  let req := GenerateMeditation.llmRequest meditationConfig ev in
  let body := CallLLM.body_of (CallLLM.of_request req) in
  let res := fst (generate ev) in
  CallLLM.b_model body
    = str_or (o_model (GenerateMeditation.options_of ev)) "claude-3-sonnet"
  /\ (exists prompt, CallLLM.b_messages body = [ {| role := "user"; content := prompt |} ])
  /\ (r_success (answer req) = false ->
      GenerateMeditation.success res = false
      /\ GenerateMeditation.data res = None
      /\ (err_code <$> GenerateMeditation.error res) = Some "GENERATION_ERROR"%string
      /\ (err_message <$> GenerateMeditation.error res)
         = Some "LLM 调用失败: [object Object]"%string)
  /\ (GenerateMeditation.success res = true ->
      r_success (answer req) = true
      /\ is_Some (GenerateMeditation.data res)
      /\ (GenerateMeditation.text <$> GenerateMeditation.data res)
         = (r_data (answer req) ≫= d_content)).
Proof.
  intros Hvalid req body res.
  assert (Hmodel : str_or (Some (q_model req)) "hunyuan-lite" = q_model req).
  { unfold req, GenerateMeditation.llmRequest. cbn [q_model].
    pose proof (str_or_nonempty (o_model (GenerateMeditation.options_of ev))
                  "claude-3-sonnet" ltac:(discriminate)) as Hne.
    unfold str_or at 1. now destruct (String.eqb_spec
      (str_or (o_model (GenerateMeditation.options_of ev)) "claude-3-sonnet") ""). }
  split; [exact Hmodel|]. split; [now eexists|].
  assert (Hres : res = fst (generate ev)) by reflexivity.
  unfold GenerateMeditation.generateMeditation in Hres. rewrite Hvalid in Hres.
  unfold CallLLM.client in Hres. fold req in Hres.
  destruct (answer_cases req) as [(Hs & He & c & s & Hd)|(Hs & Hd & He)].
  - rewrite Hs, Hd in Hres. cbn [negb mbind option_bind d_content] in Hres.
    split; [rewrite Hs; discriminate|]. intros Hok. split; [exact Hs|].
    rewrite Hd. cbn [mbind option_bind d_content].
    destruct (GenerateMeditation.voicePhase tts ev (c :: s)) as [[audioUrl|e] tr];
      cbn [fst] in Hres; rewrite Hres in Hok |- *; [|discriminate].
    split; [now eexists|reflexivity].
  - rewrite Hs in Hres. cbn [negb fst] in Hres. destruct He as [e He].
    rewrite He in Hres. split; [|rewrite Hres; discriminate].
    intros _. rewrite Hres. now repeat split.
Qed.

(** X20. [generateMeditation] as the repository wires it, with the module
    object of [utils/tts.js] where a function is expected.  Whatever the
    model answers, no result carries an audio address, and a request
    succeeds only in English or with [skipAudio] set; its duration then lies
    between 3 and 60 and its language is ['zh'] or ['en'].  A Chinese request
    without [skipAudio] that the model answers ends with the error
    ["tts is not a function"] under the code [GENERATION_ERROR], after the
    model has been called. *)
Theorem generateMeditation_as_wired (callLLM : LLMRequest -> outcome (option LLMResp))
    (ev : Event) :
  let run := GenerateMeditation.generateMeditation config meditationConfig callLLM
               GenerateMeditation.utils_tts (MeditationGuide.now clock) ev in
  (GenerateMeditation.success (fst run) = true ->
   GenerateMeditation.voiceGate ev = false
   /\ (3 <=? GenerateMeditation.duration_of ev)%float = true
   /\ (GenerateMeditation.duration_of ev <=? 60)%float = true
   /\ In (GenerateMeditation.language_of ev) ["zh"%string; "en"%string]
   /\ exists d,
        GenerateMeditation.data (fst run) = Some d
        /\ GenerateMeditation.audioUrl d = None
        /\ GenerateMeditation.m_textLength (GenerateMeditation.metadata d)
           = length (GenerateMeditation.text d))
  /\ (forall meditationText,
        GenerateMeditation.generated config meditationConfig callLLM ev meditationText ->
        GenerateMeditation.voiceGate ev = true ->
        GenerateMeditation.success (fst run) = false
        /\ (err_message <$> GenerateMeditation.error (fst run))
           = Some "tts is not a function"%string
        /\ (err_code <$> GenerateMeditation.error (fst run))
           = Some "GENERATION_ERROR"%string
        /\ length (snd run) = 2
        /\ head (snd run)
           = Some (GenerateMeditation.EvCallLLM
                     (GenerateMeditation.llmRequest meditationConfig ev))).
Proof.
  cbv zeta. split.
  - unfold GenerateMeditation.generateMeditation.
    destruct (GenerateMeditation.validateParams _ _ _ _ _ _) as [e|] eqn:Hvalid;
      [discriminate|].
    destruct (callLLM _) as [[llmResponse|]|e]; [|discriminate..].
    destruct (negb _); [discriminate|].
    destruct (r_data llmResponse ≫= d_content) as [meditationText|]; [|discriminate].
    unfold GenerateMeditation.voicePhase, GenerateMeditation.utils_tts.
    destruct (GenerateMeditation.voiceGate ev); [discriminate|].
    cbn [fst GenerateMeditation.success GenerateMeditation.data]. intros _.
    split; [reflexivity|].
    unfold GenerateMeditation.validateParams in Hvalid.
    destruct (_ || _) in Hvalid; [discriminate|].
    destruct (_ || _) in Hvalid; [discriminate|].
    destruct (truthy_number (GenerateMeditation.duration_of ev)) eqn:Hnum;
      [|discriminate].
    cbn [negb orb] in Hvalid.
    destruct (GenerateMeditation.duration_of ev <? 3)%float eqn:Hlo; [discriminate|].
    destruct (60 <? GenerateMeditation.duration_of ev)%float eqn:Hhi; [discriminate|].
    cbn [orb] in Hvalid.
    destruct (existsb _ _) eqn:Hlang; [|discriminate].
    pose proof (truthy_number_not_nan _ Hnum) as Hn.
    split; [now apply not_ltb_leb|]. split; [now apply not_ltb_leb|].
    split.
    + cbn in Hlang.
      destruct (String.eqb_spec (GenerateMeditation.language_of ev) "zh"); [now left|].
      destruct (String.eqb_spec (GenerateMeditation.language_of ev) "en");
        [now right; left|discriminate].
    + eexists. split; [reflexivity|]. now split.
  - intros meditationText (Hvalid & llmResponse & Hcall & Hsucc & Hcontent) Hgate.
    unfold GenerateMeditation.generateMeditation.
    rewrite Hvalid, Hcall, Hsucc. cbn [negb]. rewrite Hcontent.
    unfold GenerateMeditation.voicePhase, GenerateMeditation.utils_tts. rewrite Hgate.
    now repeat split.
Qed.

End OverCallLLM.

(* ===================================================================== *)
(** ** router/meditationGuide.js: batches with base options *)
(* ===================================================================== *)

Section BatchBase.
Import JS Model MeditationGuide.
Context `{Runtime}.
Variable config : Config.Env.
Variable meditationConfig : PromptBuilder.MeditationConfig.
Variable callLLM : LLMRequest -> outcome (option LLMResp).
Variable synthesizeSpeech : value -> outcome (option TtsResponse) * list Tts.net_event.
Variable clock : Clock.

Local Abbreviation single :=
  (handleMeditationGuide config meditationConfig callLLM synthesizeSpeech clock).
Local Abbreviation batch :=
  (handleBatchGeneration config meditationConfig callLLM synthesizeSpeech clock).

Lemma named_item_is_base (base : Event) (name topic : string) :
  e_topic base = Some topic -> itemOptions base (TopicName name) = base.
Proof.
  intros Ht. destruct base as [t st d l v o]. cbn in Ht. subst t.
  unfold itemOptions, spread. cbn. f_equal;
    match goal with |- match ?x with _ => _ end = _ => now destruct x end.
Qed.

Lemma map_constant {A B} (f : A -> B) (b : B) (l : list A) :
  (forall a, f a = b) -> map f l = repeat b (length l).
Proof. intros Hf. induction l as [|a l IH]; cbn; [reflexivity|]. now rewrite Hf, IH. Qed.

(** X21. A topic among the base options overrides the names in [topics]:
    [{ topic: name, ...baseOptions }] lets the base options win.  Every
    entry of the batch is then the result of one and the same request, the
    base options themselves, and reports the base topic; the names are not
    looked at.  A topic given as an object keeps its own topic. *)
Theorem batch_base_topic_overrides_names (ev : BatchEvent) (base : Event)
    (names : list string) (topic : string) :
  topics ev = Some (map TopicName names) -> names <> [] ->
  baseOptions ev = Some base -> e_topic base = Some topic ->
  (exists d,
     b_data (fst (batch ev)) = Some d
     /\ results d
        = repeat {| i_topic := Some topic;
                    i_success := success (fst (single base));
                    i_data := if success (fst (single base))
                              then data (fst (single base)) else None;
                    i_error := error (fst (single base)) |} (length names)
     /\ snd (batch ev) = concat (repeat (snd (single base)) (length names)))
  /\ forall o own, e_topic o = Some own ->
       e_topic (itemOptions base (TopicObject o)) = Some own.
Proof.
  intros Ht Hne Hbase Htopic. split.
  - unfold handleBatchGeneration.
    rewrite (batchOver_nonempty _ clock ev (map TopicName names) Ht)
      by (destruct names; [congruence|discriminate]).
    rewrite Hbase. cbn [default from_option id fst snd b_data].
    eexists. split; [reflexivity|]. cbn [results].
    rewrite !List.map_map. split.
    + rewrite <- (List.length_map TopicName names) at 1.
      rewrite List.length_map. apply map_constant. intros name.
      rewrite batch_item, (named_item_is_base base name topic Htopic).
      cbn [fst]. now rewrite Htopic.
    + f_equal. apply map_constant. intros name.
      now rewrite batch_item, (named_item_is_base base name topic Htopic).
  - intros o own Hown. cbn. now rewrite Hown.
Qed.

End BatchBase.

(* ===================================================================== *)
(** ** Topic recommendation *)
(* ===================================================================== *)

Section RecommendFacts.
Import JS Model Recommend.
Variable meditationConfig : PromptBuilder.MeditationConfig.

Local Abbreviation falling :=
  (StronglySorted (fun a b : Recommendation => rec_score b <= rec_score a)).
Local Abbreviation matching needs :=
  (List.filter (fun t => (0 <? matchScore needs t)%nat)
     (PromptBuilder.types meditationConfig)).
Local Abbreviation scored k :=
  (List.filter (fun r : Recommendation => (rec_score r =? k)%nat)).

Lemma matchScore_from (needs : list string) (type : PromptBuilder.TopicDescriptor)
    (start : nat) :
  fold_left
    (fun score need =>
       score + (if existsb (String.eqb need) (PromptBuilder.t_keywords type)
                then 1 else 0))
    needs start <= start + length needs.
Proof.
  revert start. induction needs as [|need needs IH]; intros start; cbn; [lia|].
  specialize (IH (start + (if existsb (String.eqb need) (PromptBuilder.t_keywords type)
                           then 1 else 0))).
  destruct (existsb _ _); lia.
Qed.

Lemma matchScore_le (needs : list string) (type : PromptBuilder.TopicDescriptor) :
  matchScore needs type <= length needs.
Proof. apply (matchScore_from needs type 0). Qed.

Lemma insert_perm (x : Recommendation) (l : list Recommendation) :
  Permutation (insert_by_score x l) (x :: l).
Proof.
  induction l as [|y rest IH]; cbn; [reflexivity|].
  destruct (rec_score y <=? rec_score x)%nat; [reflexivity|].
  rewrite IH. apply perm_swap.
Qed.

Lemma insert_falling (x : Recommendation) (l : list Recommendation) :
  falling l -> falling (insert_by_score x l).
Proof.
  induction 1 as [|y rest Hrest IH Hy]; cbn.
  - repeat constructor.
  - destruct (Nat.leb_spec (rec_score y) (rec_score x)) as [Hle|Hgt].
    + constructor; [now constructor|]. constructor; [exact Hle|].
      eapply Forall_impl; [exact Hy|]. cbn. intros z Hz. lia.
    + constructor; [exact IH|].
      rewrite (insert_perm x rest). constructor; [lia|exact Hy].
Qed.

Lemma insert_scored (k : nat) (x : Recommendation) (l : list Recommendation) :
  falling l -> scored k (insert_by_score x l) = scored k (x :: l).
Proof.
  induction 1 as [|y rest Hrest IH Hy]; [reflexivity|].
  cbn [insert_by_score].
  destruct (Nat.leb_spec (rec_score y) (rec_score x)) as [Hle|Hgt]; [reflexivity|].
  cbn [List.filter] in *. rewrite IH.
  destruct (Nat.eqb_spec (rec_score y) k), (Nat.eqb_spec (rec_score x) k);
    try reflexivity; lia.
Qed.

Lemma sort_perm (l : list Recommendation) : Permutation (sort_by_score l) l.
Proof.
  induction l as [|x l IH]; [reflexivity|].
  cbn. rewrite insert_perm. now constructor.
Qed.

Lemma sort_falling (l : list Recommendation) : falling (sort_by_score l).
Proof.
  induction l as [|x l IH]; cbn; [constructor|now apply insert_falling].
Qed.

Lemma sort_scored (k : nat) (l : list Recommendation) :
  scored k (sort_by_score l) = scored k l.
Proof.
  induction l as [|x l IH]; [reflexivity|].
  cbn [sort_by_score fold_right]. fold (sort_by_score l).
  rewrite insert_scored by apply sort_falling.
  cbn [List.filter]. now rewrite IH.
Qed.

Lemma collect_ok (needs : list string) (language : string)
    (types : list PromptBuilder.TopicDescriptor) (l : list Recommendation) :
  collect needs language types = Ok l ->
  map rec_id l
  = map PromptBuilder.t_id
      (List.filter (fun t => (0 <? matchScore needs t)%nat) types)
  /\ Forall (fun r => 1 <= rec_score r <= length needs) l
  /\ Forall (fun t => (0 <? matchScore needs t)%nat = true ->
                      is_Some (PromptBuilder.t_benefits t !! language)) types.
Proof.
  revert l. induction types as [|type rest IH]; intros l; cbn [collect List.filter].
  - intros [= <-]. repeat split; constructor.
  - destruct (Nat.ltb_spec 0 (matchScore needs type)) as [Hpos|Hzero].
    + destruct (PromptBuilder.t_benefits type !! language) as [benefits|] eqn:Hb;
        [|discriminate].
      destruct (collect needs language rest) as [l'|e]; [|discriminate].
      intros [= <-]. destruct (IH l' eq_refl) as (Hids & Hscores & Hall).
      cbn [map rec_id]. rewrite Hids. repeat split.
      * constructor; [|exact Hscores]. cbn. pose proof (matchScore_le needs type). lia.
      * constructor; [intros _; rewrite Hb; now eexists|exact Hall].
    + intros Hl. destruct (IH l Hl) as (Hids & Hscores & Hall).
      repeat split; try assumption. constructor; [|exact Hall].
      intros Hyes. apply Nat.ltb_lt in Hyes. lia.
Qed.

Lemma collect_throws (needs : list string) (language : string)
    (types : list PromptBuilder.TopicDescriptor) :
  is_ok (collect needs language types) = false <->
  exists t, In t types /\ (0 <? matchScore needs t)%nat = true
            /\ PromptBuilder.t_benefits t !! language = None.
Proof.
  induction types as [|type rest IH]; cbn [collect].
  - split; [discriminate|]. intros (t & [] & _).
  - destruct (0 <? matchScore needs type)%nat eqn:Hpos.
    + destruct (PromptBuilder.t_benefits type !! language) as [benefits|] eqn:Hb.
      * destruct (collect needs language rest) as [l'|e]; cbn [is_ok] in *.
        -- split; [discriminate|]. intros (t & [<-|Hin] & Hyes & Hnone); [congruence|].
           apply IH. now exists t.
        -- split; [intros _|reflexivity].
           destruct (proj1 IH eq_refl) as (t & Hin & Hyes & Hnone).
           exists t. split; [now right|now split].
      * cbn. split; [intros _|reflexivity]. exists type. split; [now left|now split].
    + rewrite IH. split.
      * intros (t & Hin & Hyes & Hnone). exists t. split; [now right|now split].
      * intros (t & [<-|Hin] & Hyes & Hnone); [congruence|]. now exists t.
Qed.

Lemma nothing_matches (needs : list string) (types : list PromptBuilder.TopicDescriptor) :
  (forall t, In t types -> matchScore needs t = 0) ->
  List.filter (fun t => (0 <? matchScore needs t)%nat) types = [].
Proof.
  induction types as [|type rest IH]; intros Hnone; [reflexivity|].
  cbn [List.filter]. rewrite (Hnone type) by now left. cbn.
  apply IH. intros t Ht. apply Hnone. now right.
Qed.

(** X22. What [recommendTopics] returns.  The list holds one entry for each
    topic of the catalogue that has one of the keywords, and no other; an
    entry's score is the number of the keywords the topic has, so at least 1
    and at most the number of keywords given; the entries come by falling
    score, and entries of equal score in the order of the catalogue. *)
Theorem recommendTopics_result (needs : list string) (language : string)
    (l : list Recommendation) :
  recommendTopics meditationConfig needs language = Ok l ->
  Permutation (map rec_id l) (map PromptBuilder.t_id (matching needs))
  /\ length l = length (matching needs)
  /\ Forall (fun r => 1 <= rec_score r <= length needs) l
  /\ falling l
  /\ (forall k, map rec_id (scored k l)
                = map PromptBuilder.t_id
                    (List.filter (fun t => (matchScore needs t =? k)%nat)
                                 (matching needs)))
  /\ ((forall t, In t (PromptBuilder.types meditationConfig) ->
                 matchScore needs t = 0) -> l = []).
Proof.
  unfold recommendTopics.
  destruct (collect needs language (PromptBuilder.types meditationConfig))
    as [found|e] eqn:Hcollect; [|discriminate].
  intros [= <-]. destruct (collect_ok _ _ _ _ Hcollect) as (Hids & Hscores & _).
  assert (Hperm : Permutation (map rec_id (sort_by_score found))
                    (map PromptBuilder.t_id (matching needs))).
  { rewrite <- Hids. apply Permutation_map, sort_perm. }
  split; [exact Hperm|].
  split; [apply Permutation_length in Hperm; now rewrite !List.length_map in Hperm|].
  split; [now rewrite (sort_perm found)|].
  split; [apply sort_falling|]. split.
  - intros k. rewrite sort_scored. clear Hperm Hids Hscores.
    revert found Hcollect.
    induction (PromptBuilder.types meditationConfig) as [|type rest IH]; intros found;
      cbn [collect List.filter].
    + now intros [= <-].
    + destruct (0 <? matchScore needs type)%nat eqn:Hpos; [|apply IH].
      destruct (PromptBuilder.t_benefits type !! language); [|discriminate].
      destruct (collect needs language rest) as [l'|e]; [|discriminate].
      intros [= <-]. cbn [List.filter rec_score].
      destruct (matchScore needs type =? k)%nat; cbn [map rec_id];
        now rewrite (IH l' eq_refl).
  - intros Hnone.
    assert (Hempty : matching needs = []) by now apply nothing_matches.
    rewrite Hempty in Hperm. apply Permutation_length in Hperm.
    rewrite List.length_map in Hperm. now destruct (sort_by_score found).
Qed.

(** X23. [handleTopicRecommendation], for a supported language.  Without
    keywords the answer is the error [INVALID_KEYWORDS].  Otherwise the call
    succeeds, echoes the keywords, shows at most five recommendations and
    reports how many there were.  When no topic has any of the keywords the
    list is empty: the built-in list is not a fallback for that.  The
    built-in list is used only when a topic that matches lacks benefits in
    the language; it has six entries, so [total] is 6 while five are shown,
    and its last entry, ['sleep'], is never shown. *)
Theorem handleTopicRecommendation_answers (ev : RecommendEvent) :
  In (default "zh"%string (re_language ev)) Config.SUPPORTED_LANGUAGES ->
  let language := default "zh"%string (re_language ev) in
  let res := handleTopicRecommendation meditationConfig ev in
  (re_keywords ev = None \/ re_keywords ev = Some [] ->
   rr_success res = false /\ rr_data res = None
   /\ (err_code <$> rr_error res) = Some "INVALID_KEYWORDS"%string)
  /\ forall keywords,
       re_keywords ev = Some keywords -> keywords <> [] ->
       rr_success res = true /\ rr_error res = None
       /\ exists d,
            rr_data res = Some d
            /\ rd_keywords d = keywords
            /\ count (rd_recommendations d) = Nat.min 5 (rd_total d)
            /\ ((forall t, In t (PromptBuilder.types meditationConfig) ->
                           matchScore keywords t = 0) ->
                rd_recommendations d = Matched [] /\ rd_total d = 0)
            /\ ((forall t, In t (PromptBuilder.types meditationConfig) ->
                           (0 <? matchScore keywords t)%nat = true ->
                           is_Some (PromptBuilder.t_benefits t !! language)) ->
                exists l, recommendTopics meditationConfig keywords language = Ok l
                          /\ rd_recommendations d = Matched (firstn 5 l)
                          /\ rd_total d = length (matching keywords))
            /\ ((exists t, In t (PromptBuilder.types meditationConfig)
                           /\ (0 <? matchScore keywords t)%nat = true
                           /\ PromptBuilder.t_benefits t !! language = None) ->
                rd_total d = 6
                /\ exists shown,
                     rd_recommendations d = Defaults shown
                     /\ map dr_id shown
                        = ["quick-relax"; "basic-relaxation"; "breathing";
                           "body-scan"; "mindfulness"]%string).
Proof.
  intros Hlang language res. split.
  - unfold res, handleTopicRecommendation. intros [-> | ->]; now repeat split.
  - intros keywords Hk Hne. unfold res, handleTopicRecommendation. rewrite Hk.
    destruct keywords as [|k ks]; [congruence|]. fold language.
    cbn [rr_success rr_error rr_data].
    split; [reflexivity|]. split; [reflexivity|].
    eexists. split; [reflexivity|]. cbn [rd_keywords rd_recommendations rd_total].
    split; [reflexivity|]. split.
    { destruct (recommendTopics meditationConfig (k :: ks) language); cbn;
        apply List.length_firstn. }
    unfold recommendTopics.
    destruct (collect (k :: ks) language (PromptBuilder.types meditationConfig))
      as [found|e] eqn:Hcollect.
    + pose proof (recommendTopics_result (k :: ks) language (sort_by_score found))
        as Hresult.
      unfold recommendTopics in Hresult. rewrite Hcollect in Hresult.
      destruct (Hresult eq_refl) as (_ & Hlen & _ & _ & _ & Hnone).
      split; [intros Hzero; rewrite (Hnone Hzero); now split|].
      split; [intros _; eexists; repeat split; exact Hlen|].
      intros Hmissing. apply collect_throws in Hmissing.
      rewrite Hcollect in Hmissing. discriminate.
    + assert (Hthrows : is_ok (collect (k :: ks) language
                                 (PromptBuilder.types meditationConfig)) = false)
        by now rewrite Hcollect.
      apply collect_throws in Hthrows as (t & Hin & Hyes & Hb).
      split; [intros Hzero; rewrite (Hzero t Hin) in Hyes; discriminate|].
      split; [intros Hall; destruct (Hall t Hin Hyes) as [b Hsome]; congruence|].
      intros _. unfold getDefaultRecommendations.
      destruct (String.eqb language "en"); cbn; (split; [reflexivity|]);
        eexists; split; reflexivity.
Qed.

End RecommendFacts.

(* ===================================================================== *)
(** ** index.js *)
(* ===================================================================== *)

Section IndexFacts.
Import JS Model.
Variable Payload Request Other : Type.
Variable router : Index.Router Payload Request Other.
Variable clock : Index.Clock.
Variable development : bool.

Local Abbreviation main := (Index.main router clock development).
Local Abbreviation handler := (Index.invoke router).
Local Abbreviation EvHandler := Index.EvHandler.

Lemma route_unknown (type : string) :
  ~ In type ["generate"; "preview"; "batch"; "recommend"; "ping"]%string ->
  Index.route type = None.
Proof.
  intros Hno. unfold Index.route.
  repeat match goal with
         | |- context [String.eqb type ?name] =>
             destruct (String.eqb_spec type name) as [->|_];
             [exfalso; apply Hno; cbn; tauto|]
         end.
  reflexivity.
Qed.

(** X24. How [main] dispatches.  Unless reading the user identifier throws,
    [main] resolves.  Each of the types [generate], [preview], [batch] and
    [recommend] calls its own handler, once, with the event; [ping], also
    taken when no type is given, calls none and answers [pong]; any other
    type calls none and is answered with [INVALID_TYPE], in a response that
    carries no request identifier. *)
Theorem main_dispatch (type : option string) (request : Request)
    (context : Index.Context) :
  (forall e, Index.getUserID context <> Some (Throw e)) ->
  let name := default "ping"%string type in
  let run := main type request context in
  exists response,
    fst run = Ok response
    /\ length (snd run) <= 1
    /\ (name = "generate"%string -> snd run = [EvHandler Index.Generate request])
    /\ (name = "preview"%string -> snd run = [EvHandler Index.Preview request])
    /\ (name = "batch"%string -> snd run = [EvHandler Index.Batch request])
    /\ (name = "recommend"%string -> snd run = [EvHandler Index.Recommend request])
    /\ (name = "ping"%string ->
        snd run = [] /\ Index.success response = true
        /\ Index.data response = Some (Index.Pong (Index.iso clock))
        /\ Index.error response = None)
    /\ (~ In name ["generate"; "preview"; "batch"; "recommend"; "ping"]%string ->
        snd run = [] /\ Index.success response = false
        /\ Index.data response = None
        /\ (fst <$> Index.error response) = Some "INVALID_TYPE"%string
        /\ Index.metadata response = Some Index.no_metadata).
Proof.
  intros Hctx name run. unfold run, Index.main. fold name.
  assert (Hquiet : match Index.getUserID context with
                   | Some (Throw e) => False
                   | _ => True
                   end).
  { destruct (Index.getUserID context) as [[u|e]|] eqn:Hu; try exact I.
    now apply (Hctx e). }
  destruct (Index.getUserID context) as [[u|e]|]; try contradiction;
    (destruct (Index.route name) as [[h|]|] eqn:Hroute;
     [ destruct (Index.invoke router h request) as [[result|]|e'] | | ];
     eexists; (split; [reflexivity|]); (split; [cbn; lia|]);
     repeat match goal with |- _ /\ _ => split end; intros E;
     try apply route_unknown in E; rewrite E in Hroute; cbn in Hroute;
     try discriminate; try injection Hroute as <-; now repeat split).
Qed.

(** X25. What [main] makes of a handler's answer.  The handler's [success],
    [data] and [error] are passed on, and the request identifier, the
    duration and the time stamp are written over its metadata, whose other
    keys are kept.  A handler that throws, or resolves with nothing, does
    not make [main] reject: the answer is [success: false] with the code of
    the error, [INTERNAL_ERROR] when it has none, and a message that is not
    empty; the stack and the event are included in development only.  In
    each case the response carries the request identifier of the context or,
    when that is missing or empty, one made from the clock. *)
Theorem main_wraps_handler (type : option string) (request : Request)
    (context : Index.Context) (h : Index.handler_name) :
  (forall e, Index.getUserID context <> Some (Throw e)) ->
  Index.route (default "ping"%string type) = Some (Some h) ->
  exists response m,
    fst (main type request context) = Ok response
    /\ Index.metadata response = Some m
    /\ Index.md_requestId m = Some (Index.requestId_of clock context)
    /\ Index.md_duration m = Some (Index.elapsed clock)
    /\ Index.md_timestamp m = Some (Index.iso clock)
    /\ (forall id, Index.requestId context = Some id -> id <> ""%string ->
                   Index.md_requestId m = Some id)
    /\ (forall result,
          handler h request = Ok (Some result) ->
          Index.success response = Index.h_success result
          /\ Index.data response = (Index.FromHandler <$> Index.h_data result)
          /\ Index.error response = Index.h_error result
          /\ Index.md_other m = (Index.h_metadata result ≫= Index.md_other)
          /\ Index.md_params m = (Index.h_metadata result ≫= Index.md_params))
    /\ (forall e,
          handler h request = Throw e ->
          Index.success response = false /\ Index.data response = None
          /\ exists message,
               Index.error response
               = Some (str_or (exn_code e) "INTERNAL_ERROR", message)
               /\ message <> ""%string
               /\ (exn_message e <> ""%string -> message = exn_message e)
               /\ Index.md_stack m = (if development then Some (exn_stack e) else None)
               /\ Index.md_params m = (if development then Some request else None))
    /\ (handler h request = Ok None ->
        Index.success response = false /\ Index.data response = None
        /\ (fst <$> Index.error response) = Some "INTERNAL_ERROR"%string).
Proof.
  intros Hctx Hroute. unfold Index.main. rewrite Hroute.
  assert (Hid : forall id, Index.requestId context = Some id -> id <> ""%string ->
                           Index.requestId_of clock context = id).
  { intros id Hsome Hne. unfold Index.requestId_of. rewrite Hsome. cbn.
    now destruct (String.eqb_spec id ""). }
  assert (Hmsg : forall e,
             (if String.eqb (exn_message e) "" then "处理请求时发生内部错误"%string
              else exn_message e) <> ""%string
             /\ (exn_message e <> ""%string ->
                 (if String.eqb (exn_message e) "" then "处理请求时发生内部错误"%string
                  else exn_message e) = exn_message e)).
  { intros e. destruct (String.eqb_spec (exn_message e) ""); split; congruence. }
  assert (Hquiet : match Index.getUserID context with
                   | Some (Throw e) => False
                   | _ => True
                   end).
  { destruct (Index.getUserID context) as [[u|e]|] eqn:Hu; try exact I.
    now apply (Hctx e). }
  destruct (Index.getUserID context) as [[u|e]|]; try contradiction;
    (destruct (Index.invoke router h request) as [[result|]|e'] eqn:Hcall;
     do 2 eexists; (split; [reflexivity|]); (split; [reflexivity|]);
     cbn [Index.stamped Index.caught Index.errorResponse Index.md_requestId
          Index.md_duration Index.md_timestamp Index.md_other Index.md_stack
          Index.md_params
          Index.success Index.data Index.error fmap option_fmap option_map fst];
     (split; [reflexivity|]); (split; [reflexivity|]); (split; [reflexivity|]);
     (split; [intros id Hsome Hne; now rewrite (Hid id Hsome Hne)|]);
     (split; [intros result' [= <-] || intros result' [=]|]);
     [ repeat split; now destruct (Index.h_metadata result)
     | split; [intros e0 [=]|intros [=]]
     | split; [intros e0 [=]|intros _; now repeat split]
     | split; [intros e0 [= <-]|intros [=]];
       (split; [reflexivity|]); (split; [reflexivity|]);
       eexists; (split; [reflexivity|]); destruct (Hmsg e') as [Hne Hkeep];
       (split; [exact Hne|]); (split; [exact Hkeep|]); (split; reflexivity) ]).
Qed.

End IndexFacts.

(* ===================================================================== *)
(** ** The token budget for whole minutes *)
(* ===================================================================== *)

(** X26. For a whole number of minutes between 1 and 60 the two routers ask
    for the same number of tokens, 315 a minute: the floating-point product
    of the four factors is floored to exactly that; in quick mode the
    budget is 252 a minute. *)
Theorem token_budget_whole_minutes (n : nat) :
  1 <= n <= 60 ->
  GenerateMeditation.calculateMaxTokens (JS.of_nat n) = JS.of_nat (315 * n)
  /\ MeditationGuide.calculateMaxTokens (JS.of_nat n) false = JS.of_nat (315 * n)
  /\ MeditationGuide.calculateMaxTokens (JS.of_nat n) true = JS.of_nat (252 * n).
Proof.
  intros Hn.
  do 61 (destruct n as [|n]; [first [lia | vm_compute; repeat split; reflexivity]|]).
  lia.
Qed.

(* ===================================================================== *)
(** ** The further theorems on the sample services *)
(* ===================================================================== *)

Lemma hq_changes_nothing_witness :
  @Tts.normalize Sample.runtime Sample.loud_fast
  = @Tts.normalize Sample.runtime Sample.loud_fast_plain
  /\ @Tts.prepare Sample.runtime (JS.VStr Sample.hello) Sample.loud_fast
     = @Tts.prepare Sample.runtime (JS.VStr Sample.hello) Sample.loud_fast_plain.
Proof.
  apply (@hq_changes_nothing Sample.runtime Sample.loud_fast Sample.loud_fast_plain
           Sample.hello); reflexivity.
Defined.

Lemma provider_gets_the_normalised_options_witness :
  Tts.Text Sample.loud_fast_request = Sample.hello
  /\ Tts.VoiceType Sample.loud_fast_request
     = Tts.voiceType (@Tts.normalize Sample.runtime Sample.loud_fast)
  /\ Tts.Speed Sample.loud_fast_request
     = Tts.speed (@Tts.normalize Sample.runtime Sample.loud_fast)
  /\ Tts.Volume Sample.loud_fast_request
     = Tts.volume (@Tts.normalize Sample.runtime Sample.loud_fast)
  /\ Tts.SampleRate Sample.loud_fast_request
     = Tts.sampleRate (@Tts.normalize Sample.runtime Sample.loud_fast).
Proof.
  apply (@provider_gets_the_normalised_options Sample.runtime Sample.cfg Sample.remote_up
           Sample.hello Sample.loud_fast 0 Sample.loud_fast_request).
  vm_compute. right. left. reflexivity.
Defined.

Lemma synthesis_result_shape_witness :
  Tts.sr_base64 Sample.cached_result = None
  /\ Traces.count Traces.is_textToVoice
       (snd (@Tts.synthesizeSpeech Sample.runtime Sample.cfg Sample.remote_cached
               (JS.VStr Sample.hello) Tts.no_opts)) = 0.
Proof.
  destruct (@synthesis_result_shape Sample.runtime Sample.cfg Sample.remote_cached
              (JS.VStr Sample.hello) Tts.no_opts Sample.cached_result eq_refl)
    as (_ & Hhit & _).
  split; [reflexivity|]. now apply Hhit.
Defined.

Lemma upload_failure_is_not_fatal_witness :
  exists r,
    fst (@Tts.synthesizeSpeech Sample.runtime Sample.cfg Sample.remote_unpadded
           (JS.VStr Sample.hello) Tts.no_opts) = JS.Ok r
    /\ Tts.sr_base64 r = Some "data:audio/mpeg;base64,QUI="%string
    /\ Tts.sr_url r = None.
Proof.
  destruct (@upload_failure_is_not_fatal Sample.runtime Sample.cfg Sample.remote_unpadded
              Sample.hello Tts.no_opts 0 "QUI"%string)
    as (r & Hr & Hb & Hurl & _).
  - discriminate.
  - vm_compute. discriminate.
  - intros key. discriminate.
  - lia.
  - intros j Hj. lia.
  - reflexivity.
  - exists r. split; [exact Hr|]. split; [exact Hb|].
    destruct (Tts.sr_url r) as [u|]; [|reflexivity].
    destruct (proj1 Hurl ltac:(discriminate)) as [_ [Hput|Hput]]; discriminate.
Defined.

Lemma callLLM_request_defaults_witness :
  CallLLM.b_temperature Sample.cold_body = 0.7%float
  /\ JS.truthy_number (CallLLM.b_temperature Sample.cold_body) = true.
Proof.
  destruct (callLLM_request_defaults Sample.hunyuan Sample.post_script Sample.cold
              CallLLM.default_endpoint Sample.cold_body)
    as (_ & _ & _ & Htemp & _ & Hzero).
  - left. reflexivity.
  - split; [|exact Htemp]. now apply (Hzero _ eq_refl).
Defined.

Lemma callLLM_takes_first_text_witness :
  Model.r_success (fst (CallLLM.callLLM Sample.hunyuan Sample.post_second
                          (CallLLM.Prompt "breathe"))) = true
  /\ (Model.r_data (fst (CallLLM.callLLM Sample.hunyuan Sample.post_second
                           (CallLLM.Prompt "breathe"))) ≫= Model.d_text)
     = Some Sample.script.
Proof.
  destruct (callLLM_takes_first_text Sample.hunyuan Sample.post_second
              (CallLLM.Prompt "breathe") (Some Sample.second_place) eq_refl eq_refl)
    as (Hok & Htext & _).
  split; [|exact Htext]. apply Hok. discriminate.
Defined.

Lemma guide_metadata_agree_witness :
  exists d,
    MeditationGuide.data (fst (Sample.guide Sample.two_minutes)) = Some d
    /\ MeditationGuide.m_mode (MeditationGuide.metadata d) = "quick"%string
    /\ MeditationGuide.m_textLength (MeditationGuide.metadata d) = 4
    /\ MeditationGuide.m_wordCount (MeditationGuide.metadata d) = 4.
Proof.
  destruct (@guide_metadata_agree Sample.runtime Sample.env Sample.catalog Sample.llm
              (@MeditationGuide.ttsModule Sample.runtime Sample.cfg Sample.remote_up)
              Sample.clock Sample.two_minutes eq_refl)
    as (d & Hd & _ & Hdur & _ & _ & _ & Hmode & _ & Hlen & _ & Hwords & _).
  exists d. split; [exact Hd|].
  assert (Ed : Some d = MeditationGuide.data (fst (Sample.guide Sample.two_minutes)))
    by (symmetry; exact Hd).
  vm_compute in Ed. injection Ed as ->. now repeat split.
Defined.

Lemma guide_audio_origin_witness :
  exists d,
    MeditationGuide.data (fst (Sample.guide_speech_down Sample.voiced)) = Some d
    /\ MeditationGuide.audio d = None.
Proof.
  destruct (@guide_audio_origin Sample.runtime Sample.env Sample.catalog Sample.llm
              Sample.speech_throws Sample.clock Sample.voiced eq_refl)
    as (d & Hd & Haudio & _).
  exists d. split; [exact Hd|].
  destruct (MeditationGuide.audio d) as [a|]; [|reflexivity].
  destruct (proj1 Haudio ltac:(now eexists)) as (_ & r & Hr & _). discriminate.
Defined.

Lemma guide_over_call_llm_witness :
  MeditationGuide.success (fst (Sample.guide_over_client Sample.voiced)) = false
  /\ (Model.err_code <$> MeditationGuide.error (fst (Sample.guide_over_client Sample.voiced)))
     = Some "HTTP_ERROR"%string.
Proof.
  destruct (@guide_over_call_llm Sample.runtime Sample.env Sample.catalog Sample.hunyuan
              Sample.post_down Sample.speech_throws Sample.clock Sample.voiced eq_refl)
    as (Hs & Herr & _).
  split; [exact Hs|]. destruct (Herr eq_refl) as [He _].
  unfold Sample.guide_over_client. now rewrite He.
Defined.

Lemma generate_over_call_llm_witness :
  GenerateMeditation.success (fst (Sample.generate_over_client Sample.plain)) = false
  /\ (Model.err_code
        <$> GenerateMeditation.error (fst (Sample.generate_over_client Sample.plain)))
     = Some "GENERATION_ERROR"%string.
Proof.
  destruct (@generate_over_call_llm Sample.runtime Sample.env Sample.catalog Sample.hunyuan
              Sample.post_down Sample.clock GenerateMeditation.utils_tts Sample.plain
              eq_refl)
    as (_ & _ & Hfail & _).
  destruct (Hfail eq_refl) as (Hs & _ & Hcode & _). split; assumption.
Defined.

Lemma batch_base_topic_overrides_names_witness :
  exists d,
    MeditationGuide.b_data
      (fst (@MeditationGuide.handleBatchGeneration Sample.runtime Sample.env_strict
              Sample.catalog Sample.llm Sample.speech_throws Sample.clock
              Sample.batch_named)) = Some d
    /\ map MeditationGuide.i_topic (MeditationGuide.results d)
       = [Some "sleep"%string; Some "sleep"%string]
    /\ map MeditationGuide.i_success (MeditationGuide.results d) = [true; true].
Proof.
  destruct (@batch_base_topic_overrides_names Sample.runtime Sample.env_strict
              Sample.catalog Sample.llm Sample.speech_throws Sample.clock
              Sample.batch_named Sample.base_sleep ["焦虑"; "专注"]%string
              "sleep"%string eq_refl ltac:(discriminate) eq_refl eq_refl)
    as ((d & Hd & Hresults & _) & _).
  exists d. split; [exact Hd|]. rewrite Hresults. split; reflexivity.
Defined.

Lemma recommendTopics_result_witness :
  Recommend.recommendTopics Sample.catalog ["失眠"; "入睡"; "噩梦"]%string "zh"
  = JS.Ok [Sample.sleep_recommended]
  /\ Forall (fun r => 1 <= Recommend.rec_score r <= 3) [Sample.sleep_recommended].
Proof.
  split; [reflexivity|].
  now destruct (recommendTopics_result Sample.catalog ["失眠"; "入睡"; "噩梦"]%string
                  "zh" [Sample.sleep_recommended] eq_refl)
    as (_ & _ & Hscores & _).
Defined.

Lemma handleTopicRecommendation_answers_witness :
  exists d,
    Recommend.rr_data
      (Recommend.handleTopicRecommendation Sample.catalog_no_benefits Sample.insomnia)
    = Some d
    /\ Recommend.rd_total d = 6
    /\ Recommend.count (Recommend.rd_recommendations d) = 5.
Proof.
  destruct (handleTopicRecommendation_answers Sample.catalog_no_benefits Sample.insomnia)
    as (_ & Hsome).
  - left. reflexivity.
  - destruct (Hsome ["失眠"; "入睡"; "噩梦"]%string eq_refl ltac:(discriminate))
      as (_ & _ & d & Hd & _ & Hcount & _ & _ & Hdefaults).
    exists d. split; [exact Hd|].
    destruct Hdefaults as (Htotal & _).
    + eexists. split; [left; reflexivity|]. split; reflexivity.
    + split; [exact Htotal|]. now rewrite Hcount, Htotal.
Defined.

Lemma main_dispatch_witness :
  snd (Index.main Sample.router Sample.index_clock false (Some "preview"%string) tt
         Sample.context)
  = [Index.EvHandler Index.Preview tt]
  /\ snd (Index.main Sample.router Sample.index_clock false (Some "delete"%string) tt
            Sample.context) = [].
Proof.
  destruct (main_dispatch string unit unit Sample.router Sample.index_clock false
              (Some "preview"%string) tt Sample.context)
    as (response & _ & _ & _ & Hpreview & _); [discriminate|].
  destruct (main_dispatch string unit unit Sample.router Sample.index_clock false
              (Some "delete"%string) tt Sample.context)
    as (response' & _ & _ & _ & _ & _ & _ & _ & Hunknown); [discriminate|].
  split; [now apply Hpreview|].
  apply Hunknown. cbn. intros [E|[E|[E|[E|[E|[]]]]]]; discriminate.
Defined.

Lemma main_wraps_handler_witness :
  exists response,
    fst (Index.main Sample.router Sample.index_clock false (Some "preview"%string) tt
           Sample.context) = JS.Ok response
    /\ Index.success response = false
    /\ (fst <$> Index.error response) = Some "QUOTA"%string
    /\ (Index.md_requestId <$> Index.metadata response) = Some (Some "req-7"%string).
Proof.
  destruct (main_wraps_handler string unit unit Sample.router Sample.index_clock false
              (Some "preview"%string) tt Sample.context Index.Preview)
    as (response & m & Hr & Hm & _ & _ & _ & Hid & _ & Hthrow & _);
    [discriminate|reflexivity|].
  exists response. split; [exact Hr|].
  destruct (Hthrow _ eq_refl) as (Hs & _ & message & He & _).
  split; [exact Hs|]. split; [now rewrite He|].
  rewrite Hm. cbn. f_equal. apply Hid; [reflexivity|discriminate].
Defined.

Lemma token_budget_whole_minutes_witness :
  GenerateMeditation.calculateMaxTokens 10 = 3150%float
  /\ MeditationGuide.calculateMaxTokens 10 false = 3150%float
  /\ MeditationGuide.calculateMaxTokens 10 true = 2520%float.
Proof. apply (token_budget_whole_minutes 10). lia. Defined.
